(** * AllWrite: the panel layout engine

    A shallow embedding of the layout-affecting code of the application:
    the panel system (creation, dragging, snapshot and restore of panels),
    the layout template registry, the section setup dialog, and the parts
    of the application coordinator that load a section, save the layout
    state and split the character section between list and editor.

    JavaScript numbers are IEEE 754 binary64 values.  Pixel coordinates
    and sizes are integers far below 2^53, where binary64 addition,
    subtraction and comparison are exact, so they are carried as [Z]; the
    two products with the fractions 0.70 and 0.65 are computed in binary64
    (module [Num]) and brought back to [Z] by [Math.floor]. *)

From Stdlib Require Import ZArith Lia List String SpecFloat.
From stdpp Require Import gmap strings list.

Local Open Scope Z_scope.

(** ** JavaScript numbers *)

Module Num.

Definition prec : Z := 53.
Definition emax : Z := 1024.

Definition mul : spec_float -> spec_float -> spec_float := SFmul prec emax.
Definition sub : spec_float -> spec_float -> spec_float := SFsub prec emax.
Definition div : spec_float -> spec_float -> spec_float := SFdiv prec emax.

(** The binary64 value of an integer (exact below 2^53). *)
Definition of_Z (z : Z) : spec_float := binary_normalize prec emax z 0 false.

(** The literal [0.70]: the binary64 value nearest to 7/10,
    0x1.6666666666666p-1. *)
Definition lit_0_70 : spec_float := S754_finite false 6305039478318694 (-53).

(** The literal [0.65]: the binary64 value nearest to 65/100,
    0x1.4cccccccccccdp-1. *)
Definition lit_0_65 : spec_float := S754_finite false 5854679515581645 (-53).

(** [Math.floor] on a number; [None] stands for the results that are not
    integers (NaN and the infinities). *)
Definition floor (f : spec_float) : option Z :=
  match f with
  | S754_zero _ => Some 0
  | S754_finite s m e =>
      let n := if s then Z.neg m else Z.pos m in
      Some (if 0 <=? e then n * 2 ^ e else n / 2 ^ (- e))
  | S754_infinity _ | S754_nan => None
  end.

End Num.

(** [Math.max] and [Math.min] on integer-valued numbers. *)
Definition Math_max (a b : Z) : Z := Z.max a b.
Definition Math_min (a b : Z) : Z := Z.min a b.

(** ** Adaptive split of the character section (app.js)

    [const clamp = (val, min, max) => Math.max(min, Math.min(max, val))] *)

Definition clamp (val min max : Z) : Z := Math_max min (Math_min max val).

Inductive ViewMode := ViewList | ViewCard | ViewImportance.

Module Split.

Definition minEditorPx : Z := 320.
Definition gapPx : Z := 10.

(** [currentView === 'importance' ? 0.65 : 0.70] *)
Definition maxEditorPct (currentView : ViewMode) : spec_float :=
  match currentView with
  | ViewImportance => Num.lit_0_65
  | _ => Num.lit_0_70
  end.

(** [Math.floor(containerWidth * (1 - maxEditorPct))] *)
Definition baseListWidth (containerWidth : Z) (v : ViewMode) : option Z :=
  Num.floor (Num.mul (Num.of_Z containerWidth)
                     (Num.sub (Num.of_Z 1) (maxEditorPct v))).

(** [containerWidth - listWidth - gapPx] *)
Definition baseEditorWidth (containerWidth listWidth : Z) : Z :=
  containerWidth - listWidth - gapPx.

(** [Math.floor(containerWidth * maxEditorPct)] *)
Definition editorCap (containerWidth : Z) (v : ViewMode) : option Z :=
  Num.floor (Num.mul (Num.of_Z containerWidth) (maxEditorPct v)).

(** [clamp(editorWidth, minEditorPx, Math.floor(containerWidth * maxEditorPct))] *)
Definition clampedEditorWidth (editorWidth cap : Z) : Z :=
  clamp editorWidth minEditorPx cap.

(** [clamp(containerWidth - editorWidth - gapPx, 280, containerWidth)] *)
Definition finalListWidth (containerWidth editorWidth : Z) : Z :=
  clamp (containerWidth - editorWidth - gapPx) 280 containerWidth.

(** The widths computed by the editor-visible branch of
    [adjustCharacterPanelLayout]: the pair (listWidth, editorWidth). *)
Definition widths (containerWidth : Z) (v : ViewMode) : option (Z * Z) :=
  match baseListWidth containerWidth v, editorCap containerWidth v with
  | Some listWidth0, Some cap =>
      let editorWidth0 := baseEditorWidth containerWidth listWidth0 in
      let editorWidth := clampedEditorWidth editorWidth0 cap in
      let listWidth := finalListWidth containerWidth editorWidth in
      Some (listWidth, editorWidth)
  | _, _ => None
  end.

End Split.

(** ** Panel configurations (the entries of a layout template and of a
    snapshot)

    A property that is absent reads as [undefined], which is falsy: a
    configuration without [hidden] has [hidden = false]. *)

Module PanelConfig.
Record t := mk {
  id : string;
  title : string;
  x : Z;
  y : Z;
  width : Z;
  height : Z;
  hidden : bool
}.
End PanelConfig.

(** ** The document

    Only what the layout code reads and writes is kept of an element: its
    id, the inline style properties [left], [top], [display] and
    [zIndex], its width and height (lengths in px), the class [dragging]
    and its parent.  [width] and [height] are what the inline style says
    where it has a width or a height, and what the layout gives the
    element where it has none.  Elements are objects with identity: the
    document holds them in a heap indexed by handles, and a handle is
    what the panel system stores and what [draggingPanel] refers to. *)

Inductive Display := DisplayUnset | DisplayNone | DisplayBlock.

Definition Display_eqb (a b : Display) : bool :=
  match a, b with
  | DisplayUnset, DisplayUnset | DisplayNone, DisplayNone
  | DisplayBlock, DisplayBlock => true
  | _, _ => false
  end.

Module Element.
Record t := mk {
  id : string;
  left : Z;
  top : Z;
  width : Z;
  height : Z;
  display : Display;
  zIndex : option Z;
  dragging : bool;
  parentElement : option nat
}.

Definition set_left (v : Z) (e : t) : t :=
  mk (id e) v (top e) (width e) (height e) (display e) (zIndex e)
     (dragging e) (parentElement e).
Definition set_top (v : Z) (e : t) : t :=
  mk (id e) (left e) v (width e) (height e) (display e) (zIndex e)
     (dragging e) (parentElement e).

(** [style.width = v + 'px'] and [style.height = v + 'px'].  A negative
    length is not a valid width or height: the assignment is ignored
    and the property keeps the value it has. *)
Definition set_width (v : Z) (e : t) : t :=
  if 0 <=? v
  then mk (id e) (left e) (top e) v (height e) (display e) (zIndex e)
          (dragging e) (parentElement e)
  else e.
Definition set_height (v : Z) (e : t) : t :=
  if 0 <=? v
  then mk (id e) (left e) (top e) (width e) v (display e) (zIndex e)
          (dragging e) (parentElement e)
  else e.

Definition set_display (v : Display) (e : t) : t :=
  mk (id e) (left e) (top e) (width e) (height e) v (zIndex e)
     (dragging e) (parentElement e).

(** The greatest z-index: the engine keeps a greater one as this one. *)
Definition zIndexMax : Z := 2147483647.

(** [style.zIndex = v] for a number [v] that is not negative. *)
Definition set_zIndex (v : Z) (e : t) : t :=
  mk (id e) (left e) (top e) (width e) (height e) (display e)
     (Some (Math_min v zIndexMax)) (dragging e) (parentElement e).
Definition set_dragging (v : bool) (e : t) : t :=
  mk (id e) (left e) (top e) (width e) (height e) (display e) (zIndex e)
     v (parentElement e).

(** [element.remove()] and [container.appendChild(element)] *)
Definition remove (e : t) : t :=
  mk (id e) (left e) (top e) (width e) (height e) (display e) (zIndex e)
     (dragging e) None.
Definition appendTo (container : nat) (e : t) : t :=
  mk (id e) (left e) (top e) (width e) (height e) (display e) (zIndex e)
     (dragging e) (Some container).

(** An element produces a box when it is attached and its [display] is
    not [none]. *)
Definition rendered (e : t) : bool :=
  match parentElement e, display e with
  | Some _, DisplayUnset | Some _, DisplayBlock => true
  | _, _ => false
  end.

(** [offsetWidth] and [offsetHeight]: the size of the box the element
    produces, 0 when it produces none.  The stylesheet is not part of
    the sources; a rendered panel is taken to be as wide and as high as
    its inline style says, where it says so. *)
Definition offsetWidth (e : t) : Z := if rendered e then width e else 0.
Definition offsetHeight (e : t) : Z := if rendered e then height e else 0.

(** The element that never was: what a handle outside the heap reads. *)
Definition nothing : t :=
  mk "" 0 0 0 0 DisplayNone None false None.
End Element.

(** The box of a layout container ([getBoundingClientRect], and
    [offsetWidth] and [offsetHeight], which agree with it in size). *)
Module Box.
Record t := mk { left : Z; top : Z; width : Z; height : Z }.
End Box.

(** [intrinsic] is the part of the layout that the stylesheet and the
    contents of a panel decide: the width and the height of a panel
    built from a configuration in a container, for an inline style
    without a width or without a height. *)
Module Dom.
Record t := mk {
  elements : list Element.t;
  containers : nat -> Box.t;
  intrinsic : PanelConfig.t -> nat -> Z * Z
}.

Definition get (h : nat) (d : t) : Element.t :=
  default Element.nothing (elements d !! h).

Definition update (f : Element.t -> Element.t) (h : nat) (d : t) : t :=
  mk (alter f h (elements d)) (containers d) (intrinsic d).

(** [document.createElement] followed by [container.appendChild]: the
    new element gets the next handle. *)
Definition append (e : Element.t) (d : t) : t :=
  mk (elements d ++ [e]) (containers d) (intrinsic d).

Definition fresh (d : t) : nat := length (elements d).

(** [getBoundingClientRect()] of a panel: panels are positioned inside
    their container by [left] and [top]; an element that produces no
    box has an all-zero rectangle. *)
Definition rect_left (h : nat) (d : t) : Z :=
  let e := get h d in
  match Element.parentElement e with
  | Some c => if Element.rendered e
              then Box.left (containers d c) + Element.left e else 0
  | None => 0
  end.
Definition rect_top (h : nat) (d : t) : Z :=
  let e := get h d in
  match Element.parentElement e with
  | Some c => if Element.rendered e
              then Box.top (containers d c) + Element.top e else 0
  | None => 0
  end.
End Dom.

(** ** A JavaScript [Map] with string keys: entries in insertion order,
    at most one per key. *)

Module JsMap.
Section Ops.
Context {V : Type}.

Definition t := list (string * V).

Fixpoint get (k : string) (m : t) : option V :=
  match m with
  | [] => None
  | (k', v) :: r => if String.eqb k k' then Some v else get k r
  end.

(** [set] replaces the value of a key in place and appends a new key. *)
Fixpoint set (k : string) (v : V) (m : t) : t :=
  match m with
  | [] => [(k, v)]
  | (k', v') :: r =>
      if String.eqb k k' then (k, v) :: r else (k', v') :: set k v r
  end.

Definition delete (k : string) (m : t) : t :=
  List.filter (fun kv => negb (String.eqb k (fst kv))) m.

Definition keys (m : t) : list string := map fst m.
Definition values (m : t) : list V := map snd m.
End Ops.
Arguments t : clear implicits.
End JsMap.

Record MouseEvent := { clientX : Z; clientY : Z }.

(** ** The panel system (class [PanelSystem]) *)

Module PanelSystem.

Record Entry := { element : nat; config : PanelConfig.t }.

Record t := mk {
  panels : JsMap.t Entry;
  draggingPanel : option nat;
  dragOffset : Z * Z;
  document : Dom.t
}.

Definition new (d : Dom.t) : t := mk [] None (0, 0) d.

Definition with_document (d : Dom.t) (s : t) : t :=
  mk (panels s) (draggingPanel s) (dragOffset s) d.

(** The element [createPanel] builds and attaches:
    [document.createElement('div')] with the id, then the four
    assignments to its style, [display] if the configuration is hidden,
    and [container.appendChild]. *)
Definition panelElement (panelConfig : PanelConfig.t) (container : nat)
    (d : Dom.t) : Element.t :=
  let auto := Dom.intrinsic d panelConfig container in
  let panel :=
    Element.mk (PanelConfig.id panelConfig) 0 0 (fst auto) (snd auto)
      DisplayUnset None false None in
  let panel :=
    Element.set_height (PanelConfig.height panelConfig)
      (Element.set_width (PanelConfig.width panelConfig)
         (Element.set_top (PanelConfig.y panelConfig)
            (Element.set_left (PanelConfig.x panelConfig) panel))) in
  let panel :=
    if PanelConfig.hidden panelConfig
    then Element.set_display DisplayNone panel else panel in
  Element.appendTo container panel.

(** [createPanel(panelConfig, container, onStateChange)].  The header,
    the close button and the content area are children of the panel and
    carry no geometry of their own. *)
Definition createPanel (panelConfig : PanelConfig.t) (container : nat)
    (s : t) : t :=
  let panel := Dom.fresh (document s) in
  mk (JsMap.set (PanelConfig.id panelConfig)
        {| element := panel; config := panelConfig |} (panels s))
     (draggingPanel s) (dragOffset s)
     (Dom.append (panelElement panelConfig container (document s))
        (document s)).

(** [getHighestZIndex()]: [parseInt(...) || 0] reads [auto] as 0. *)
Definition getHighestZIndex (s : t) : Z :=
  fold_left
    (fun highest kv =>
       Math_max highest
         (default 0 (Element.zIndex (Dom.get (element (snd kv)) (document s)))))
    (panels s) 0.

(** [startDrag(e, panel)] *)
Definition startDrag (e : MouseEvent) (panel : nat) (s : t) : t :=
  let d1 := Dom.update (Element.set_dragging true) panel (document s) in
  let offset := (clientX e - Dom.rect_left panel d1,
                 clientY e - Dom.rect_top panel d1) in
  let s1 := mk (panels s) (Some panel) offset d1 in
  with_document
    (Dom.update (Element.set_zIndex (getHighestZIndex s1 + 1)) panel d1) s1.

(** The position [drag] assigns on one axis:
    [Math.max(0, Math.min(x, containerSize - panelSize))]. *)
Definition dragClamp (x containerSize panelSize : Z) : Z :=
  Math_max 0 (Math_min x (containerSize - panelSize)).

(** [drag(e)].  [None] is the TypeError raised by
    [container.getBoundingClientRect()] when the dragged panel has no
    parent; it is raised before anything is assigned. *)
Definition drag (e : MouseEvent) (s : t) : option t :=
  match draggingPanel s with
  | None => Some s
  | Some panel =>
      match Element.parentElement (Dom.get panel (document s)) with
      | None => None
      | Some container =>
          let containerRect := Dom.containers (document s) container in
          let el := Dom.get panel (document s) in
          let x := clientX e - Box.left containerRect - fst (dragOffset s) in
          let y := clientY e - Box.top containerRect - snd (dragOffset s) in
          let x := dragClamp x (Box.width containerRect) (Element.offsetWidth el) in
          let y := dragClamp y (Box.height containerRect) (Element.offsetHeight el) in
          Some (with_document
                  (Dom.update (fun p => Element.set_top y (Element.set_left x p))
                     panel (document s)) s)
      end
  end.

(** The [mousemove] listener: an exception that escapes a listener
    leaves the state as it was. *)
Definition onMouseMove (e : MouseEvent) (s : t) : t :=
  default s (drag e s).

(** A pointer trajectory: the [mousemove] events in order. *)
Definition trajectory (es : list MouseEvent) (s : t) : t :=
  fold_left (fun s e => onMouseMove e s) es s.

(** [stopDrag(onStateChange)]: the state after it, and whether
    [onStateChange] is to be called. *)
Definition stopDrag (s : t) : t * bool :=
  match draggingPanel s with
  | Some panel =>
      (mk (panels s) None (dragOffset s)
          (Dom.update (Element.set_dragging false) panel (document s)),
       true)
  | None => (s, false)
  end.

(** [removePanel(panelId)] *)
Definition removePanel (panelId : string) (s : t) : t :=
  match JsMap.get panelId (panels s) with
  | Some panel =>
      mk (JsMap.delete panelId (panels s)) (draggingPanel s) (dragOffset s)
         (Dom.update Element.remove (element panel) (document s))
  | None => s
  end.

(** [clearAllPanels(container)]: the parameter is not used. *)
Definition clearAllPanels (container : nat) (s : t) : t :=
  mk [] (draggingPanel s) (dragOffset s)
     (fold_left (fun d kv => Dom.update Element.remove (element (snd kv)) d)
        (panels s) (document s)).

(** [getPanelState()]: [style.left] and [style.top] hold ["<n>px"],
    which [parseInt] reads back as [n]. *)
Definition panelState (d : Dom.t) (panel : Entry) : PanelConfig.t :=
  let el := Dom.get (element panel) d in
  PanelConfig.mk (PanelConfig.id (config panel))
    (PanelConfig.title (config panel))
    (Element.left el) (Element.top el)
    (Element.offsetWidth el) (Element.offsetHeight el) false.

Definition getPanelState (s : t) : list PanelConfig.t :=
  map (fun kv => panelState (document s) (snd kv)) (panels s).

(** The four assignments of [restorePanelState] to one element; those
    of a negative width or height are ignored. *)
Definition applyState (panelState : PanelConfig.t) (el : Element.t)
  : Element.t :=
  Element.set_height (PanelConfig.height panelState)
    (Element.set_width (PanelConfig.width panelState)
       (Element.set_top (PanelConfig.y panelState)
          (Element.set_left (PanelConfig.x panelState) el))).

Definition restoreOne (ps : JsMap.t Entry) (d : Dom.t)
    (panelState : PanelConfig.t) : Dom.t :=
  match JsMap.get (PanelConfig.id panelState) ps with
  | Some panel => Dom.update (applyState panelState) (element panel) d
  | None => d
  end.

(** [restorePanelState(state, container)] *)
Definition restorePanelState (state : list PanelConfig.t) (container : nat)
    (s : t) : t :=
  with_document (fold_left (restoreOne (panels s)) state (document s)) s.

Definition setDisplay (v : Display) (panelId : string) (s : t) : t :=
  match JsMap.get panelId (panels s) with
  | Some panel =>
      with_document (Dom.update (Element.set_display v) (element panel)
                       (document s)) s
  | None => s
  end.

(** [showPanel(panelId)], [hidePanel(panelId)], [togglePanel(panelId)] *)
Definition showPanel (panelId : string) (s : t) : t :=
  setDisplay DisplayBlock panelId s.
Definition hidePanel (panelId : string) (s : t) : t :=
  setDisplay DisplayNone panelId s.
Definition togglePanel (panelId : string) (s : t) : t :=
  match JsMap.get panelId (panels s) with
  | Some panel =>
      let isHidden :=
        Display_eqb (Element.display (Dom.get (element panel) (document s)))
                    DisplayNone in
      setDisplay (if isHidden then DisplayBlock else DisplayNone) panelId s
  | None => s
  end.

(** The calls a client or a listener can make on a panel system, and a
    run of such calls from left to right. *)
Inductive Call :=
| CreatePanel (panelConfig : PanelConfig.t) (container : nat)
| RemovePanel (panelId : string)
| ClearAllPanels (container : nat)
| StartDrag (e : MouseEvent) (panel : nat)
| MouseMove (e : MouseEvent)
| StopDrag
| RestorePanelState (state : list PanelConfig.t) (container : nat)
| ShowPanel (panelId : string)
| HidePanel (panelId : string)
| TogglePanel (panelId : string).

Definition call (s : t) (c : Call) : t :=
  match c with
  | CreatePanel panelConfig container => createPanel panelConfig container s
  | RemovePanel panelId => removePanel panelId s
  | ClearAllPanels container => clearAllPanels container s
  | StartDrag e panel => startDrag e panel s
  | MouseMove e => onMouseMove e s
  | StopDrag => fst (stopDrag s)
  | RestorePanelState state container => restorePanelState state container s
  | ShowPanel panelId => showPanel panelId s
  | HidePanel panelId => hidePanel panelId s
  | TogglePanel panelId => togglePanel panelId s
  end.

Definition run (calls : list Call) (s : t) : t := fold_left call calls s.

(** The element and the geometry of a tracked panel. *)
Definition elementOf (panelId : string) (s : t) : option Element.t :=
  match JsMap.get panelId (panels s) with
  | Some panel => Some (Dom.get (element panel) (document s))
  | None => None
  end.

Definition geometry (el : Element.t) : Z * Z * Z * Z :=
  (Element.left el, Element.top el, Element.width el, Element.height el).

(** Well-formed stores: the keys of the map are distinct and are the
    ids of the configurations stored under them, and the handles are
    distinct and allocated.  The empty store is well formed and every
    call keeps a store well formed. *)
Definition handles (s : t) : list nat := map (fun kv => element (snd kv)) (panels s).

Definition wf (s : t) : Prop :=
  NoDup (JsMap.keys (panels s))
  /\ NoDup (handles s)
  /\ Forall (fun kv => PanelConfig.id (config (snd kv)) = fst kv
                       /\ (element (snd kv) < length (Dom.elements (document s)))%nat)
       (panels s).

End PanelSystem.

(** ** The layout templates (the constant [layouts]) *)

Module Layouts.

Record Layout := { name : string; panels : list PanelConfig.t }.

(** A registry maps section names to layouts; [layouts] below is the one
    of the sources.  Every layout of a registry has its [panels]. *)
Abbreviation Registry := (gmap string Layout).

Definition panel (id title : string) (x y width height : Z) : PanelConfig.t :=
  PanelConfig.mk id title x y width height false.

Definition writing : Layout :=
  {| name := "Writing";
     panels := [ panel "editor" "Editor" 0 0 800 600;
                 panel "character-panel" "Characters" 810 0 350 280;
                 panel "world-panel" "World Notes" 810 290 350 310 ] |}.

Definition plotting : Layout :=
  {| name := "Plotting";
     panels := [ panel "plot-board" "Plot Board" 0 0 900 600;
                 panel "story-elements" "Story Elements" 910 0 250 600 ] |}.

Definition characterList : PanelConfig.t :=
  panel "character-list" "Character List" 0 0 1200 600.

Definition characterEditor : PanelConfig.t :=
  PanelConfig.mk "character-editor" "Character Details" 910 0 500 600 true.

Definition characters : Layout :=
  {| name := "Characters"; panels := [ characterList; characterEditor ] |}.

Definition worldbuilding : Layout :=
  {| name := "World Building";
     panels := [ panel "world-tree" "World Structure" 0 0 250 600;
                 panel "world-editor" "World Details" 260 0 900 600 ] |}.

Definition research : Layout :=
  {| name := "Research";
     panels := [ panel "research-list" "Research Items" 0 0 400 600;
                 panel "research-viewer" "Research Details" 410 0 750 600 ] |}.

Definition layouts : Registry :=
  <["writing" := writing]>
    (<["plotting" := plotting]>
       (<["characters" := characters]>
          (<["worldbuilding" := worldbuilding]>
             (<["research" := research]> ∅)))).

End Layouts.

(** [Array.prototype.includes] on an array of strings. *)
Definition includes (l : list string) (s : string) : bool :=
  existsb (String.eqb s) l.

(** ** The setup dialog (class [SetupDialog]) *)

Module SetupDialog.

(** The dialog while it is open: its check boxes, one per available
    panel in order, and [this.selectedPanels]. *)
Record t := mk {
  availablePanels : list PanelConfig.t;
  checked : list bool;
  selectedPanels : list string
}.

(** [show()] up to the point where the dialog is on the page: every box
    is checked and every panel id has been pushed. *)
Definition opened (availablePanels : list PanelConfig.t) : t :=
  mk availablePanels (map (fun _ => true) availablePanels)
     (fold_left (fun sel panel => sel ++ [PanelConfig.id panel])
        availablePanels []).

(** The user clicks the check box of the [i]-th panel: the box flips and
    its [change] listener runs. *)
Definition change (d : t) (i : nat) : t :=
  match availablePanels d !! i, checked d !! i with
  | Some panel, Some c =>
      let target_checked := negb c in
      mk (availablePanels d) (<[i := target_checked]> (checked d))
         (if target_checked
          then if includes (selectedPanels d) (PanelConfig.id panel)
               then selectedPanels d
               else selectedPanels d ++ [PanelConfig.id panel]
          else List.filter
                 (fun id => negb (String.eqb id (PanelConfig.id panel)))
                 (selectedPanels d))
  | _, _ => d
  end.

(** The click on Continue: the value the promise resolves with. *)
Definition continue (d : t) : list PanelConfig.t :=
  List.filter (fun panel => includes (selectedPanels d) (PanelConfig.id panel))
    (availablePanels d).

(** [show()] for a user who clicks the given boxes and then Continue. *)
Definition show (availablePanels : list PanelConfig.t) (clicks : list nat)
  : list PanelConfig.t :=
  continue (fold_left change clicks (opened availablePanels)).

End SetupDialog.

(** ** Projects and characters, as far as saving the state touches them *)

Record CharacterData := {
  characters : list string;
  customFlags : list string
}.

Record Project := {
  project_id : string;
  enabledSections : list string;
  data_characters : CharacterData
}.

Definition set_data_characters (c : CharacterData) (p : Project) : Project :=
  {| project_id := project_id p; enabledSections := enabledSections p;
     data_characters := c |}.

(** [currentProject] is one of the objects of [projects], kept by its
    position. *)
Record ProjectManager := {
  projects : list Project;
  currentProject : option nat
}.

(** ** The application coordinator (class [App], app.js) *)

Module App.

(** The argument of [window.electronAPI.saveLayoutState]. *)
Record SavedState := {
  state_panelLayouts : gmap string (list PanelConfig.t);
  state_setupSections : gmap string bool;
  state_sectionPanelSelections : gmap string (list string);
  state_projects : list Project
}.

(** The callbacks the application hands to [setTimeout]:
    [() => this.saveProjectState()] and
    [() => { this.adjustCharacterPanelLayout(false); }]; and a timer
    that is pending, with the time in ms that is left until it fires. *)
Inductive Task := SaveProjectState | AdjustLayout.

Record Timer := { delay : Z; task : Task }.

(** [sections] maps the names of the section elements the page has to
    their [.layout-container]; [saved] collects the states handed to
    the persistence bridge, oldest first; [timers] are the pending
    timers in the order in which they were set. *)
Record t := mk {
  currentSection : option string;
  panelSystem : PanelSystem.t;
  projectManager : ProjectManager;
  characterManager : option CharacterData;
  isProjectLoaded : bool;
  sections : gmap string nat;
  savedLayouts : gmap string (list PanelConfig.t);
  setupSections : gmap string bool;
  sectionPanelSelections : gmap string (list string);
  saved : list SavedState;
  timers : list Timer
}.

Definition with_panelSystem (ps : PanelSystem.t) (a : t) : t :=
  mk (currentSection a) ps (projectManager a) (characterManager a)
     (isProjectLoaded a) (sections a) (savedLayouts a) (setupSections a)
     (sectionPanelSelections a) (saved a) (timers a).

Definition with_currentSection (c : option string) (a : t) : t :=
  mk c (panelSystem a) (projectManager a) (characterManager a)
     (isProjectLoaded a) (sections a) (savedLayouts a) (setupSections a)
     (sectionPanelSelections a) (saved a) (timers a).

Definition with_setup (layouts : gmap string (list PanelConfig.t))
    (setup : gmap string bool) (selections : gmap string (list string))
    (a : t) : t :=
  mk (currentSection a) (panelSystem a) (projectManager a)
     (characterManager a) (isProjectLoaded a) (sections a) layouts setup
     selections (saved a) (timers a).

Definition with_timers (pending : list Timer) (a : t) : t :=
  mk (currentSection a) (panelSystem a) (projectManager a)
     (characterManager a) (isProjectLoaded a) (sections a) (savedLayouts a)
     (setupSections a) (sectionPanelSelections a) (saved a) pending.

(** [setTimeout(task, ms)] *)
Definition setTimeout (callback : Task) (ms : Z) (a : t) : t :=
  with_timers (timers a ++ [ {| delay := ms; task := callback |} ]) a.

(** [document.getElementById]: the first attached element with the id. *)
Fixpoint findById (id : string) (els : list Element.t) (h : nat) : option nat :=
  match els with
  | [] => None
  | el :: r =>
      if String.eqb (Element.id el) id
         && bool_decide (is_Some (Element.parentElement el))
      then Some h else findById id r (S h)
  end.

Definition getElementById (id : string) (d : Dom.t) : option nat :=
  findById id (Dom.elements d) 0.

(** The truth value of [this.setupSections[sectionName]]. *)
Definition isSetup (sectionName : string) (a : t) : bool :=
  default false (setupSections a !! sectionName).

(** The tail of [loadSection], first part: when there are
    configurations, [panelConfigs.forEach(createPanel)] and the timer
    that saves 50 ms later. *)
Definition instantiate (panelConfigs : list PanelConfig.t) (container : nat)
    (a : t) : t :=
  match panelConfigs with
  | [] => a
  | _ :: _ =>
      setTimeout SaveProjectState 50
        (with_panelSystem
           (fold_left (fun ps panelConfig =>
                         PanelSystem.createPanel panelConfig container ps)
              panelConfigs (panelSystem a)) a)
  end.

(** [initializeCharacterViews()], as far as the layout goes: when the
    page has the list and the editor panel, the views are rendered into
    them, which leaves the geometry of the panels alone and makes
    ['list'] the current view, and a timer of 0 ms is set that gives the
    list the whole container. *)
Definition initializeCharacterViews (a : t) : t :=
  let d := PanelSystem.document (panelSystem a) in
  match getElementById "character-list" d,
        getElementById "character-editor" d with
  | Some _, Some _ => setTimeout AdjustLayout 0 a
  | _, _ => a
  end.

(** The tail of [loadSection]: the panels, then the character views if
    this is the characters section and there is a character manager. *)
Definition finish (sectionName : string) (panelConfigs : list PanelConfig.t)
    (container : nat) (a : t) : t :=
  let a := instantiate panelConfigs container a in
  if String.eqb sectionName "characters"
     && bool_decide (is_Some (characterManager a))
  then initializeCharacterViews a else a.

(** [loadSection(sectionName)] with the template registry [layouts].
    [dialog] is what the user does if the setup dialog opens: the boxes
    clicked before Continue, or [None] if the dialog is never confirmed,
    in which case [loadSection] stays suspended after clearing.  Where
    [panelConfigs] stays undefined the tail runs as for no
    configurations. *)
Definition loadSection (layouts : Layouts.Registry) (sectionName : string)
    (dialog : option (list nat)) (a : t) : t :=
  match sections a !! sectionName with
  | None => a
  | Some container =>
      let a := with_panelSystem
                 (PanelSystem.clearAllPanels container (panelSystem a)) a in
      match savedLayouts a !! sectionName with
      | Some ((_ :: _) as panelConfigs) =>
          let a := if isSetup sectionName a then a
                   else with_setup (savedLayouts a)
                          (<[sectionName := true]> (setupSections a))
                          (sectionPanelSelections a) a in
          finish sectionName panelConfigs container a
      | _ =>
          if negb (isSetup sectionName a) then
            match layouts !! sectionName, dialog with
            | Some layout, Some clicks =>
                let panelConfigs :=
                  SetupDialog.show (Layouts.panels layout) clicks in
                let selectedPanelIds := map PanelConfig.id panelConfigs in
                let a := with_setup
                           (<[sectionName := panelConfigs]> (savedLayouts a))
                           (<[sectionName := true]> (setupSections a))
                           (<[sectionName := selectedPanelIds]>
                              (sectionPanelSelections a)) a in
                finish sectionName panelConfigs container a
            | Some layout, None => a
            | None, _ => finish sectionName [] container a
            end
          else
            let selectedIds :=
              default [] (sectionPanelSelections a !! sectionName) in
            match layouts !! sectionName with
            | Some layout =>
                finish sectionName
                  (List.filter
                     (fun panel => includes selectedIds (PanelConfig.id panel))
                     (Layouts.panels layout))
                  container a
            | None => finish sectionName [] container a
            end
      end
  end.

(** [switchSection(sectionName)].  [None] is the TypeError raised by
    [this.sections[this.currentSection].classList] when the current
    section has no element on the page; it is raised before anything is
    assigned.  [loadSection] is not awaited. *)
Definition switchSection (layouts : Layouts.Registry) (sectionName : string)
    (dialog : option (list nat)) (a : t) : option t :=
  if negb (isProjectLoaded a) then Some a
  else
    let enter :=
      Some (loadSection layouts sectionName dialog
              (with_currentSection (Some sectionName) a)) in
    match currentSection a with
    | None => enter
    | Some current =>
        if String.eqb current "" then enter
        else match sections a !! current with
             | Some _ => enter
             | None => None
             end
    end.

(** [project.data.characters = {characters, customFlags}] on the current
    project, when there is one and a character manager. *)
Definition storeCharacters (a : t) : ProjectManager :=
  match currentProject (projectManager a), characterManager a with
  | Some i, Some cm =>
      {| projects := alter (set_data_characters cm) i
                       (projects (projectManager a));
         currentProject := Some i |}
  | _, _ => projectManager a
  end.

(** [saveProjectState()].  [!this.currentSection] holds for [null] and
    for the empty string. *)
Definition saveProjectState (a : t) : t :=
  match currentSection a with
  | None => a
  | Some section =>
      if String.eqb section "" then a
      else
        let currentLayout := PanelSystem.getPanelState (panelSystem a) in
        let layouts :=
          match currentLayout with
          | [] => savedLayouts a
          | _ :: _ => <[section := currentLayout]> (savedLayouts a)
          end in
        let pm := storeCharacters a in
        mk (currentSection a) (panelSystem a) pm (characterManager a)
           (isProjectLoaded a) (sections a) layouts (setupSections a)
           (sectionPanelSelections a)
           (saved a ++
              [ {| state_panelLayouts := layouts;
                   state_setupSections := setupSections a;
                   state_sectionPanelSelections := sectionPanelSelections a;
                   state_projects := projects pm |} ])
           (timers a)
  end.

Definition place (left top width height : Z) (el : Element.t) : Element.t :=
  Element.set_height height
    (Element.set_width width (Element.set_top top (Element.set_left left el))).

(** [adjustCharacterPanelLayout(editorVisible)], with [currentView] for
    [window.currentCharacterView || 'list'].  The padding of the list
    and the minimum height of the filter bar, which it also sets, are
    not part of the panel geometry.  When the widths are not numbers
    the lengths built from them are invalid, and an assignment of an
    invalid length to a style property is ignored. *)
Definition adjustCharacterPanelLayout (currentView : ViewMode)
    (editorVisible : bool) (a : t) : t :=
  let d := PanelSystem.document (panelSystem a) in
  match getElementById "character-list" d, sections a !! "characters" with
  | Some listPanel, Some container =>
      let containerWidth := Box.width (Dom.containers d container) in
      let containerHeight := Box.height (Dom.containers d container) in
      match (if editorVisible then getElementById "character-editor" d
             else None) with
      | Some editorPanel =>
          let d :=
            match Split.widths containerWidth currentView with
            | Some (listWidth, editorWidth) =>
                Dom.update
                  (place (listWidth + Split.gapPx) 0 editorWidth
                     containerHeight)
                  editorPanel
                  (Dom.update (place 0 0 listWidth containerHeight)
                     listPanel d)
            | None =>
                Dom.update
                  (fun el => Element.set_height containerHeight
                               (Element.set_top 0 el))
                  editorPanel
                  (Dom.update
                     (fun el => Element.set_height containerHeight
                                  (Element.set_top 0 (Element.set_left 0 el)))
                     listPanel d)
            end in
          with_panelSystem (PanelSystem.with_document d (panelSystem a)) a
      | None =>
          with_panelSystem
            (PanelSystem.with_document
               (Dom.update (place 0 0 containerWidth containerHeight)
                  listPanel d)
               (panelSystem a)) a
      end
  | _, _ => a
  end.

(** The call a timer makes when it fires.  The callback of
    [initializeCharacterViews] passes [false], for which
    [adjustCharacterPanelLayout] does not use the current view. *)
Definition runTask (callback : Task) (a : t) : t :=
  match callback with
  | SaveProjectState => saveProjectState a
  | AdjustLayout => adjustCharacterPanelLayout ViewList false a
  end.

(** The order in which timers fire: by the time left, and among equals
    in the order in which they were set. *)
Fixpoint insertByDelay (timer : Timer) (sorted : list Timer) : list Timer :=
  match sorted with
  | [] => [timer]
  | other :: r =>
      if delay other <=? delay timer then other :: insertByDelay timer r
      else timer :: sorted
  end.

Definition byDelay (pending : list Timer) : list Timer :=
  fold_left (fun sorted timer => insertByDelay timer sorted) pending [].

(** [ms] milliseconds pass without any other event: the timers that are
    due fire in order, the others have that much less time left.  None
    of the callbacks sets a timer. *)
Definition elapse (ms : Z) (a : t) : t :=
  let due := byDelay (List.filter (fun timer => delay timer <=? ms) (timers a)) in
  let later :=
    map (fun timer => {| delay := delay timer - ms; task := task timer |})
      (List.filter (fun timer => ms <? delay timer) (timers a)) in
  fold_left (fun a timer => runTask (task timer) a) due (with_timers later a).

End App.

(** ** Concrete inputs

    A page without panels whose layout containers all have the box
    1000 x 600 at (240, 48) and on which a panel without a size of its
    own is 200 x 60, and stores built on it. *)

Definition page : Dom.t :=
  Dom.mk [] (fun _ => Box.mk 240 48 1000 600) (fun _ _ => (200, 60)).

(** The writing section's editor panel, and a second configuration with
    the same id at another place. *)
Definition editorPanel : PanelConfig.t :=
  Layouts.panel "editor" "Editor" 0 0 800 600.
Definition editorPanelMoved : PanelConfig.t :=
  Layouts.panel "editor" "Editor" 40 50 300 200.

Definition storeWithEditor : PanelSystem.t :=
  PanelSystem.createPanel editorPanel 0 (PanelSystem.new page).

(** A store that tracks the editor in container 0 and the plot board in
    container 1. *)
Definition plotBoard : PanelConfig.t :=
  Layouts.panel "plot-board" "Plot Board" 0 0 900 600.

Definition storeWithTwoContainers : PanelSystem.t :=
  PanelSystem.createPanel plotBoard 1 storeWithEditor.

(** The character list of the template, 1200 wide on the 1000 wide page,
    picked up by its header at (300, 60), and a move of the pointer. *)
Definition draggedList : PanelSystem.t :=
  PanelSystem.startDrag {| clientX := 300; clientY := 60 |} 0
    (PanelSystem.createPanel Layouts.characterList 0 (PanelSystem.new page)).

Definition moveTo_700_400 : MouseEvent := {| clientX := 700; clientY := 400 |}.

(** The entry of a state that [restorePanelState] applies last to the
    panel with the given id: the last one that carries the id. *)
Definition lastFor (id : string) (state : list PanelConfig.t)
  : option PanelConfig.t :=
  List.find (fun panelState => String.eqb (PanelConfig.id panelState) id)
    (rev state).

(** What [restorePanelState] does to the element of the panel with the
    given id: the assignments of the entries that carry the id, in
    order. *)
Definition restored (id : string) (state : list PanelConfig.t)
    (el : Element.t) : Element.t :=
  fold_left
    (fun el panelState =>
       if String.eqb (PanelConfig.id panelState) id
       then PanelSystem.applyState panelState el else el)
    state el.

(** The value of a style property after a run of assignments to it,
    [None] standing for an assignment that is not made or is ignored. *)
Definition lastWrite (writes : list (option Z)) (v : Z) : Z :=
  fold_left (fun v w => default v w) writes v.

Definition validLength (v : Z) : option Z := if 0 <=? v then Some v else None.

Definition writesTo (id : string) (value : PanelConfig.t -> option Z)
    (state : list PanelConfig.t) : list (option Z) :=
  map (fun panelState =>
         if String.eqb (PanelConfig.id panelState) id
         then value panelState else None) state.

(** A configuration whose width and height are lengths, so that the
    style takes them. *)
Definition validSize (panelConfig : PanelConfig.t) : Prop :=
  0 <= PanelConfig.width panelConfig /\ 0 <= PanelConfig.height panelConfig.

(** The entries of a state whose id is tracked by the store. *)
Definition trackedEntries (s : PanelSystem.t) (state : list PanelConfig.t)
  : list PanelConfig.t :=
  List.filter
    (fun panelState =>
       bool_decide (is_Some (JsMap.get (PanelConfig.id panelState)
                               (PanelSystem.panels s))))
    state.

(** The character editor of the template, which is created hidden. *)
Definition storeWithHiddenEditor : PanelSystem.t :=
  PanelSystem.createPanel Layouts.characterEditor 0 (PanelSystem.new page).

(** A page whose layout containers are 1200 wide, and the application on
    it right after a project has been loaded: the five sections of the
    page with their containers, nothing saved, no section current. *)
Definition widePage : Dom.t :=
  Dom.mk [] (fun _ => Box.mk 0 0 1200 600) (fun _ _ => (200, 60)).

Definition pageSections : gmap string nat :=
  <["writing" := 0%nat]>
    (<["plotting" := 1%nat]>
       (<["characters" := 2%nat]>
          (<["worldbuilding" := 3%nat]> (<["research" := 4%nat]> ∅)))).

Definition freshApp (d : Dom.t) : App.t :=
  App.mk None (PanelSystem.new d)
    {| projects := [ {| project_id := "project_1"; enabledSections := ["characters"];
                        data_characters := {| characters := []; customFlags := [] |} |} ];
       currentProject := Some 0%nat |}
    (Some {| characters := []; customFlags := [] |})
    true pageSections ∅ ∅ ∅ [] [].

(** The character section entered for the first time, every panel kept. *)
Definition appInCharacters : App.t :=
  default (freshApp widePage)
    (App.switchSection Layouts.layouts "characters" (Some [])
       (freshApp widePage)).

(** An unconfigured section "x" with the template [a, b, c]. *)
Definition panelA : PanelConfig.t := Layouts.panel "a" "A" 0 0 400 300.
Definition panelB : PanelConfig.t := Layouts.panel "b" "B" 410 0 400 300.
Definition panelC : PanelConfig.t := Layouts.panel "c" "C" 0 310 400 300.
Definition panelD : PanelConfig.t := Layouts.panel "d" "D" 410 310 400 300.

Definition registryABC : Layouts.Registry :=
  {[ "x" := {| Layouts.name := "X"; Layouts.panels := [panelA; panelB; panelC] |} ]}.
Definition registryABCD : Layouts.Registry :=
  {[ "x" := {| Layouts.name := "X";
               Layouts.panels := [panelA; panelB; panelC; panelD] |} ]}.

Definition appWithX : App.t :=
  App.mk None (PanelSystem.new page) {| projects := []; currentProject := None |}
    None true {[ "x" := 0%nat ]} ∅ ∅ ∅ [] [].

(** Section "x" recorded as set up with the selection [a, c], without a
    saved layout. *)
Definition appWithXSetUp : App.t :=
  App.with_setup ∅ {[ "x" := true ]} {[ "x" := ["a"; "c"] ]} appWithX.

(** The writing section with every panel closed and a layout saved
    earlier. *)
Definition appAllClosed : App.t :=
  App.mk (Some "writing") (PanelSystem.new page)
    {| projects := []; currentProject := None |} None true pageSections
    {[ "writing" := [editorPanel] ]} {[ "writing" := true ]}
    {[ "writing" := ["editor"] ]} [] [].

(** The current section, if there is one, has its element on the page:
    what [switchSection] needs in order not to raise. *)
Definition currentSectionOnPage (a : App.t) : bool :=
  match App.currentSection a with
  | None => true
  | Some current =>
      String.eqb current "" || bool_decide (is_Some (App.sections a !! current))
  end.

(** An active drag of an attached panel: [draggingPanel] refers to an
    element of the heap whose parent is [container]. *)
Definition activeDrag (s : PanelSystem.t) (panel container : nat) : Prop :=
  PanelSystem.draggingPanel s = Some panel
  /\ (panel < length (Dom.elements (PanelSystem.document s)))%nat
  /\ Element.parentElement (Dom.get panel (PanelSystem.document s)) = Some container.

(** The bounding box of an element lies inside a box of the given size
    placed at the origin of the element's coordinates. *)
Definition insideContainer (el : Element.t) (box : Box.t) : Prop :=
  0 <= Element.left el
  /\ 0 <= Element.top el
  /\ Element.left el + Element.offsetWidth el <= Box.width box
  /\ Element.top el + Element.offsetHeight el <= Box.height box.

(** ** The document listeners of the panel system

    [addDragListeners] registers one [mousemove] and one [mouseup]
    listener on the document for every panel that is created, and none is
    ever removed: on a page on which [listeners] panels have been created
    an event is answered by that many calls, one after the other. *)

Fixpoint mousemove (listeners : nat) (e : MouseEvent) (s : PanelSystem.t)
  : PanelSystem.t :=
  match listeners with
  | O => s
  | S n => mousemove n e (PanelSystem.onMouseMove e s)
  end.

(** [mouseup]: the store after all listeners have run, and the number of
    calls of [onStateChange] they made. *)
Fixpoint mouseup (listeners : nat) (s : PanelSystem.t) : PanelSystem.t * nat :=
  match listeners with
  | O => (s, O)
  | S n =>
      let '(s1, fired) := PanelSystem.stopDrag s in
      let '(s2, calls) := mouseup n s1 in
      (s2, ((if fired then 1 else 0) + calls)%nat)
  end.

(** The z-index [getHighestZIndex] reads off an element. *)
Definition zIndexOf (el : Element.t) : Z := default 0 (Element.zIndex el).

(** Whether an element is hidden the way [togglePanel] tests it:
    [style.display === 'none']. *)
Definition isHidden (el : Element.t) : bool :=
  Display_eqb (Element.display el) DisplayNone.

(** Section "x" entered for the first time by a user who unchecks b,
    50 ms later, when the save has been made. *)
Definition appXSaved : App.t :=
  App.elapse 50
    (default appWithX
       (App.switchSection registryABC "x" (Some [1%nat]) appWithX)).

(** The snapshot entry of a panel that has just been created from a
    configuration and not been touched since: the configuration without
    [hidden], and with the size 0 x 0 if it was created hidden. *)
Definition snapshotOfFresh (panelConfig : PanelConfig.t) : PanelConfig.t :=
  PanelConfig.mk (PanelConfig.id panelConfig) (PanelConfig.title panelConfig)
    (PanelConfig.x panelConfig) (PanelConfig.y panelConfig)
    (if PanelConfig.hidden panelConfig then 0 else PanelConfig.width panelConfig)
    (if PanelConfig.hidden panelConfig then 0 else PanelConfig.height panelConfig)
    false.

(** The panels of a template whose check box has been clicked an even
    number of times, in template order. *)
Definition keptByClicks (clicks : list nat) (availablePanels : list PanelConfig.t)
  : list PanelConfig.t :=
  omap (fun x => x)
    (imap (fun i panel =>
             if Nat.even (count_occ Nat.eq_dec clicks i) then Some panel else None)
       availablePanels).

(** The container width from which list, gap and editor fit side by
    side, per view; and the check that they fill a container of width
    [containerWidth] exactly from that width on and need more room than
    there is below it. *)
Definition tilingThreshold (currentView : ViewMode) : Z :=
  match currentView with
  | ViewImportance => 800
  | _ => 934
  end.

Definition splitFits (currentView : ViewMode) (containerWidth : Z) : bool :=
  match Split.widths containerWidth currentView with
  | Some (listWidth, editorWidth) =>
      if tilingThreshold currentView <=? containerWidth
      then listWidth + Split.gapPx + editorWidth =? containerWidth
      else containerWidth <? listWidth + Split.gapPx + editorWidth
  | None => false
  end.

(** The message [saveProjectState] hands to the persistence bridge. *)
Definition stateMessage (a : App.t) : App.SavedState :=
  {| App.state_panelLayouts := App.savedLayouts a;
     App.state_setupSections := App.setupSections a;
     App.state_sectionPanelSelections := App.sectionPanelSelections a;
     App.state_projects := projects (App.projectManager a) |}.

(** ** The start of the application and the way home (class [App])

    [new App()] and [init()], which awaits [loadAppState].  [state] is
    the reply to [getLayoutState]: [null], or an object any of whose four
    fields may be missing.  [loadAppState] runs on the application as
    constructed, where no project is current. *)

Record ReceivedState := {
  received_panelLayouts : option (gmap string (list PanelConfig.t));
  received_setupSections : option (gmap string bool);
  received_sectionPanelSelections : option (gmap string (list string));
  received_projects : option (list Project)
}.

(** A state in which all four fields are present. *)
Definition received (s : App.SavedState) : ReceivedState :=
  {| received_panelLayouts := Some (App.state_panelLayouts s);
     received_setupSections := Some (App.state_setupSections s);
     received_sectionPanelSelections := Some (App.state_sectionPanelSelections s);
     received_projects := Some (App.state_projects s) |}.

(** [new App()] on a page with the given sections and document. *)
Definition newApp (sections : gmap string nat) (d : Dom.t) : App.t :=
  App.mk None (PanelSystem.new d) {| projects := []; currentProject := None |}
    None false sections ∅ ∅ ∅ [] [].

(** [init()]: [loadAppState] assigns the fields that are present. *)
Definition init (sections : gmap string nat) (d : Dom.t)
    (state : option ReceivedState) : App.t :=
  let a := newApp sections d in
  match state with
  | None => a
  | Some st =>
      App.mk (App.currentSection a) (App.panelSystem a)
        {| projects := default (projects (App.projectManager a)) (received_projects st);
           currentProject := currentProject (App.projectManager a) |}
        (App.characterManager a) (App.isProjectLoaded a) (App.sections a)
        (default (App.savedLayouts a) (received_panelLayouts st))
        (default (App.setupSections a) (received_setupSections st))
        (default (App.sectionPanelSelections a) (received_sectionPanelSelections st))
        (App.saved a) (App.timers a)
  end.


(** ** The main process (main.js)

    The state file holds [JSON.stringify(state)]; the states are plain
    data (strings, integers, booleans, arrays and objects of them), which
    [JSON.parse] gives back as they were, so a readable file is kept as
    the state it holds.  A file that cannot be read or parsed makes
    [loadLayoutState] catch the error and return [null]. *)

Module Main.

Inductive File :=
| NoFile
| FileWith (state : App.SavedState)
| Unreadable.

(** The outcome of [fs.writeFileSync]: the file is written, or an error
    is thrown and the file is left in some state. *)
Inductive WriteOutcome :=
| Written
| Failed (remains : File).

Record t := mk {
  currentLayoutState : option App.SavedState;
  stateFile : File
}.

(** [loadLayoutState()] *)
Definition loadLayoutState (f : File) : option App.SavedState :=
  match f with
  | FileWith state => Some state
  | NoFile | Unreadable => None
  end.

(** [saveLayoutState(state)]: the error of a failed write is caught and
    logged. *)
Definition saveLayoutState (state : App.SavedState) (outcome : WriteOutcome)
    (f : File) : File :=
  match outcome with
  | Written => FileWith state
  | Failed remains => remains
  end.

(** The process before [app.whenReady()], with the file it finds. *)
Definition launched (f : File) : t := mk None f.

(** [app.whenReady()]: the state is loaded from the file. *)
Definition whenReady (m : t) : t :=
  mk (loadLayoutState (stateFile m)) (stateFile m).

(** The reply to ['get-layout-state']. *)
Definition getLayoutState (m : t) : option App.SavedState :=
  currentLayoutState m.

(** The handler of ['save-layout-state']. *)
Definition onSave (state : App.SavedState) (outcome : WriteOutcome) (m : t) : t :=
  mk (Some state) (saveLayoutState state outcome (stateFile m)).

(** The handlers of the window's ['close'] and of ['window-all-closed']
    and ['before-quit']: the current state, if there is one, is written
    once more. *)
Definition onClose (outcome : WriteOutcome) (m : t) : t :=
  match currentLayoutState m with
  | Some state => mk (currentLayoutState m) (saveLayoutState state outcome (stateFile m))
  | None => m
  end.

End Main.

(** ** Projects (class [ProjectManager]) *)

(** [getCurrentProject()] *)
Definition getCurrentProject (pm : ProjectManager) : option Project :=
  match currentProject pm with
  | Some i => projects pm !! i
  | None => None
  end.

(** The position of the first project with the given id:
    [projects.find((p) => p.id === projectId)]. *)
Fixpoint findProject (projectId : string) (ps : list Project) (i : nat)
  : option nat :=
  match ps with
  | [] => None
  | p :: r => if String.eqb (project_id p) projectId then Some i
              else findProject projectId r (S i)
  end.

(** [loadProject(projectId)]: the manager afterwards, and the project
    returned ([None] for [null]). *)
Definition loadProject (projectId : string) (pm : ProjectManager)
  : ProjectManager * option Project :=
  match findProject projectId (projects pm) 0 with
  | Some i => ({| projects := projects pm; currentProject := Some i |},
               projects pm !! i)
  | None => (pm, None)
  end.

Definition keepsProject (projectId : string) (p : Project) : bool :=
  negb (String.eqb (project_id p) projectId).

(** [deleteProject(projectId)].  The current project is an object; when
    it stays in the list it is found at the position it has among the
    projects that are kept. *)
Definition deleteProject (projectId : string) (pm : ProjectManager)
  : ProjectManager :=
  {| projects := List.filter (keepsProject projectId) (projects pm);
     currentProject :=
       match currentProject pm with
       | Some i =>
           match projects pm !! i with
           | Some p =>
               if String.eqb (project_id p) projectId then None
               else Some (length (List.filter (keepsProject projectId)
                                    (take i (projects pm))))
           | None => None
           end
       | None => None
       end |}.

(** ** Characters (class [CharacterManager])

    A character with the fields the manager reads and writes; [data]
    maps the names of the detail fields to their values, [None] for
    [null].  Time stamps are the strings [new Date().toISOString()]
    gives, taken as inputs. *)

Module CharacterManager.

Record Character := {
  id : string;
  name : string;
  flagId : string;
  createdAt : string;
  lastModified : string;
  data : gmap string (option string)
}.

Record Flag := {
  flag_id : string;
  flag_name : string;
  flag_color : string
}.

(** [saveCharacterData], which the changing methods call last, copies
    the two arrays into a global that nothing reads. *)
Record t := {
  characters : list Character;
  customFlags : list Flag
}.

(** The argument of [updateCharacter]: each of [name], [flagId] and
    [data] may be missing. *)
Record Updates := {
  updates_name : option string;
  updates_flagId : option string;
  updates_data : option (gmap string (option string))
}.

(** The truth value of an optional string: missing and empty are falsy. *)
Definition truthy (s : option string) : option string :=
  match s with
  | Some v => if String.eqb v "" then None else Some v
  | None => None
  end.

(** [getCharacter(characterId)] *)
Definition getCharacter (characterId : string) (m : t) : option Character :=
  List.find (fun c => String.eqb (id c) characterId) (characters m).

(** [getCharactersByFlag(flagId)] *)
Definition getCharactersByFlag (flag : string) (m : t) : list Character :=
  List.filter (fun c => String.eqb (flagId c) flag) (characters m).

(** The assignments of [updateCharacter] to the character found;
    [{ ...character.data, ...updates.data }] is the union in which the
    fields of [updates.data] win. *)
Definition applyUpdates (updates : Updates) (now : string) (c : Character)
  : Character :=
  {| id := id c;
     name := default (name c) (truthy (updates_name updates));
     flagId := default (flagId c) (truthy (updates_flagId updates));
     createdAt := createdAt c;
     lastModified := now;
     data := match updates_data updates with
             | Some fields => fields ∪ data c
             | None => data c
             end |}.

(** The first character with the id is an object of the array and is
    changed in place. *)
Fixpoint updateFirst (characterId : string) (f : Character -> Character)
    (cs : list Character) : list Character :=
  match cs with
  | [] => []
  | c :: r => if String.eqb (id c) characterId then f c :: r
              else c :: updateFirst characterId f r
  end.

(** [updateCharacter(characterId, updates)] at the time [now]. *)
Definition updateCharacter (characterId : string) (updates : Updates)
    (now : string) (m : t) : t :=
  match getCharacter characterId m with
  | None => m
  | Some _ =>
      {| characters := updateFirst characterId (applyUpdates updates now)
                         (characters m);
         customFlags := customFlags m |}
  end.

(** [deleteCharacter(characterId)] *)
Definition deleteCharacter (characterId : string) (m : t) : t :=
  {| characters :=
       List.filter (fun c => negb (String.eqb (id c) characterId)) (characters m);
     customFlags := customFlags m |}.

(** [getCharacterCount()] *)
Definition getCharacterCount (m : t) : nat := length (characters m).

End CharacterManager.

(** ** Concrete characters and projects *)

Definition heroine : CharacterManager.Character :=
  {| CharacterManager.id := "char_1"; CharacterManager.name := "Mira";
     CharacterManager.flagId := "primary";
     CharacterManager.createdAt := "2024-01-01T00:00:00.000Z";
     CharacterManager.lastModified := "2024-01-01T00:00:00.000Z";
     CharacterManager.data := {[ "picture" := Some "mira.png" ]} |}.

Definition rival : CharacterManager.Character :=
  {| CharacterManager.id := "char_2"; CharacterManager.name := "Tolan";
     CharacterManager.flagId := "secondary";
     CharacterManager.createdAt := "2024-01-02T00:00:00.000Z";
     CharacterManager.lastModified := "2024-01-02T00:00:00.000Z";
     CharacterManager.data := ∅ |}.

Definition cast : CharacterManager.t :=
  {| CharacterManager.characters := [rival; heroine];
     CharacterManager.customFlags := [] |}.

Definition renameOnly : CharacterManager.Updates :=
  {| CharacterManager.updates_name := Some "Mira Vale";
     CharacterManager.updates_flagId := Some "";
     CharacterManager.updates_data := Some {[ "age" := Some "31" ]} |}.

Definition novel : Project :=
  {| project_id := "project_1"; enabledSections := ["writing"; "characters"];
     data_characters := {| characters := []; customFlags := [] |} |}.

Definition notebook : Project :=
  {| project_id := "project_2"; enabledSections := ["research"];
     data_characters := {| characters := []; customFlags := [] |} |}.

Definition shelf : ProjectManager :=
  {| projects := [novel; notebook]; currentProject := Some 1%nat |}.

(** * Properties *)

Lemma lit_0_70_is_7_div_10 :
  Num.div (Num.of_Z 7) (Num.of_Z 10) = Num.lit_0_70.
Proof. vm_compute. reflexivity. Qed.

Lemma lit_0_65_is_65_div_100 :
  Num.div (Num.of_Z 65) (Num.of_Z 100) = Num.lit_0_65.
Proof. vm_compute. reflexivity. Qed.

(** ** The document heap *)

Section DomFacts.
Implicit Types (d : Dom.t) (h : nat) (f : Element.t -> Element.t).

Lemma Dom_get_update_eq f h d :
  (h < length (Dom.elements d))%nat ->
  Dom.get h (Dom.update f h d) = f (Dom.get h d).
Proof.
  intros Hlt. unfold Dom.get, Dom.update; simpl.
  rewrite list_lookup_alter_eq.
  destruct (lookup_lt_is_Some_2 _ _ Hlt) as [e ->]. reflexivity.
Qed.

Lemma Dom_get_update_ne f h h' d :
  h <> h' -> Dom.get h' (Dom.update f h d) = Dom.get h' d.
Proof.
  intros Hne. unfold Dom.get, Dom.update; simpl.
  rewrite list_lookup_alter_ne by exact Hne. reflexivity.
Qed.

Lemma Dom_length_update f h d :
  length (Dom.elements (Dom.update f h d)) = length (Dom.elements d).
Proof. apply length_alter. Qed.

Lemma Dom_containers_update f h d :
  Dom.containers (Dom.update f h d) = Dom.containers d.
Proof. reflexivity. Qed.

Lemma Dom_get_append_old e h d :
  (h < length (Dom.elements d))%nat -> Dom.get h (Dom.append e d) = Dom.get h d.
Proof.
  intros Hlt. unfold Dom.get, Dom.append; simpl.
  rewrite lookup_app_l by exact Hlt. reflexivity.
Qed.

Lemma Dom_get_append_new e d : Dom.get (Dom.fresh d) (Dom.append e d) = e.
Proof.
  unfold Dom.get, Dom.append, Dom.fresh; simpl.
  rewrite lookup_app_r by lia. rewrite Nat.sub_diag. reflexivity.
Qed.
End DomFacts.

(** ** The map of tracked panels *)

Section JsMapFacts.
Context {V : Type}.
Implicit Types (m : JsMap.t V) (k : string) (v : V).

Lemma JsMap_get_set_eq k v m : JsMap.get k (JsMap.set k v m) = Some v.
Proof.
  induction m as [|[k' v'] r IH]; simpl.
  - rewrite String.eqb_refl. reflexivity.
  - destruct (String.eqb k k') eqn:E; simpl.
    + rewrite String.eqb_refl. reflexivity.
    + rewrite E. exact IH.
Qed.

Lemma JsMap_get_set_ne k k' v m :
  k <> k' -> JsMap.get k' (JsMap.set k v m) = JsMap.get k' m.
Proof.
  intros Hne. induction m as [|[k0 v0] r IH]; simpl.
  - destruct (String.eqb_spec k' k); [congruence | reflexivity].
  - destruct (String.eqb_spec k k0) as [->|Hk]; simpl.
    + destruct (String.eqb_spec k' k0); [congruence | reflexivity].
    + rewrite IH. reflexivity.
Qed.

Lemma JsMap_get_None k m : JsMap.get k m = None <-> k ∉ JsMap.keys m.
Proof.
  induction m as [|[k' v'] r IH]; simpl.
  - split; [intros _; apply not_elem_of_nil | reflexivity].
  - rewrite not_elem_of_cons.
    destruct (String.eqb_spec k k') as [->|Hk].
    + split; [discriminate | intros [H _]; congruence].
    + rewrite IH. tauto.
Qed.

Lemma JsMap_get_elem_of k v m : JsMap.get k m = Some v -> (k, v) ∈ m.
Proof.
  induction m as [|[k' v'] r IH]; simpl; [discriminate|].
  destruct (String.eqb_spec k k') as [->|Hk].
  - intros [= ->]. apply list_elem_of_here.
  - intros H. apply list_elem_of_further, IH, H.
Qed.

Lemma JsMap_elem_of_get k v m :
  NoDup (JsMap.keys m) -> (k, v) ∈ m -> JsMap.get k m = Some v.
Proof.
  induction m as [|[k' v'] r IH]; simpl; intros Hnd Hin.
  - apply elem_of_nil in Hin. contradiction.
  - apply NoDup_cons in Hnd as [Hk' Hnd].
    apply elem_of_cons in Hin as [[= -> ->]|Hin].
    + rewrite String.eqb_refl. reflexivity.
    + destruct (String.eqb_spec k k') as [->|Hk]; [|auto].
      exfalso. apply Hk'. unfold JsMap.keys.
      apply (list_elem_of_fmap_2 fst) in Hin. exact Hin.
Qed.

(** Setting a key that is present keeps the keys and their order;
    setting a new key appends it. *)
Lemma JsMap_keys_set_present k v m :
  k ∈ JsMap.keys m -> JsMap.keys (JsMap.set k v m) = JsMap.keys m.
Proof.
  induction m as [|[k' v'] r IH]; simpl; intros Hin.
  - apply elem_of_nil in Hin. contradiction.
  - destruct (String.eqb_spec k k') as [->|Hk]; simpl; [reflexivity|].
    apply elem_of_cons in Hin as [?|Hin]; [congruence|].
    rewrite (IH Hin). reflexivity.
Qed.

Lemma JsMap_keys_set_absent k v m :
  k ∉ JsMap.keys m -> JsMap.keys (JsMap.set k v m) = JsMap.keys m ++ [k].
Proof.
  induction m as [|[k' v'] r IH]; simpl; intros Hin; [reflexivity|].
  apply not_elem_of_cons in Hin as [Hk Hin].
  destruct (String.eqb_spec k k'); [congruence|]. simpl.
  rewrite (IH Hin). reflexivity.
Qed.

Lemma JsMap_set_absent k v m :
  k ∉ JsMap.keys m -> JsMap.set k v m = m ++ [(k, v)].
Proof.
  induction m as [|[k' v'] r IH]; simpl; intros Hin; [reflexivity|].
  apply not_elem_of_cons in Hin as [Hk Hin].
  destruct (String.eqb_spec k k'); [congruence|].
  rewrite (IH Hin). reflexivity.
Qed.

Lemma JsMap_set_present k v m :
  k ∈ JsMap.keys m ->
  exists m1 v0 m2,
    m = m1 ++ (k, v0) :: m2 /\ JsMap.set k v m = m1 ++ (k, v) :: m2.
Proof.
  induction m as [|[k' v'] r IH]; simpl; intros Hin.
  - apply elem_of_nil in Hin. contradiction.
  - destruct (String.eqb_spec k k') as [->|Hk].
    + exists [], v', r. split; reflexivity.
    + apply elem_of_cons in Hin as [?|Hin]; [congruence|].
      destruct (IH Hin) as (m1 & v0 & m2 & -> & ->).
      exists ((k', v') :: m1), v0, m2. split; reflexivity.
Qed.

End JsMapFacts.

(** ** Well-formed stores *)

Lemma wf_new d : PanelSystem.wf (PanelSystem.new d).
Proof.
  unfold PanelSystem.wf, PanelSystem.handles; simpl.
  repeat split; constructor.
Qed.

Lemma wf_handle_lt s k panel :
  PanelSystem.wf s -> (k, panel) ∈ PanelSystem.panels s ->
  PanelConfig.id (PanelSystem.config panel) = k
  /\ (PanelSystem.element panel
      < length (Dom.elements (PanelSystem.document s)))%nat.
Proof.
  intros (_ & _ & Hall) Hin. rewrite Forall_forall in Hall.
  exact (Hall _ Hin).
Qed.

Lemma wf_tracked s k panel :
  PanelSystem.wf s -> JsMap.get k (PanelSystem.panels s) = Some panel ->
  PanelConfig.id (PanelSystem.config panel) = k
  /\ (PanelSystem.element panel
      < length (Dom.elements (PanelSystem.document s)))%nat.
Proof.
  intros Hwf Hget. apply (wf_handle_lt s k panel Hwf).
  apply JsMap_get_elem_of, Hget.
Qed.

(** Two tracked ids never share an element. *)
Lemma wf_handles_inj s k1 k2 p1 p2 :
  PanelSystem.wf s ->
  JsMap.get k1 (PanelSystem.panels s) = Some p1 ->
  JsMap.get k2 (PanelSystem.panels s) = Some p2 ->
  PanelSystem.element p1 = PanelSystem.element p2 -> k1 = k2.
Proof.
  intros (Hk & Hh & _) H1 H2 Heq.
  apply JsMap_get_elem_of in H1, H2.
  apply list_elem_of_lookup in H1 as [i1 H1], H2 as [i2 H2].
  assert (i1 = i2) as ->.
  { apply (NoDup_lookup _ i1 i2 (PanelSystem.element p1) Hh);
      unfold PanelSystem.handles; rewrite list_lookup_fmap.
    - rewrite H1. reflexivity.
    - rewrite H2. simpl. congruence. }
  congruence.
Qed.

Lemma wf_createPanel panelConfig container s :
  PanelSystem.wf s -> PanelSystem.wf (PanelSystem.createPanel panelConfig container s).
Proof.
  intros Hwf. pose proof Hwf as (Hk & Hh & Hall).
  set (k := PanelConfig.id panelConfig).
  assert (Hfresh : Dom.fresh (PanelSystem.document s) ∉ PanelSystem.handles s).
  { intros Hin. unfold PanelSystem.handles in Hin.
    apply list_elem_of_fmap in Hin as ([k0 p0] & Heq & Hin).
    destruct (wf_handle_lt s k0 p0 Hwf Hin) as [_ Hlt].
    simpl in Heq. unfold Dom.fresh in Heq. lia. }
  assert (Hold : Forall
            (fun kv => PanelConfig.id (PanelSystem.config (snd kv)) = fst kv
               /\ (PanelSystem.element (snd kv)
                   < length (Dom.elements (PanelSystem.document s) ++
                             [PanelSystem.panelElement panelConfig container
                                (PanelSystem.document s)]))%nat)
            (PanelSystem.panels s)).
  { eapply Forall_impl; [exact Hall|]. intros kv [? ?]. split; [assumption|].
    rewrite length_app. simpl. lia. }
  unfold PanelSystem.wf, PanelSystem.handles, PanelSystem.createPanel; simpl.
  fold k. destruct (decide (k ∈ JsMap.keys (PanelSystem.panels s))) as [Hin|Hin].
  - rewrite JsMap_keys_set_present by exact Hin. split; [exact Hk|].
    destruct (JsMap_set_present k
                {| PanelSystem.element := Dom.fresh (PanelSystem.document s);
                   PanelSystem.config := panelConfig |}
                (PanelSystem.panels s) Hin) as (m1 & v0 & m2 & Hm & ->).
    unfold PanelSystem.handles in Hh, Hfresh. rewrite Hm in Hh, Hfresh, Hold.
    rewrite fmap_app in *. simpl in *.
    apply NoDup_app in Hh as (H1 & H12 & H2).
    apply NoDup_cons in H2 as [H2a H2].
    rewrite elem_of_app, elem_of_cons in Hfresh.
    apply Forall_app in Hold as [Ho1 Ho2]. apply Forall_cons in Ho2 as [_ Ho2].
    split.
    + apply NoDup_app. split; [exact H1|]. split.
      * intros h Hh1 Hh2. apply elem_of_cons in Hh2 as [->|Hh2]; [tauto|].
        apply (H12 h Hh1). apply list_elem_of_further, Hh2.
      * apply NoDup_cons. split; [tauto | exact H2].
    + apply Forall_app. split; [exact Ho1|]. apply Forall_cons. split; [|exact Ho2].
      simpl. split; [reflexivity|]. rewrite length_app. simpl.
      unfold Dom.fresh. lia.
  - rewrite JsMap_keys_set_absent, JsMap_set_absent by exact Hin.
    rewrite fmap_app. simpl. split; [|split].
    + apply NoDup_app. split; [exact Hk|]. split; [|apply NoDup_singleton].
      intros x Hx Hx'. apply list_elem_of_singleton in Hx'. subst x. tauto.
    + apply NoDup_app. split; [exact Hh|]. split; [|apply NoDup_singleton].
      intros x Hx Hx'. apply list_elem_of_singleton in Hx'. subst x. tauto.
    + apply Forall_app. split; [exact Hold|]. apply Forall_singleton. simpl.
      split; [reflexivity|]. rewrite length_app. simpl. unfold Dom.fresh. lia.
Qed.

(** An operation that keeps the map of panels and does not shrink the
    heap keeps the store well formed. *)
Lemma wf_same_panels s s' :
  PanelSystem.panels s' = PanelSystem.panels s ->
  length (Dom.elements (PanelSystem.document s'))
  = length (Dom.elements (PanelSystem.document s)) ->
  PanelSystem.wf s -> PanelSystem.wf s'.
Proof.
  intros Hp Hl (Hk & Hh & Hall).
  unfold PanelSystem.wf, PanelSystem.handles. rewrite Hp, Hl. auto.
Qed.

Lemma NoDup_map_filter {A B : Type} (g : A -> B) (f : A -> bool) (l : list A) :
  NoDup (map g l) -> NoDup (map g (List.filter f l)).
Proof.
  induction l as [|x l IH]; simpl; intros Hnd; [constructor|].
  apply NoDup_cons in Hnd as [Hx Hnd].
  destruct (f x); simpl; [|auto].
  apply NoDup_cons. split; [|auto].
  intros Hin. apply Hx.
  apply list_elem_of_fmap in Hin as (y & -> & Hy).
  apply list_elem_of_In, filter_In in Hy as [Hy _].
  apply (list_elem_of_fmap_2 g), list_elem_of_In, Hy.
Qed.

Lemma wf_removePanel panelId s :
  PanelSystem.wf s -> PanelSystem.wf (PanelSystem.removePanel panelId s).
Proof.
  intros Hwf. unfold PanelSystem.removePanel.
  destruct (JsMap.get panelId (PanelSystem.panels s)) as [panel|]; [|exact Hwf].
  destruct Hwf as (Hk & Hh & Hall).
  unfold PanelSystem.wf, PanelSystem.handles, JsMap.keys, JsMap.delete; simpl.
  split; [apply NoDup_map_filter, Hk|]. split; [apply NoDup_map_filter, Hh|].
  rewrite length_alter. rewrite Forall_forall in *.
  intros kv Hkv. apply Hall.
  apply list_elem_of_In, filter_In in Hkv as [Hkv _]. apply list_elem_of_In, Hkv.
Qed.

Lemma wf_call s c : PanelSystem.wf s -> PanelSystem.wf (PanelSystem.call s c).
Proof.
  intros Hwf. destruct c; simpl.
  - apply wf_createPanel, Hwf.
  - apply wf_removePanel, Hwf.
  - unfold PanelSystem.wf, PanelSystem.handles; simpl. repeat split; constructor.
  - apply (wf_same_panels s); [reflexivity| |exact Hwf].
    unfold PanelSystem.startDrag; simpl. rewrite !length_alter. reflexivity.
  - unfold PanelSystem.onMouseMove, PanelSystem.drag.
    destruct (PanelSystem.draggingPanel s) as [panel|]; [|exact Hwf].
    destruct (Element.parentElement _); [|exact Hwf]. simpl.
    apply (wf_same_panels s); [reflexivity|apply length_alter|exact Hwf].
  - unfold PanelSystem.stopDrag.
    destruct (PanelSystem.draggingPanel s) as [panel|]; [|exact Hwf]. simpl.
    apply (wf_same_panels s); [reflexivity|apply length_alter|exact Hwf].
  - apply (wf_same_panels s); [reflexivity| |exact Hwf].
    unfold PanelSystem.restorePanelState; simpl.
    generalize (PanelSystem.document s).
    induction state as [|x state IH]; intros d; simpl; [reflexivity|].
    rewrite IH. unfold PanelSystem.restoreOne.
    destruct (JsMap.get _ _); [apply length_alter|reflexivity].
  - unfold PanelSystem.showPanel, PanelSystem.setDisplay.
    destruct (JsMap.get _ _); [|exact Hwf].
    apply (wf_same_panels s); [reflexivity|apply length_alter|exact Hwf].
  - unfold PanelSystem.hidePanel, PanelSystem.setDisplay.
    destruct (JsMap.get _ _); [|exact Hwf].
    apply (wf_same_panels s); [reflexivity|apply length_alter|exact Hwf].
  - unfold PanelSystem.togglePanel, PanelSystem.setDisplay.
    destruct (JsMap.get _ _); [|exact Hwf].
    apply (wf_same_panels s); [reflexivity|apply length_alter|exact Hwf].
Qed.

(** Every store the code can build is well formed; in particular no
    sequence of calls leaves two instances with the same id in it. *)
Lemma wf_run calls : forall s,
  PanelSystem.wf s -> PanelSystem.wf (PanelSystem.run calls s).
Proof.
  induction calls as [|c calls IH]; intros s Hwf; simpl; [exact Hwf|].
  apply IH, wf_call, Hwf.
Qed.

Lemma run_ids_unique calls d :
  NoDup (JsMap.keys (PanelSystem.panels (PanelSystem.run calls (PanelSystem.new d)))).
Proof. apply (wf_run calls (PanelSystem.new d) (wf_new d)). Qed.

(** ** Dragging *)

Lemma dragClamp_nonneg x containerSize panelSize :
  0 <= PanelSystem.dragClamp x containerSize panelSize.
Proof. unfold PanelSystem.dragClamp, Math_max. lia. Qed.

Lemma dragClamp_fits x containerSize panelSize :
  panelSize <= containerSize ->
  PanelSystem.dragClamp x containerSize panelSize + panelSize <= containerSize.
Proof. unfold PanelSystem.dragClamp, Math_max, Math_min. lia. Qed.

Lemma dragClamp_oversize x containerSize panelSize :
  containerSize < panelSize ->
  PanelSystem.dragClamp x containerSize panelSize = 0.
Proof. unfold PanelSystem.dragClamp, Math_max, Math_min. lia. Qed.

(** What one call of [drag] does to a store with an active drag of an
    attached panel: it returns, the dragged element gets the clamped
    position and keeps everything else, and the drag stays active. *)
Lemma drag_step (e : MouseEvent) (s : PanelSystem.t) (panel container : nat) :
  PanelSystem.draggingPanel s = Some panel ->
  (panel < length (Dom.elements (PanelSystem.document s)))%nat ->
  Element.parentElement (Dom.get panel (PanelSystem.document s)) = Some container ->
  exists s',
    PanelSystem.drag e s = Some s'
    /\ PanelSystem.draggingPanel s' = Some panel
    /\ PanelSystem.dragOffset s' = PanelSystem.dragOffset s
    /\ PanelSystem.panels s' = PanelSystem.panels s
    /\ Dom.containers (PanelSystem.document s') = Dom.containers (PanelSystem.document s)
    /\ length (Dom.elements (PanelSystem.document s'))
       = length (Dom.elements (PanelSystem.document s))
    /\ (forall h, h <> panel ->
          Dom.get h (PanelSystem.document s') = Dom.get h (PanelSystem.document s))
    /\ let el := Dom.get panel (PanelSystem.document s) in
       let box := Dom.containers (PanelSystem.document s) container in
       Dom.get panel (PanelSystem.document s')
       = Element.set_top
           (PanelSystem.dragClamp
              (clientY e - Box.top box - snd (PanelSystem.dragOffset s))
              (Box.height box) (Element.offsetHeight el))
           (Element.set_left
              (PanelSystem.dragClamp
                 (clientX e - Box.left box - fst (PanelSystem.dragOffset s))
                 (Box.width box) (Element.offsetWidth el))
              el).
Proof.
  intros Hdrag Hlt Hparent. unfold PanelSystem.drag. rewrite Hdrag, Hparent.
  eexists. split; [reflexivity|]. simpl.
  split; [exact Hdrag|]. do 3 (split; [reflexivity|]).
  split; [apply length_alter|]. split.
  - intros h Hne. apply Dom_get_update_ne. congruence.
  - rewrite Dom_get_update_eq by exact Hlt. reflexivity.
Qed.

Lemma activeDrag_drag e s panel container :
  activeDrag s panel container ->
  exists s', PanelSystem.drag e s = Some s'
    /\ activeDrag s' panel container
    /\ Dom.containers (PanelSystem.document s') = Dom.containers (PanelSystem.document s)
    /\ Element.offsetWidth (Dom.get panel (PanelSystem.document s'))
       = Element.offsetWidth (Dom.get panel (PanelSystem.document s))
    /\ Element.offsetHeight (Dom.get panel (PanelSystem.document s'))
       = Element.offsetHeight (Dom.get panel (PanelSystem.document s)).
Proof.
  intros (Hd & Hlt & Hp).
  destruct (drag_step e s panel container Hd Hlt Hp)
    as (s' & Hs' & Hd' & _ & _ & Hc & Hlen & _ & Hel).
  exists s'. split; [exact Hs'|]. cbv zeta in Hel.
  split; [|split; [exact Hc|]].
  - split; [exact Hd'|]. split; [lia|]. rewrite Hel. exact Hp.
  - rewrite Hel. split; reflexivity.
Qed.

Lemma activeDrag_trajectory es : forall s panel container,
  activeDrag s panel container ->
  let s' := PanelSystem.trajectory es s in
  activeDrag s' panel container
  /\ Dom.containers (PanelSystem.document s') = Dom.containers (PanelSystem.document s)
  /\ Element.offsetWidth (Dom.get panel (PanelSystem.document s'))
     = Element.offsetWidth (Dom.get panel (PanelSystem.document s))
  /\ Element.offsetHeight (Dom.get panel (PanelSystem.document s'))
     = Element.offsetHeight (Dom.get panel (PanelSystem.document s)).
Proof.
  induction es as [|e es IH]; intros s panel container Ha.
  - simpl. auto.
  - destruct (activeDrag_drag e s panel container Ha)
      as (s1 & Hs1 & Ha1 & Hc1 & Hw1 & Hh1).
    specialize (IH s1 panel container Ha1). cbv zeta in IH.
    destruct IH as (Ha' & Hc' & Hw' & Hh').
    assert (Hstep : PanelSystem.trajectory (e :: es) s = PanelSystem.trajectory es s1).
    { unfold PanelSystem.trajectory; simpl.
      unfold PanelSystem.onMouseMove at 2. rewrite Hs1. reflexivity. }
    cbv zeta. rewrite Hstep. repeat split; try apply Ha'; congruence.
Qed.

Lemma place_left left top width height el :
  Element.left (App.place left top width height el) = left.
Proof.
  unfold App.place, Element.set_height, Element.set_width.
  destruct (0 <=? height), (0 <=? width); reflexivity.
Qed.

Lemma place_top left top width height el :
  Element.top (App.place left top width height el) = top.
Proof.
  unfold App.place, Element.set_height, Element.set_width.
  destruct (0 <=? height), (0 <=? width); reflexivity.
Qed.

Lemma place_width left top width height el :
  0 <= width -> Element.width (App.place left top width height el) = width.
Proof.
  intros Hw. unfold App.place, Element.set_height, Element.set_width.
  destruct (0 <=? height), (Z.leb_spec 0 width); try reflexivity; lia.
Qed.

Lemma place_height left top width height el :
  0 <= height -> Element.height (App.place left top width height el) = height.
Proof.
  intros Hh. unfold App.place, Element.set_height, Element.set_width.
  destruct (Z.leb_spec 0 height), (0 <=? width); try reflexivity; lia.
Qed.

(** C10.  [drag] clamps with the lower bound last: when the dragged panel
    is wider (higher) than its container the assigned x (y) is exactly 0,
    and the assigned position is never negative on either axis, whatever
    the pointer position. *)
Theorem drag_lower_bound_wins (e : MouseEvent) (s : PanelSystem.t)
    (panel container : nat) :
  activeDrag s panel container ->
  exists s', PanelSystem.drag e s = Some s'
    /\ let before := Dom.get panel (PanelSystem.document s) in
       let after := Dom.get panel (PanelSystem.document s') in
       let box := Dom.containers (PanelSystem.document s) container in
       (Box.width box < Element.offsetWidth before -> Element.left after = 0)
       /\ (Box.height box < Element.offsetHeight before -> Element.top after = 0)
       /\ 0 <= Element.left after
       /\ 0 <= Element.top after.
Proof.
  intros (Hd & Hlt & Hp).
  destruct (drag_step e s panel container Hd Hlt Hp)
    as (s' & Hs' & _ & _ & _ & _ & _ & _ & Hel).
  exists s'. split; [exact Hs'|]. cbv zeta in *. rewrite Hel. simpl.
  repeat split.
  - apply dragClamp_oversize.
  - apply dragClamp_oversize.
  - apply dragClamp_nonneg.
  - apply dragClamp_nonneg.
Qed.

Lemma drag_lower_bound_wins_witness :
  exists s', PanelSystem.drag moveTo_700_400 draggedList = Some s'
    /\ let before := Dom.get 0 (PanelSystem.document draggedList) in
       let after := Dom.get 0 (PanelSystem.document s') in
       let box := Dom.containers (PanelSystem.document draggedList) 0 in
       (Box.width box < Element.offsetWidth before -> Element.left after = 0)
       /\ (Box.height box < Element.offsetHeight before -> Element.top after = 0)
       /\ 0 <= Element.left after
       /\ 0 <= Element.top after.
Proof.
  apply (drag_lower_bound_wins moveTo_700_400 draggedList 0%nat 0%nat).
  unfold activeDrag. split; [reflexivity|]. split; [vm_compute; lia|reflexivity].
Defined.

(** A press on the header of an allocated, attached panel starts an
    active drag of it. *)
Lemma startDrag_activeDrag e s panel container :
  (panel < length (Dom.elements (PanelSystem.document s)))%nat ->
  Element.parentElement (Dom.get panel (PanelSystem.document s)) = Some container ->
  activeDrag (PanelSystem.startDrag e panel s) panel container
  /\ Dom.containers (PanelSystem.document (PanelSystem.startDrag e panel s))
     = Dom.containers (PanelSystem.document s).
Proof.
  intros Hlt Hp. unfold activeDrag, PanelSystem.startDrag.
  cbn [PanelSystem.draggingPanel PanelSystem.document PanelSystem.with_document].
  split; [|reflexivity]. split; [reflexivity|]. split.
  - rewrite !Dom_length_update. exact Hlt.
  - rewrite Dom_get_update_eq by (rewrite Dom_length_update; exact Hlt).
    rewrite Dom_get_update_eq by exact Hlt. exact Hp.
Qed.

(** The bounds after the last move of a trajectory of an active drag. *)
Lemma activeDrag_trajectory_bounds (es : list MouseEvent) (e : MouseEvent)
    (s : PanelSystem.t) (panel container : nat) :
  activeDrag s panel container ->
  let s' := PanelSystem.trajectory (es ++ [e]) s in
  let el := Dom.get panel (PanelSystem.document s') in
  let box := Dom.containers (PanelSystem.document s) container in
  0 <= Element.left el
  /\ 0 <= Element.top el
  /\ (Element.offsetWidth el <= Box.width box ->
      Element.left el + Element.offsetWidth el <= Box.width box)
  /\ (Element.offsetHeight el <= Box.height box ->
      Element.top el + Element.offsetHeight el <= Box.height box).
Proof.
  intros Ha.
  destruct (activeDrag_trajectory es s panel container Ha) as (Ha1 & Hc1 & _).
  set (s1 := PanelSystem.trajectory es s) in *.
  destruct Ha1 as (Hd & Hlt & Hp).
  destruct (drag_step e s1 panel container Hd Hlt Hp)
    as (s' & Hs' & _ & _ & _ & Hc & _ & _ & Hel).
  assert (Hlast : PanelSystem.trajectory (es ++ [e]) s = s').
  { unfold PanelSystem.trajectory. rewrite fold_left_app. simpl.
    fold (PanelSystem.trajectory es s). fold s1.
    unfold PanelSystem.onMouseMove. rewrite Hs'. reflexivity. }
  cbv zeta. rewrite Hlast, <- Hc1. cbv zeta in Hel. rewrite Hel.
  unfold Element.offsetWidth, Element.offsetHeight, Element.rendered. simpl.
  fold (Element.rendered (Dom.get panel (PanelSystem.document s1))).
  fold (Element.offsetWidth (Dom.get panel (PanelSystem.document s1))).
  fold (Element.offsetHeight (Dom.get panel (PanelSystem.document s1))).
  repeat split.
  - apply dragClamp_nonneg.
  - apply dragClamp_nonneg.
  - apply dragClamp_fits.
  - apply dragClamp_fits.
Qed.

(** C2, as the code has it.  A tracked, attached panel is picked up by a
    press anywhere and the pointer then follows any trajectory: after
    every move event the panel has x >= 0 and y >= 0, and on an axis on
    which the panel is not larger than its container its far edge stays
    inside the container as well. *)
Theorem drag_trajectory_bounds (s : PanelSystem.t) (panelId : string)
    (tracked : PanelSystem.Entry) (container : nat)
    (down : MouseEvent) (es : list MouseEvent) (e : MouseEvent) :
  PanelSystem.wf s ->
  JsMap.get panelId (PanelSystem.panels s) = Some tracked ->
  Element.parentElement
    (Dom.get (PanelSystem.element tracked) (PanelSystem.document s))
  = Some container ->
  let panel := PanelSystem.element tracked in
  let s' := PanelSystem.trajectory (es ++ [e]) (PanelSystem.startDrag down panel s) in
  let el := Dom.get panel (PanelSystem.document s') in
  let box := Dom.containers (PanelSystem.document s) container in
  0 <= Element.left el
  /\ 0 <= Element.top el
  /\ (Element.offsetWidth el <= Box.width box ->
      Element.left el + Element.offsetWidth el <= Box.width box)
  /\ (Element.offsetHeight el <= Box.height box ->
      Element.top el + Element.offsetHeight el <= Box.height box).
Proof.
  intros Hwf Hget Hp panel.
  destruct (wf_tracked s panelId tracked Hwf Hget) as [_ Hlt].
  destruct (startDrag_activeDrag down s panel container Hlt Hp) as [Ha Hc].
  pose proof (activeDrag_trajectory_bounds es e _ panel container Ha) as H.
  cbv zeta in H. rewrite Hc in H. exact H.
Qed.

Lemma drag_trajectory_bounds_witness :
  let s := PanelSystem.createPanel Layouts.characterList 0 (PanelSystem.new page) in
  let s' := PanelSystem.trajectory ([] ++ [moveTo_700_400])
              (PanelSystem.startDrag {| clientX := 300; clientY := 60 |} 0 s) in
  let el := Dom.get 0 (PanelSystem.document s') in
  let box := Dom.containers (PanelSystem.document s) 0 in
  0 <= Element.left el
  /\ 0 <= Element.top el
  /\ (Element.offsetWidth el <= Box.width box ->
      Element.left el + Element.offsetWidth el <= Box.width box)
  /\ (Element.offsetHeight el <= Box.height box ->
      Element.top el + Element.offsetHeight el <= Box.height box).
Proof.
  exact (drag_trajectory_bounds
           (PanelSystem.createPanel Layouts.characterList 0 (PanelSystem.new page))
           "character-list"
           {| PanelSystem.element := 0; PanelSystem.config := Layouts.characterList |}
           0%nat {| clientX := 300; clientY := 60 |} [] moveTo_700_400
           (wf_createPanel _ _ _ (wf_new page)) eq_refl eq_refl).
Defined.

(** C2 as stated fails: the character list of the template is 1200 wide;
    dragged in a container 1000 wide it is put at x = 0 and reaches 200
    past the right edge of the container. *)
Lemma drag_overflows_narrow_container :
  let s := draggedList in
  let s' := PanelSystem.trajectory [moveTo_700_400] s in
  let el := Dom.get 0 (PanelSystem.document s') in
  let box := Dom.containers (PanelSystem.document s') 0 in
  PanelSystem.element <$> JsMap.get "character-list" (PanelSystem.panels s) = Some 0%nat
  /\ PanelSystem.draggingPanel s = Some 0%nat
  /\ Element.left el = 0
  /\ Element.offsetWidth el = 1200
  /\ Box.width box = 1000
  /\ Element.left el + Element.offsetWidth el > Box.width box
  /\ ~ insideContainer el box.
Proof.
  cbv zeta. repeat split; try (vm_compute; congruence).
  intros (_ & _ & H & _). vm_compute in H. apply H. reflexivity.
Qed.

(** ** Creating panels *)

(** C3, as the code has it.  [createPanel] does not look the id up: on an
    id that is already tracked it builds and attaches a new element from
    the given configuration and stores it under the id, in the place of
    the previous instance.  The store keeps one instance per id (its keys
    are unchanged); the previous element stays in the document as it was,
    no longer tracked; the other instances are untouched. *)
Theorem createPanel_existing_id_replaces (panelConfig : PanelConfig.t)
    (container : nat) (s : PanelSystem.t) (old : PanelSystem.Entry) :
  PanelSystem.wf s ->
  JsMap.get (PanelConfig.id panelConfig) (PanelSystem.panels s) = Some old ->
  let s' := PanelSystem.createPanel panelConfig container s in
  let panel := Dom.fresh (PanelSystem.document s) in
  JsMap.keys (PanelSystem.panels s') = JsMap.keys (PanelSystem.panels s)
  /\ NoDup (JsMap.keys (PanelSystem.panels s'))
  /\ JsMap.get (PanelConfig.id panelConfig) (PanelSystem.panels s')
     = Some {| PanelSystem.element := panel; PanelSystem.config := panelConfig |}
  /\ panel <> PanelSystem.element old
  /\ Dom.get panel (PanelSystem.document s')
     = PanelSystem.panelElement panelConfig container (PanelSystem.document s)
  /\ Dom.get (PanelSystem.element old) (PanelSystem.document s')
     = Dom.get (PanelSystem.element old) (PanelSystem.document s)
  /\ (forall k, k <> PanelConfig.id panelConfig ->
        PanelSystem.elementOf k s' = PanelSystem.elementOf k s).
Proof.
  intros Hwf Hold s' panel.
  destruct (wf_tracked s _ old Hwf Hold) as [_ Hlt].
  assert (Hin : PanelConfig.id panelConfig ∈ JsMap.keys (PanelSystem.panels s)).
  { destruct (decide (PanelConfig.id panelConfig ∈ JsMap.keys (PanelSystem.panels s)))
      as [H|H]; [exact H|].
    apply JsMap_get_None in H. congruence. }
  split; [apply JsMap_keys_set_present, Hin|].
  split; [apply (wf_createPanel panelConfig container s Hwf)|].
  split; [apply JsMap_get_set_eq|].
  split; [unfold panel, Dom.fresh; lia|].
  split; [apply Dom_get_append_new|].
  split; [apply Dom_get_append_old, Hlt|].
  intros k Hk. unfold PanelSystem.elementOf, s'; simpl.
  rewrite JsMap_get_set_ne by congruence.
  destruct (JsMap.get k (PanelSystem.panels s)) as [p|] eqn:Hp; [|reflexivity].
  destruct (wf_tracked s k p Hwf Hp) as [_ Hplt].
  rewrite Dom_get_append_old by exact Hplt. reflexivity.
Qed.

Lemma createPanel_existing_id_replaces_witness :
  let s := storeWithEditor in
  let s' := PanelSystem.createPanel editorPanelMoved 0 s in
  JsMap.keys (PanelSystem.panels s') = JsMap.keys (PanelSystem.panels s)
  /\ Dom.get 0 (PanelSystem.document s') = Dom.get 0 (PanelSystem.document s).
Proof.
  pose proof
    (createPanel_existing_id_replaces editorPanelMoved 0 storeWithEditor
       {| PanelSystem.element := 0; PanelSystem.config := editorPanel |}
       (wf_createPanel editorPanel 0 _ (wf_new page)) eq_refl) as H.
  cbv zeta in H. destruct H as (Hk & _ & _ & _ & _ & Hold & _).
  exact (conj Hk Hold).
Defined.

(** C3 as stated fails: creating a panel under a tracked id is not a
    no-op.  The tracked instance of "editor" is another element afterwards
    and has the geometry of the second configuration. *)
Lemma createPanel_existing_id_not_noop :
  let s := storeWithEditor in
  let s' := PanelSystem.createPanel editorPanelMoved 0 s in
  JsMap.get "editor" (PanelSystem.panels s) <> None
  /\ PanelSystem.element <$> JsMap.get "editor" (PanelSystem.panels s')
     <> PanelSystem.element <$> JsMap.get "editor" (PanelSystem.panels s)
  /\ PanelSystem.geometry <$> PanelSystem.elementOf "editor" s = Some (0, 0, 800, 600)
  /\ PanelSystem.geometry <$> PanelSystem.elementOf "editor" s' = Some (40, 50, 300, 200).
Proof. cbv zeta. repeat split; vm_compute; congruence. Qed.

(** ** Clearing the store *)

Lemma clear_fold_other (ps : JsMap.t PanelSystem.Entry) : forall (d : Dom.t) (h : nat),
  h ∉ map (fun kv => PanelSystem.element (snd kv)) ps ->
  Dom.get h
    (fold_left (fun d kv => Dom.update Element.remove (PanelSystem.element (snd kv)) d)
       ps d)
  = Dom.get h d.
Proof.
  induction ps as [|[k p] r IH]; intros d h Hh; simpl; [reflexivity|].
  simpl in Hh. apply not_elem_of_cons in Hh as [Hne Hr].
  rewrite IH by exact Hr. apply Dom_get_update_ne. congruence.
Qed.

Lemma detached_update_remove (d : Dom.t) (h h' : nat) :
  h = h' \/ Element.parentElement (Dom.get h d) = None ->
  Element.parentElement (Dom.get h (Dom.update Element.remove h' d)) = None.
Proof.
  intros H. destruct (decide (h' = h)) as [->|Hne].
  - unfold Dom.get, Dom.update; simpl. rewrite list_lookup_alter_eq.
    destruct (Dom.elements d !! h); reflexivity.
  - rewrite Dom_get_update_ne by exact Hne. destruct H; congruence.
Qed.

Lemma clear_fold_detached (ps : JsMap.t PanelSystem.Entry) : forall (d : Dom.t) (h : nat),
  h ∈ map (fun kv => PanelSystem.element (snd kv)) ps
  \/ Element.parentElement (Dom.get h d) = None ->
  Element.parentElement
    (Dom.get h
       (fold_left (fun d kv => Dom.update Element.remove (PanelSystem.element (snd kv)) d)
          ps d))
  = None.
Proof.
  induction ps as [|[k p] r IH]; intros d h Hh; simpl.
  - destruct Hh as [Hh|Hh]; [|exact Hh]. apply elem_of_nil in Hh. contradiction.
  - apply IH. simpl in Hh.
    destruct Hh as [Hh|Hh].
    + apply elem_of_cons in Hh as [->|Hh]; [|left; exact Hh].
      right. apply detached_update_remove. left. reflexivity.
    + right. apply detached_update_remove. right. exact Hh.
Qed.

(** C8, as the code has it.  [clearAllPanels] does not use its container:
    it detaches the element of every tracked instance and empties the
    store, so that no instance of any container stays tracked; elements
    the store did not track are untouched. *)
Theorem clearAllPanels_clears_every_container (container : nat)
    (s : PanelSystem.t) :
  let s' := PanelSystem.clearAllPanels container s in
  PanelSystem.panels s' = []
  /\ (forall k panel,
        JsMap.get k (PanelSystem.panels s) = Some panel ->
        PanelSystem.elementOf k s' = None
        /\ Element.parentElement
             (Dom.get (PanelSystem.element panel) (PanelSystem.document s')) = None)
  /\ (forall h, h ∉ PanelSystem.handles s ->
        Dom.get h (PanelSystem.document s') = Dom.get h (PanelSystem.document s))
  /\ (forall other, PanelSystem.clearAllPanels other s = s').
Proof.
  cbv zeta. split; [reflexivity|]. split; [|split].
  - intros k panel Hget. split; [reflexivity|]. simpl.
    apply clear_fold_detached. left.
    apply JsMap_get_elem_of in Hget.
    apply (list_elem_of_fmap_2 (fun kv => PanelSystem.element (snd kv))) in Hget.
    exact Hget.
  - intros h Hh. simpl. apply clear_fold_other. exact Hh.
  - reflexivity.
Qed.

Lemma clearAllPanels_clears_every_container_witness :
  let s' := PanelSystem.clearAllPanels 0 storeWithTwoContainers in
  PanelSystem.panels s' = []
  /\ PanelSystem.elementOf "plot-board" s' = None
  /\ Element.parentElement (Dom.get 1 (PanelSystem.document s')) = None
  /\ PanelSystem.clearAllPanels 1 storeWithTwoContainers = s'.
Proof.
  pose proof (clearAllPanels_clears_every_container 0 storeWithTwoContainers) as H.
  cbv zeta in H. destruct H as (Hp & Ht & _ & Hc).
  destruct (Ht "plot-board"
              {| PanelSystem.element := 1; PanelSystem.config := plotBoard |}
              eq_refl) as [Hnone Hdet].
  exact (conj Hp (conj Hnone (conj Hdet (Hc 1%nat)))).
Defined.

(** C8 as stated fails: the plot board belongs to container 1, and
    clearing container 0 removes it from the store and from the page. *)
Lemma clearAllPanels_removes_other_container :
  let s := storeWithTwoContainers in
  let s' := PanelSystem.clearAllPanels 0 s in
  Element.parentElement <$> PanelSystem.elementOf "plot-board" s = Some (Some 1%nat)
  /\ PanelSystem.elementOf "plot-board" s' = None
  /\ Element.parentElement (Dom.get 1 (PanelSystem.document s')) = None.
Proof. cbv zeta. repeat split; vm_compute; reflexivity. Qed.

(** ** Snapshot and restore *)

Lemma lastFor_snoc k state x :
  lastFor k (state ++ [x])
  = if String.eqb (PanelConfig.id x) k then Some x else lastFor k state.
Proof. unfold lastFor. rewrite rev_app_distr. reflexivity. Qed.

Lemma lastFor_None k state :
  k ∉ map PanelConfig.id state -> lastFor k state = None.
Proof.
  induction state as [|x state IH] using rev_ind; intros Hk; [reflexivity|].
  rewrite lastFor_snoc. rewrite map_app in Hk. simpl in Hk.
  apply not_elem_of_app in Hk as [Hk Hx].
  destruct (String.eqb_spec (PanelConfig.id x) k) as [<-|_]; [|auto].
  exfalso. apply Hx. apply list_elem_of_here.
Qed.

Lemma lastFor_Some k state :
  k ∈ map PanelConfig.id state ->
  exists panelState,
    lastFor k state = Some panelState
    /\ panelState ∈ state /\ PanelConfig.id panelState = k.
Proof.
  induction state as [|x state IH] using rev_ind; intros Hk.
  - apply elem_of_nil in Hk. contradiction.
  - rewrite lastFor_snoc. setoid_rewrite elem_of_app.
    destruct (String.eqb_spec (PanelConfig.id x) k) as [Hx|Hx].
    + exists x. split; [reflexivity|]. split; [|exact Hx].
      right. apply list_elem_of_here.
    + rewrite map_app in Hk. apply elem_of_app in Hk as [Hk|Hk].
      * destruct (IH Hk) as (ps & H1 & H2 & H3). exists ps. tauto.
      * simpl in Hk. apply list_elem_of_singleton in Hk. congruence.
Qed.

Lemma lastFor_unique state panelState :
  NoDup (map PanelConfig.id state) -> panelState ∈ state ->
  lastFor (PanelConfig.id panelState) state = Some panelState.
Proof.
  induction state as [|x state IH] using rev_ind; intros Hnd Hin.
  - apply elem_of_nil in Hin. contradiction.
  - rewrite lastFor_snoc. rewrite map_app in Hnd. simpl in Hnd.
    apply NoDup_app in Hnd as (Hnd & Hx & _).
    apply elem_of_app in Hin as [Hin|Hin].
    + destruct (String.eqb_spec (PanelConfig.id x) (PanelConfig.id panelState))
        as [Heq|_]; [|auto].
      exfalso. apply (Hx (PanelConfig.id panelState)).
      * apply (list_elem_of_fmap_2 PanelConfig.id), Hin.
      * rewrite Heq. apply list_elem_of_here.
    + apply list_elem_of_singleton in Hin. subst x.
      rewrite String.eqb_refl. reflexivity.
Qed.

Lemma applyState_fields p el :
  PanelSystem.applyState p el
  = Element.mk (Element.id el) (PanelConfig.x p) (PanelConfig.y p)
      (default (Element.width el) (validLength (PanelConfig.width p)))
      (default (Element.height el) (validLength (PanelConfig.height p)))
      (Element.display el) (Element.zIndex el) (Element.dragging el)
      (Element.parentElement el).
Proof.
  unfold PanelSystem.applyState, Element.set_height, Element.set_width,
    validLength.
  destruct el; simpl.
  destruct (0 <=? PanelConfig.width p), (0 <=? PanelConfig.height p); reflexivity.
Qed.

Lemma validLength_Some v : 0 <= v -> validLength v = Some v.
Proof.
  intros Hv. unfold validLength. destruct (Z.leb_spec 0 v); [reflexivity|lia].
Qed.

Lemma applyState_twice p el :
  PanelSystem.applyState p (PanelSystem.applyState p el) = PanelSystem.applyState p el.
Proof.
  rewrite !applyState_fields. simpl.
  destruct (validLength (PanelConfig.width p)), (validLength (PanelConfig.height p));
    reflexivity.
Qed.

Lemma applyState_geometry p el :
  validSize p ->
  PanelSystem.geometry (PanelSystem.applyState p el)
  = (PanelConfig.x p, PanelConfig.y p, PanelConfig.width p, PanelConfig.height p).
Proof.
  intros [Hw Hh]. rewrite applyState_fields. unfold PanelSystem.geometry. simpl.
  rewrite (validLength_Some _ Hw), (validLength_Some _ Hh). reflexivity.
Qed.

Lemma restored_snoc k state x el :
  restored k (state ++ [x]) el
  = if String.eqb (PanelConfig.id x) k
    then PanelSystem.applyState x (restored k state el)
    else restored k state el.
Proof. unfold restored. rewrite fold_left_app. reflexivity. Qed.

Lemma lastWrite_snoc ws w v :
  lastWrite (ws ++ [w]) v = default (lastWrite ws v) w.
Proof. unfold lastWrite. rewrite fold_left_app. reflexivity. Qed.

Lemma lastWrite_twice ws v : lastWrite ws (lastWrite ws v) = lastWrite ws v.
Proof.
  induction ws as [|w ws IH] using rev_ind; [reflexivity|].
  rewrite !lastWrite_snoc. destruct w as [c|]; simpl; [reflexivity|exact IH].
Qed.

(** The element of a panel after the assignments of a state: each of the
    four properties has the value of the last assignment the style took,
    and the rest of the element is as before. *)
Lemma restored_fields k state el :
  restored k state el
  = Element.mk (Element.id el)
      (lastWrite (writesTo k (fun p => Some (PanelConfig.x p)) state)
         (Element.left el))
      (lastWrite (writesTo k (fun p => Some (PanelConfig.y p)) state)
         (Element.top el))
      (lastWrite (writesTo k (fun p => validLength (PanelConfig.width p)) state)
         (Element.width el))
      (lastWrite (writesTo k (fun p => validLength (PanelConfig.height p)) state)
         (Element.height el))
      (Element.display el) (Element.zIndex el) (Element.dragging el)
      (Element.parentElement el).
Proof.
  induction state as [|x state IH] using rev_ind; [destruct el; reflexivity|].
  rewrite restored_snoc. unfold writesTo. rewrite !map_app. simpl.
  rewrite !lastWrite_snoc.
  destruct (String.eqb (PanelConfig.id x) k).
  - rewrite applyState_fields, IH. reflexivity.
  - rewrite IH. reflexivity.
Qed.

Lemma restored_twice k state el :
  restored k state (restored k state el) = restored k state el.
Proof.
  rewrite (restored_fields k state el).
  rewrite restored_fields. simpl. rewrite !lastWrite_twice. reflexivity.
Qed.

Lemma restored_None k state el :
  k ∉ map PanelConfig.id state -> restored k state el = el.
Proof.
  induction state as [|x state IH] using rev_ind; intros Hk; [reflexivity|].
  rewrite restored_snoc. rewrite map_app, elem_of_app in Hk.
  destruct (String.eqb_spec (PanelConfig.id x) k) as [Hx|Hx].
  - exfalso. apply Hk. right. simpl. rewrite Hx. apply list_elem_of_here.
  - apply IH. intros H. apply Hk. left. exact H.
Qed.

(** The last entry for the id is the last to be applied. *)
Lemma restored_lastFor k state el :
  match lastFor k state with
  | Some panelState =>
      exists mid, restored k state el = PanelSystem.applyState panelState mid
  | None => restored k state el = el
  end.
Proof.
  induction state as [|x state IH] using rev_ind; [reflexivity|].
  rewrite lastFor_snoc, restored_snoc.
  destruct (String.eqb (PanelConfig.id x) k); [eexists; reflexivity|exact IH].
Qed.


Lemma restore_fold_length ps state : forall d,
  length (Dom.elements (fold_left (PanelSystem.restoreOne ps) state d))
  = length (Dom.elements d).
Proof.
  induction state as [|x state IH]; intros d; simpl; [reflexivity|].
  rewrite IH. unfold PanelSystem.restoreOne.
  destruct (JsMap.get (PanelConfig.id x) ps); [apply length_alter|reflexivity].
Qed.

Lemma restore_fold_other ps state h : forall d,
  h ∉ map (fun kv => PanelSystem.element (snd kv)) ps ->
  Dom.get h (fold_left (PanelSystem.restoreOne ps) state d) = Dom.get h d.
Proof.
  induction state as [|x state IH]; intros d Hh; simpl; [reflexivity|].
  rewrite IH by exact Hh. unfold PanelSystem.restoreOne.
  destruct (JsMap.get (PanelConfig.id x) ps) as [q|] eqn:Hq; [|reflexivity].
  apply Dom_get_update_ne. intros Heq. subst h. apply Hh.
  apply JsMap_get_elem_of in Hq.
  apply (list_elem_of_fmap_2 (fun kv => PanelSystem.element (snd kv))) in Hq.
  exact Hq.
Qed.

(** The element of a tracked panel after the loop of [restorePanelState]:
    the entries for its id have been applied to it in order. *)
Lemma restore_fold_get s k panel :
  PanelSystem.wf s ->
  JsMap.get k (PanelSystem.panels s) = Some panel ->
  forall state,
    Dom.get (PanelSystem.element panel)
      (fold_left (PanelSystem.restoreOne (PanelSystem.panels s)) state
         (PanelSystem.document s))
    = restored k state
        (Dom.get (PanelSystem.element panel) (PanelSystem.document s)).
Proof.
  intros Hwf Hget state.
  destruct (wf_tracked s k panel Hwf Hget) as [_ Hlt].
  induction state as [|x state IH] using rev_ind; [reflexivity|].
  rewrite fold_left_app, restored_snoc. simpl.
  unfold PanelSystem.restoreOne at 1.
  destruct (String.eqb_spec (PanelConfig.id x) k) as [->|Hne].
  - rewrite Hget. rewrite Dom_get_update_eq
      by (rewrite restore_fold_length; exact Hlt).
    rewrite IH. reflexivity.
  - destruct (JsMap.get (PanelConfig.id x) (PanelSystem.panels s)) as [q|] eqn:Hq;
      [|exact IH].
    rewrite Dom_get_update_ne; [exact IH|].
    intros Heq. apply Hne.
    exact (wf_handles_inj s _ _ q panel Hwf Hq Hget Heq).
Qed.

Lemma restore_fold_tracked ps state : forall d,
  fold_left (PanelSystem.restoreOne ps)
    (List.filter
       (fun panelState =>
          bool_decide (is_Some (JsMap.get (PanelConfig.id panelState) ps)))
       state) d
  = fold_left (PanelSystem.restoreOne ps) state d.
Proof.
  induction state as [|x state IH]; intros d; simpl; [reflexivity|].
  destruct (JsMap.get (PanelConfig.id x) ps) as [q|] eqn:Hq.
  - rewrite bool_decide_true by (eexists; reflexivity). simpl. apply IH.
  - rewrite bool_decide_false by (intros [? ?]; discriminate).
    rewrite IH. unfold PanelSystem.restoreOne at 3. rewrite Hq. reflexivity.
Qed.

(** C5.  [restorePanelState] changes neither the set of tracked instances
    nor the number of elements of the page.  A tracked instance whose id
    occurs in the state gets the position of the (last) entry with its
    id, and its width and its height where they are not negative, so
    that an entry whose sizes are lengths overwrites the whole geometry;
    the rest of its element stays.  A tracked instance whose id does not
    occur keeps its element; elements that are not tracked are
    untouched; and the entries whose id is not tracked have no effect at
    all. *)
Theorem restorePanelState_overwrites_matching (state : list PanelConfig.t)
    (container : nat) (s : PanelSystem.t) :
  PanelSystem.wf s ->
  let s' := PanelSystem.restorePanelState state container s in
  PanelSystem.panels s' = PanelSystem.panels s
  /\ length (Dom.elements (PanelSystem.document s'))
     = length (Dom.elements (PanelSystem.document s))
  /\ (forall k panel,
        JsMap.get k (PanelSystem.panels s) = Some panel ->
        let before := Dom.get (PanelSystem.element panel) (PanelSystem.document s) in
        let after := Dom.get (PanelSystem.element panel) (PanelSystem.document s') in
        (k ∉ map PanelConfig.id state -> after = before)
        /\ (k ∈ map PanelConfig.id state ->
            exists panelState,
              panelState ∈ state /\ PanelConfig.id panelState = k
              /\ lastFor k state = Some panelState
              /\ Element.left after = PanelConfig.x panelState
              /\ Element.top after = PanelConfig.y panelState
              /\ (0 <= PanelConfig.width panelState ->
                  Element.width after = PanelConfig.width panelState)
              /\ (0 <= PanelConfig.height panelState ->
                  Element.height after = PanelConfig.height panelState)
              /\ (validSize panelState ->
                  after = PanelSystem.applyState panelState before
                  /\ PanelSystem.geometry after
                     = (PanelConfig.x panelState, PanelConfig.y panelState,
                        PanelConfig.width panelState,
                        PanelConfig.height panelState)))
        /\ Element.id after = Element.id before
        /\ Element.display after = Element.display before
        /\ Element.zIndex after = Element.zIndex before
        /\ Element.dragging after = Element.dragging before
        /\ Element.parentElement after = Element.parentElement before)
  /\ (forall h, h ∉ PanelSystem.handles s ->
        Dom.get h (PanelSystem.document s') = Dom.get h (PanelSystem.document s))
  /\ PanelSystem.restorePanelState (trackedEntries s state) container s = s'.
Proof.
  intros Hwf. cbv zeta. split; [reflexivity|].
  split; [apply restore_fold_length|]. split; [|split].
  - intros k panel Hget. simpl.
    rewrite (restore_fold_get s k panel Hwf Hget state).
    set (before := Dom.get (PanelSystem.element panel) (PanelSystem.document s)).
    split; [intros Hk; apply restored_None, Hk|].
    split; [|rewrite restored_fields; repeat split; reflexivity].
    intros Hk. destruct (lastFor_Some k state Hk) as (ps & Hlast & Hin & Hid).
    exists ps. split; [exact Hin|]. split; [exact Hid|]. split; [exact Hlast|].
    pose proof (restored_lastFor k state before) as Hmid. rewrite Hlast in Hmid.
    destruct Hmid as [mid Hmid].
    assert (Hrest : Element.mk (Element.id mid) 0 0 0 0 (Element.display mid)
                      (Element.zIndex mid) (Element.dragging mid)
                      (Element.parentElement mid)
                    = Element.mk (Element.id before) 0 0 0 0
                        (Element.display before) (Element.zIndex before)
                        (Element.dragging before) (Element.parentElement before)).
    { pose proof (restored_fields k state before) as Hf. rewrite Hmid in Hf.
      rewrite applyState_fields in Hf. injection Hf as -> _ _ _ _ -> -> -> ->.
      reflexivity. }
    injection Hrest as Hi Hd Hz Hg Hp.
    rewrite Hmid, applyState_fields. simpl.
    split; [reflexivity|]. split; [reflexivity|].
    split; [intros Hw; rewrite (validLength_Some _ Hw); reflexivity|].
    split; [intros Hh; rewrite (validLength_Some _ Hh); reflexivity|].
    intros [Hw Hh]. rewrite applyState_fields.
    rewrite (validLength_Some _ Hw), (validLength_Some _ Hh). simpl.
    rewrite Hi, Hd, Hz, Hg, Hp. split; reflexivity.
  - intros h Hh. simpl. apply restore_fold_other. exact Hh.
  - unfold PanelSystem.restorePanelState, trackedEntries.
    rewrite restore_fold_tracked. reflexivity.
Qed.

Lemma restorePanelState_overwrites_matching_witness :
  let s := storeWithEditor in
  let s' := PanelSystem.restorePanelState [plotBoard; editorPanelMoved] 0 s in
  PanelSystem.panels s' = PanelSystem.panels s
  /\ PanelSystem.geometry (Dom.get 0 (PanelSystem.document s')) = (40, 50, 300, 200)
  /\ PanelSystem.restorePanelState (trackedEntries s [plotBoard; editorPanelMoved]) 0 s
     = s'.
Proof.
  pose proof
    (restorePanelState_overwrites_matching [plotBoard; editorPanelMoved] 0
       storeWithEditor (wf_createPanel editorPanel 0 _ (wf_new page))) as H.
  cbv zeta in H. destruct H as (Hp & _ & Hel & _ & Ht).
  split; [exact Hp|]. split; [|exact Ht].
  destruct (Hel "editor"
              {| PanelSystem.element := 0; PanelSystem.config := editorPanel |}
              eq_refl) as (_ & Hin & _).
  destruct Hin as (ps & _ & _ & Hlast & _ & _ & _ & _ & Hgeo).
  { apply list_elem_of_further, list_elem_of_here. }
  injection Hlast as <-.
  apply Hgeo. split; discriminate.
Defined.

(** A negative width or height in an entry is not written: the position
    of the editor moves, its size stays 800 x 600. *)
Lemma restorePanelState_keeps_size_on_negative_entry :
  let entry := PanelConfig.mk "editor" "Editor" (-15) (-25) (-300) (-200) false in
  PanelSystem.geometry
    <$> PanelSystem.elementOf "editor"
          (PanelSystem.restorePanelState [entry] 0 storeWithEditor)
  = Some (-15, -25, 800, 600).
Proof. reflexivity. Qed.

(** The snapshot of a well-formed store has one entry per tracked id, and
    the entry of a panel is the one restore applies to it. *)
Lemma getPanelState_ids s :
  PanelSystem.wf s ->
  map PanelConfig.id (PanelSystem.getPanelState s) = JsMap.keys (PanelSystem.panels s).
Proof.
  intros (_ & _ & Hall). unfold PanelSystem.getPanelState, JsMap.keys.
  rewrite map_map. apply map_ext_Forall.
  eapply Forall_impl; [exact Hall|]. intros kv [Hid _]. exact Hid.
Qed.

Lemma lastFor_getPanelState s k panel :
  PanelSystem.wf s ->
  JsMap.get k (PanelSystem.panels s) = Some panel ->
  lastFor k (PanelSystem.getPanelState s)
  = Some (PanelSystem.panelState (PanelSystem.document s) panel).
Proof.
  intros Hwf Hget. destruct (wf_tracked s k panel Hwf Hget) as [Hid _].
  replace k with (PanelConfig.id (PanelSystem.panelState (PanelSystem.document s) panel))
    by exact Hid.
  apply lastFor_unique.
  - rewrite (getPanelState_ids s Hwf). apply Hwf.
  - apply JsMap_get_elem_of in Hget.
    apply (list_elem_of_fmap_2
             (fun kv => PanelSystem.panelState (PanelSystem.document s) (snd kv)))
      in Hget. exact Hget.
Qed.








(** ** The adaptive split *)

Lemma findById_Some id els : forall h0 h,
  App.findById id els h0 = Some h ->
  (h0 <= h < h0 + length els)%nat
  /\ Element.id <$> els !! (h - h0)%nat = Some id.
Proof.
  induction els as [|el r IH]; intros h0 h; simpl; [discriminate|].
  destruct (String.eqb_spec (Element.id el) id) as [Hid|Hid]; simpl.
  - destruct (bool_decide (is_Some (Element.parentElement el))).
    + intros [= <-]. rewrite Nat.sub_diag. simpl. split; [lia|congruence].
    + intros H. destruct (IH _ _ H) as [Hr Hl]. split; [lia|].
      replace (h - h0)%nat with (S (h - S h0)) by lia. exact Hl.
  - intros H. destruct (IH _ _ H) as [Hr Hl]. split; [lia|].
    replace (h - h0)%nat with (S (h - S h0)) by lia. exact Hl.
Qed.

Lemma getElementById_Some id d h :
  App.getElementById id d = Some h ->
  (h < length (Dom.elements d))%nat /\ Element.id (Dom.get h d) = id.
Proof.
  intros H. apply findById_Some in H as [Hr Hl].
  rewrite Nat.sub_0_r in Hl. split; [lia|]. unfold Dom.get.
  destruct (Dom.elements d !! h); simpl in *; congruence.
Qed.

(** C1, as the code has it.  For a container 1200 wide in the list view
    with the editor visible: the fraction is 0.70, the base split is
    listWidth 360 and editorWidth 830, the cap of the editor is
    floor(1200 x 0.70) = 840, the clamp to [320, 840] leaves the editor at
    830, the list is recomputed to clamp(1200 - 830 - 10, 280, 1200) = 360,
    and [adjustCharacterPanelLayout] assigns the list the width 360 at
    x = 0 and the editor the width 830 at x = 370. *)
Theorem adaptive_split_1200_list (a : App.t) (container listPanel editorPanel : nat) :
  App.sections a !! "characters" = Some container ->
  Box.width (Dom.containers (PanelSystem.document (App.panelSystem a)) container)
  = 1200 ->
  App.getElementById "character-list" (PanelSystem.document (App.panelSystem a))
  = Some listPanel ->
  App.getElementById "character-editor" (PanelSystem.document (App.panelSystem a))
  = Some editorPanel ->
  Split.maxEditorPct ViewList = Num.lit_0_70
  /\ Split.baseListWidth 1200 ViewList = Some 360
  /\ Split.baseEditorWidth 1200 360 = 830
  /\ Split.editorCap 1200 ViewList = Some 840
  /\ Split.clampedEditorWidth 830 840 = 830
  /\ Split.finalListWidth 1200 830 = 360
  /\ Split.widths 1200 ViewList = Some (360, 830)
  /\ let d' := PanelSystem.document
                 (App.panelSystem (App.adjustCharacterPanelLayout ViewList true a)) in
     (Element.left (Dom.get listPanel d'), Element.width (Dom.get listPanel d'))
     = (0, 360)
     /\ (Element.left (Dom.get editorPanel d'), Element.width (Dom.get editorPanel d'))
        = (370, 830).
Proof.
  intros Hsec Hw Hlist Hed.
  do 7 (split; [vm_compute; reflexivity|]).
  destruct (getElementById_Some _ _ _ Hlist) as [Hl Hlid].
  destruct (getElementById_Some _ _ _ Hed) as [He Heid].
  assert (Hne : listPanel <> editorPanel) by (intros ->; rewrite Hlid in Heid; discriminate).
  unfold App.adjustCharacterPanelLayout. rewrite Hlist, Hsec, Hed, Hw.
  replace (Split.widths 1200 ViewList) with (Some (360, 830))
    by (vm_compute; reflexivity).
  cbv zeta. simpl PanelSystem.document. split.
  - rewrite Dom_get_update_ne by congruence.
    rewrite Dom_get_update_eq by exact Hl.
    rewrite place_left, place_width by lia. reflexivity.
  - rewrite Dom_get_update_eq by (rewrite Dom_length_update; exact He).
    rewrite place_left, place_width by lia. reflexivity.
Qed.

Lemma adaptive_split_1200_list_witness :
  let d' := PanelSystem.document
              (App.panelSystem
                 (App.adjustCharacterPanelLayout ViewList true appInCharacters)) in
  Split.widths 1200 ViewList = Some (360, 830)
  /\ (Element.left (Dom.get 0 d'), Element.width (Dom.get 0 d')) = (0, 360)
  /\ (Element.left (Dom.get 1 d'), Element.width (Dom.get 1 d')) = (370, 830).
Proof.
  pose proof (adaptive_split_1200_list appInCharacters 2%nat 0%nat 1%nat
                eq_refl eq_refl eq_refl eq_refl) as H.
  cbv zeta in H. destruct H as (_ & _ & _ & _ & _ & _ & Hw & Hl & He).
  exact (conj Hw (conj Hl He)).
Defined.

(** C1 as stated fails: the base editor width 830 is already below the
    cap 840, so the clamp does not raise it to 840, and the widths are
    not (350, 840). *)
Lemma adaptive_split_1200_not_350_840 :
  Split.baseListWidth 1200 ViewList = Some 360
  /\ Split.editorCap 1200 ViewList = Some 840
  /\ Split.clampedEditorWidth (Split.baseEditorWidth 1200 360) 840 <> 840
  /\ Split.widths 1200 ViewList <> Some (350, 840).
Proof. repeat split; vm_compute; congruence. Qed.

(** ** Saving the state *)

Lemma getPanelState_nil s :
  PanelSystem.getPanelState s = [] <-> PanelSystem.panels s = [].
Proof.
  unfold PanelSystem.getPanelState.
  destruct (PanelSystem.panels s); simpl; split; congruence.
Qed.

(** C9.  [saveProjectState] returns at once, changing nothing and sending
    nothing, while no section is current ([currentSection] is [null], or
    the empty string); and when the snapshot of the
    panel store is empty it leaves every saved layout, the one of the
    current section included, as it was. *)
Theorem saveProjectState_keeps_layouts_on_empty_snapshot (a : App.t) :
  (App.currentSection a = None \/ App.currentSection a = Some "" ->
   App.saveProjectState a = a)
  /\ (PanelSystem.getPanelState (App.panelSystem a) = [] ->
      App.savedLayouts (App.saveProjectState a) = App.savedLayouts a
      /\ forall section,
           App.currentSection a = Some section ->
           App.savedLayouts (App.saveProjectState a) !! section
           = App.savedLayouts a !! section).
Proof.
  split.
  - intros Hcur. unfold App.saveProjectState.
    destruct Hcur as [-> | ->]; reflexivity.
  - intros Hempty.
    assert (H : App.savedLayouts (App.saveProjectState a) = App.savedLayouts a).
    { unfold App.saveProjectState.
      destruct (App.currentSection a) as [section|]; [|reflexivity].
      destruct (String.eqb section ""); [reflexivity|].
      rewrite Hempty. reflexivity. }
    split; [exact H|]. intros section _. rewrite H. reflexivity.
Qed.

Lemma saveProjectState_keeps_layouts_on_empty_snapshot_witness :
  App.saveProjectState (freshApp page) = freshApp page
  /\ App.savedLayouts (App.saveProjectState appAllClosed) !! "writing"
     = App.savedLayouts appAllClosed !! "writing".
Proof.
  split.
  - exact (proj1 (saveProjectState_keeps_layouts_on_empty_snapshot (freshApp page))
             (or_introl eq_refl)).
  - exact (proj2 (proj2 (saveProjectState_keeps_layouts_on_empty_snapshot appAllClosed)
                    eq_refl) "writing" eq_refl).
Defined.

(** ** Loading a section *)

Lemma wf_clearAllPanels container s :
  PanelSystem.wf (PanelSystem.clearAllPanels container s).
Proof.
  unfold PanelSystem.wf, PanelSystem.handles; simpl. repeat split; constructor.
Qed.

Lemma panelElement_ext panelConfig container d d' :
  Dom.intrinsic d = Dom.intrinsic d' ->
  PanelSystem.panelElement panelConfig container d
  = PanelSystem.panelElement panelConfig container d'.
Proof. intros H. unfold PanelSystem.panelElement. rewrite H. reflexivity. Qed.

(** The element built from a configuration whose sizes are lengths. *)
Lemma panelElement_valid panelConfig container d :
  validSize panelConfig ->
  PanelSystem.panelElement panelConfig container d
  = Element.mk (PanelConfig.id panelConfig)
      (PanelConfig.x panelConfig) (PanelConfig.y panelConfig)
      (PanelConfig.width panelConfig) (PanelConfig.height panelConfig)
      (if PanelConfig.hidden panelConfig then DisplayNone else DisplayUnset)
      None false (Some container).
Proof.
  intros [Hw Hh]. unfold PanelSystem.panelElement, Element.set_height,
    Element.set_width, Element.set_top, Element.set_left. simpl.
  destruct (Z.leb_spec 0 (PanelConfig.width panelConfig)); [|lia]. simpl.
  destruct (Z.leb_spec 0 (PanelConfig.height panelConfig)); [|lia]. simpl.
  destruct (PanelConfig.hidden panelConfig); reflexivity.
Qed.

Lemma panelElement_geometry panelConfig container d :
  validSize panelConfig ->
  PanelSystem.geometry (PanelSystem.panelElement panelConfig container d)
  = (PanelConfig.x panelConfig, PanelConfig.y panelConfig,
     PanelConfig.width panelConfig, PanelConfig.height panelConfig).
Proof. intros Hv. rewrite (panelElement_valid _ _ _ Hv). reflexivity. Qed.

Lemma intrinsic_clearAllPanels container s :
  Dom.intrinsic (PanelSystem.document (PanelSystem.clearAllPanels container s))
  = Dom.intrinsic (PanelSystem.document s).
Proof.
  unfold PanelSystem.clearAllPanels; simpl.
  generalize (PanelSystem.document s).
  induction (PanelSystem.panels s) as [|kv r IH]; intros d; simpl; [reflexivity|].
  rewrite IH. reflexivity.
Qed.

Lemma createPanel_elementOf_new panelConfig container s :
  PanelSystem.elementOf (PanelConfig.id panelConfig)
    (PanelSystem.createPanel panelConfig container s)
  = Some (PanelSystem.panelElement panelConfig container (PanelSystem.document s)).
Proof.
  unfold PanelSystem.elementOf, PanelSystem.createPanel; simpl.
  rewrite JsMap_get_set_eq. simpl. rewrite Dom_get_append_new. reflexivity.
Qed.

Lemma createPanel_elementOf_other panelConfig container s k :
  PanelSystem.wf s -> k <> PanelConfig.id panelConfig ->
  PanelSystem.elementOf k (PanelSystem.createPanel panelConfig container s)
  = PanelSystem.elementOf k s.
Proof.
  intros Hwf Hk. unfold PanelSystem.elementOf, PanelSystem.createPanel; simpl.
  rewrite JsMap_get_set_ne by congruence.
  destruct (JsMap.get k (PanelSystem.panels s)) as [p|] eqn:Hp; [|reflexivity].
  destruct (wf_tracked s k p Hwf Hp) as [_ Hplt].
  rewrite Dom_get_append_old by exact Hplt. reflexivity.
Qed.

(** Two configurations with different ids instantiated in an empty
    store: the store tracks exactly the two, in order, each with the
    element built from its configuration. *)
Lemma createPanel_pair p q container s :
  PanelSystem.wf s -> PanelSystem.panels s = [] ->
  PanelConfig.id p <> PanelConfig.id q ->
  let s' := PanelSystem.createPanel q container
              (PanelSystem.createPanel p container s) in
  PanelSystem.wf s'
  /\ JsMap.keys (PanelSystem.panels s') = [PanelConfig.id p; PanelConfig.id q]
  /\ map PanelSystem.config (JsMap.values (PanelSystem.panels s')) = [p; q]
  /\ PanelSystem.elementOf (PanelConfig.id p) s'
     = Some (PanelSystem.panelElement p container (PanelSystem.document s))
  /\ PanelSystem.elementOf (PanelConfig.id q) s'
     = Some (PanelSystem.panelElement q container (PanelSystem.document s)).
Proof.
  intros Hwf Hnil Hne s'.
  pose proof (wf_createPanel p container s Hwf) as Hwf1.
  split; [apply wf_createPanel, Hwf1|].
  assert (Hpanels : PanelSystem.panels s'
            = [ (PanelConfig.id p,
                 {| PanelSystem.element := Dom.fresh (PanelSystem.document s);
                    PanelSystem.config := p |});
                (PanelConfig.id q,
                 {| PanelSystem.element :=
                      Dom.fresh (PanelSystem.document
                                   (PanelSystem.createPanel p container s));
                    PanelSystem.config := q |}) ]).
  { unfold s', PanelSystem.createPanel at 1. simpl PanelSystem.panels.
    rewrite Hnil. simpl.
    destruct (String.eqb_spec (PanelConfig.id q) (PanelConfig.id p));
      [congruence|reflexivity]. }
  rewrite Hpanels. split; [reflexivity|]. split; [reflexivity|]. split.
  - unfold s'. rewrite createPanel_elementOf_other by (exact Hwf1 || congruence).
    apply createPanel_elementOf_new.
  - unfold s'. rewrite createPanel_elementOf_new. reflexivity.
Qed.

(** ** The tail of [loadSection]: what it leaves alone *)

Ltac finish_cases :=
  unfold App.finish, App.instantiate, App.initializeCharacterViews,
    App.setTimeout;
  repeat match goal with
         | |- context [match ?x with _ => _ end] =>
             first [is_var x | fail 1]; destruct x
         end;
  cbn;
  repeat match goal with
         | |- context [if ?b then _ else _] => destruct b; cbn
         | |- context [match ?x with _ => _ end] => destruct x; cbn
         end;
  try reflexivity.

Lemma finish_panelSystem sectionName panelConfigs container a :
  App.panelSystem (App.finish sectionName panelConfigs container a)
  = fold_left (fun ps panelConfig =>
                 PanelSystem.createPanel panelConfig container ps)
      panelConfigs (App.panelSystem a).
Proof. finish_cases. Qed.

Lemma finish_currentSection sectionName panelConfigs container a :
  App.currentSection (App.finish sectionName panelConfigs container a)
  = App.currentSection a.
Proof. finish_cases. Qed.

Lemma finish_savedLayouts sectionName panelConfigs container a :
  App.savedLayouts (App.finish sectionName panelConfigs container a)
  = App.savedLayouts a.
Proof. finish_cases. Qed.

Lemma finish_setupSections sectionName panelConfigs container a :
  App.setupSections (App.finish sectionName panelConfigs container a)
  = App.setupSections a.
Proof. finish_cases. Qed.

Lemma finish_sectionPanelSelections sectionName panelConfigs container a :
  App.sectionPanelSelections (App.finish sectionName panelConfigs container a)
  = App.sectionPanelSelections a.
Proof. finish_cases. Qed.

Lemma finish_saved sectionName panelConfigs container a :
  App.saved (App.finish sectionName panelConfigs container a) = App.saved a.
Proof. finish_cases. Qed.

Lemma finish_sections sectionName panelConfigs container a :
  App.sections (App.finish sectionName panelConfigs container a) = App.sections a.
Proof. finish_cases. Qed.

Lemma finish_isProjectLoaded sectionName panelConfigs container a :
  App.isProjectLoaded (App.finish sectionName panelConfigs container a)
  = App.isProjectLoaded a.
Proof. finish_cases. Qed.

Lemma finish_projectManager sectionName panelConfigs container a :
  App.projectManager (App.finish sectionName panelConfigs container a)
  = App.projectManager a.
Proof. finish_cases. Qed.

Lemma finish_characterManager sectionName panelConfigs container a :
  App.characterManager (App.finish sectionName panelConfigs container a)
  = App.characterManager a.
Proof. finish_cases. Qed.

(** The timers the tail sets: the save, when panels were created, and
    then the adjustment of the character section. *)
Lemma finish_timers sectionName panelConfigs container a :
  exists adjust,
    App.timers (App.finish sectionName panelConfigs container a)
    = App.timers a
      ++ match panelConfigs with
         | [] => []
         | _ :: _ => [ {| App.delay := 50; App.task := App.SaveProjectState |} ]
         end
      ++ adjust
    /\ (adjust = [] \/ adjust = [ {| App.delay := 0; App.task := App.AdjustLayout |} ])
    /\ (sectionName <> "characters" \/ App.characterManager a = None -> adjust = []).
Proof.
  unfold App.finish, App.instantiate, App.initializeCharacterViews, App.setTimeout.
  destruct panelConfigs as [|p r]; cbn [app].
  - destruct (String.eqb_spec sectionName "characters") as [->|Hne]; cbn [andb].
    + destruct (App.characterManager a) as [cm|] eqn:Hcm.
      * rewrite bool_decide_true by (eexists; reflexivity).
        destruct (App.getElementById "character-list" _);
          [destruct (App.getElementById "character-editor" _)|].
        -- eexists. split; [cbn; reflexivity|]. split; [right; reflexivity|].
           intros [H|H]; congruence.
        -- exists []. rewrite app_nil_r. split; [reflexivity|].
           split; [left; reflexivity|reflexivity].
        -- exists []. rewrite app_nil_r. split; [reflexivity|].
           split; [left; reflexivity|reflexivity].
      * rewrite bool_decide_false by (intros [? ?]; discriminate).
        exists []. rewrite app_nil_r. split; [reflexivity|].
        split; [left; reflexivity|reflexivity].
    + exists []. rewrite app_nil_r. split; [reflexivity|].
      split; [left; reflexivity|reflexivity].
  - destruct (String.eqb_spec sectionName "characters") as [->|Hne]; cbn [andb].
    + cbn [App.characterManager App.with_timers App.with_panelSystem].
      destruct (App.characterManager a) as [cm|] eqn:Hcm.
      * rewrite bool_decide_true by (eexists; reflexivity).
        cbn [App.panelSystem App.with_timers App.with_panelSystem].
        destruct (App.getElementById "character-list" _);
          [destruct (App.getElementById "character-editor" _)|].
        -- eexists. split; [cbn; rewrite <- app_assoc; reflexivity|].
           split; [right; reflexivity|]. intros [H|H]; congruence.
        -- exists []. split; [reflexivity|].
           split; [left; reflexivity|reflexivity].
        -- exists []. split; [reflexivity|].
           split; [left; reflexivity|reflexivity].
      * rewrite bool_decide_false by (intros [? ?]; discriminate).
        exists []. split; [reflexivity|].
        split; [left; reflexivity|reflexivity].
    + exists []. split; [reflexivity|].
      split; [left; reflexivity|reflexivity].
Qed.

(** ** [switchSection] *)


Lemma switchSection_raises layouts sectionName dialog a :
  App.isProjectLoaded a = true -> currentSectionOnPage a = false ->
  App.switchSection layouts sectionName dialog a = None.
Proof.
  intros Hloaded Hpage. unfold App.switchSection, currentSectionOnPage in *.
  rewrite Hloaded. cbn [negb].
  destruct (App.currentSection a) as [current|]; [|discriminate].
  destruct (String.eqb current ""); [discriminate|]. cbn [orb] in Hpage.
  apply bool_decide_eq_false in Hpage.
  destruct (App.sections a !! current) as [c|]; [|reflexivity].
  exfalso. apply Hpage. eexists. reflexivity.
Qed.

(** ** Timers *)



(** C7.  Reconciliation fallback: a section recorded as set up with the
    selection [a, c] and without a saved layout (absent or empty), entered
    with the template [a, b, c, d], gets exactly the panels a and c, each
    built from its template configuration and so, its width and height
    being lengths, at its template geometry. *)
Theorem loadSection_reconciliation_fallback (layouts : Layouts.Registry)
    (x layoutName : string) (container : nat) (dialog : option (list nat))
    (a : App.t) (pa pb pc pd : PanelConfig.t) :
  PanelConfig.id pa = "a" -> PanelConfig.id pb = "b" ->
  PanelConfig.id pc = "c" -> PanelConfig.id pd = "d" ->
  validSize pa -> validSize pc ->
  App.sections a !! x = Some container ->
  App.setupSections a !! x = Some true ->
  App.sectionPanelSelections a !! x = Some ["a"; "c"] ->
  App.savedLayouts a !! x = None \/ App.savedLayouts a !! x = Some [] ->
  layouts !! x
  = Some {| Layouts.name := layoutName; Layouts.panels := [pa; pb; pc; pd] |} ->
  let d := PanelSystem.document (App.panelSystem a) in
  let store := App.panelSystem (App.loadSection layouts x dialog a) in
  JsMap.keys (PanelSystem.panels store) = ["a"; "c"]
  /\ map PanelSystem.config (JsMap.values (PanelSystem.panels store)) = [pa; pc]
  /\ PanelSystem.elementOf "a" store = Some (PanelSystem.panelElement pa container d)
  /\ PanelSystem.elementOf "c" store = Some (PanelSystem.panelElement pc container d)
  /\ PanelSystem.geometry <$> PanelSystem.elementOf "a" store
     = Some (PanelConfig.x pa, PanelConfig.y pa,
             PanelConfig.width pa, PanelConfig.height pa)
  /\ PanelSystem.geometry <$> PanelSystem.elementOf "c" store
     = Some (PanelConfig.x pc, PanelConfig.y pc,
             PanelConfig.width pc, PanelConfig.height pc).
Proof.
  intros Ha Hb Hc Hd Hva Hvc Hsec Hsetup Hsel Hsaved Hlayout d store.
  assert (Hstore : store
            = PanelSystem.createPanel pc container
                (PanelSystem.createPanel pa container
                   (PanelSystem.clearAllPanels container (App.panelSystem a)))).
  { unfold store, App.loadSection. rewrite Hsec. cbn beta iota zeta.
    unfold App.isSetup. cbn [App.savedLayouts App.setupSections
      App.sectionPanelSelections App.with_panelSystem].
    rewrite Hsetup, Hsel, Hlayout. cbn [default negb Layouts.panels List.filter].
    rewrite Ha, Hb, Hc, Hd.
    destruct Hsaved as [-> | ->]; cbn; rewrite finish_panelSystem; reflexivity. }
  destruct (createPanel_pair pa pc container
              (PanelSystem.clearAllPanels container (App.panelSystem a))
              (wf_clearAllPanels _ _) eq_refl)
    as (_ & Hkeys & Hcfg & Hea & Hec); [congruence|].
  rewrite <- Hstore in Hkeys, Hcfg, Hea, Hec. rewrite Ha in Hkeys, Hea.
  rewrite Hc in Hkeys, Hec.
  rewrite (panelElement_ext pa container _ d (intrinsic_clearAllPanels _ _)) in Hea.
  rewrite (panelElement_ext pc container _ d (intrinsic_clearAllPanels _ _)) in Hec.
  split; [exact Hkeys|]. split; [exact Hcfg|].
  split; [exact Hea|]. split; [exact Hec|].
  rewrite Hea, Hec. cbn [fmap option_fmap option_map].
  rewrite (panelElement_geometry _ _ _ Hva), (panelElement_geometry _ _ _ Hvc).
  split; reflexivity.
Qed.

Lemma loadSection_reconciliation_fallback_witness :
  let store := App.panelSystem (App.loadSection registryABCD "x" None appWithXSetUp) in
  JsMap.keys (PanelSystem.panels store) = ["a"; "c"]
  /\ PanelSystem.geometry <$> PanelSystem.elementOf "a" store = Some (0, 0, 400, 300)
  /\ PanelSystem.geometry <$> PanelSystem.elementOf "c" store = Some (0, 310, 400, 300).
Proof.
  pose proof
    (loadSection_reconciliation_fallback registryABCD "x" "X" 0 None appWithXSetUp
       panelA panelB panelC panelD eq_refl eq_refl eq_refl eq_refl
       ltac:(split; discriminate) ltac:(split; discriminate) eq_refl
       eq_refl eq_refl (or_introl eq_refl) eq_refl) as H.
  cbv zeta in H. destruct H as (Hk & _ & _ & _ & Hga & Hgc).
  exact (conj Hk (conj Hga Hgc)).
Defined.







(** Where the current section has no element on the page,
    [switchSection] raises and nothing is entered. *)
Lemma switchSection_raises_off_page :
  App.switchSection registryABC "x" (Some [1%nat])
    (App.with_currentSection (Some "missing") appWithX) = None.
Proof. reflexivity. Qed.

(** ** The code on concrete inputs *)

Example split_1200_list : Split.widths 1200 ViewList = Some (360, 830).
Proof. vm_compute. reflexivity. Qed.

Example split_600_importance : Split.widths 600 ViewImportance = Some (280, 380).
Proof. vm_compute. reflexivity. Qed.

Example dialog_uncheck_and_recheck :
  SetupDialog.show [panelA; panelB; panelC] [1%nat; 1%nat] = [panelA; panelB; panelC]
  /\ SetupDialog.show [panelA; panelB; panelC] [0%nat; 1%nat; 2%nat] = [].
Proof. split; reflexivity. Qed.

Example characters_first_visit :
  JsMap.keys (PanelSystem.panels (App.panelSystem appInCharacters))
  = ["character-list"; "character-editor"]
  /\ App.savedLayouts appInCharacters !! "characters"
     = Some [Layouts.characterList; Layouts.characterEditor]
  /\ PanelSystem.getPanelState (App.panelSystem appInCharacters)
     = [ Layouts.panel "character-list" "Character List" 0 0 1200 600;
         Layouts.panel "character-editor" "Character Details" 910 0 0 0 ].
Proof. repeat split; vm_compute; reflexivity. Qed.

Example drag_inside_container :
  let s := PanelSystem.startDrag {| clientX := 300; clientY := 60 |} 0 storeWithEditor in
  PanelSystem.dragOffset s = (60, 12)
  /\ PanelSystem.geometry
       (Dom.get 0 (PanelSystem.document
                     (PanelSystem.trajectory
                        [ {| clientX := 400; clientY := 100 |};
                          {| clientX := 2000; clientY := -50 |} ] s)))
     = (200, 0, 800, 600).
Proof. cbv zeta. split; vm_compute; reflexivity. Qed.

(** * Further properties of the panel system *)

(** ** Removing a panel *)

Section JsMapDelete.
Context {V : Type}.
Implicit Types (m : JsMap.t V) (k : string) (v : V).

Lemma JsMap_get_delete_eq k m : JsMap.get k (JsMap.delete k m) = None.
Proof.
  induction m as [|[k' v'] r IH]; simpl; [reflexivity|].
  destruct (String.eqb_spec k k') as [->|Hne]; simpl; [exact IH|].
  destruct (String.eqb_spec k k'); [congruence|exact IH].
Qed.

Lemma JsMap_get_delete_ne k k' m :
  k <> k' -> JsMap.get k' (JsMap.delete k m) = JsMap.get k' m.
Proof.
  intros Hne. induction m as [|[k0 v0] r IH]; simpl; [reflexivity|].
  destruct (String.eqb_spec k k0) as [->|Hk]; simpl.
  - destruct (String.eqb_spec k' k0); [congruence|exact IH].
  - rewrite IH. reflexivity.
Qed.

Lemma JsMap_keys_delete k m :
  JsMap.keys (JsMap.delete k m)
  = List.filter (fun k' => negb (String.eqb k k')) (JsMap.keys m).
Proof.
  induction m as [|[k0 v0] r IH]; simpl; [reflexivity|].
  destruct (String.eqb k k0); simpl; rewrite IH; reflexivity.
Qed.

Lemma JsMap_delete_absent k m : JsMap.get k m = None -> JsMap.delete k m = m.
Proof.
  induction m as [|[k0 v0] r IH]; simpl; [reflexivity|].
  destruct (String.eqb k k0); [discriminate|]. simpl.
  intros H. rewrite (IH H). reflexivity.
Qed.
End JsMapDelete.

(** X1.  [removePanel] on an id that is not tracked changes nothing.  On
    a tracked id it detaches the element of the instance, which keeps
    its style, and drops the id from the map; the remaining ids keep
    their order, their entries and their elements. *)
Theorem removePanel_untracks_one (panelId : string) (s : PanelSystem.t) :
  PanelSystem.wf s ->
  let s' := PanelSystem.removePanel panelId s in
  (JsMap.get panelId (PanelSystem.panels s) = None -> s' = s)
  /\ (forall panel,
        JsMap.get panelId (PanelSystem.panels s) = Some panel ->
        JsMap.get panelId (PanelSystem.panels s') = None
        /\ JsMap.keys (PanelSystem.panels s')
           = List.filter (fun k => negb (String.eqb panelId k))
               (JsMap.keys (PanelSystem.panels s))
        /\ Dom.get (PanelSystem.element panel) (PanelSystem.document s')
           = Element.remove
               (Dom.get (PanelSystem.element panel) (PanelSystem.document s))
        /\ (forall k, k <> panelId ->
              JsMap.get k (PanelSystem.panels s') = JsMap.get k (PanelSystem.panels s)
              /\ PanelSystem.elementOf k s' = PanelSystem.elementOf k s)).
Proof.
  intros Hwf. cbv zeta. split.
  - intros Hnone. unfold PanelSystem.removePanel. rewrite Hnone. reflexivity.
  - intros panel Hget. unfold PanelSystem.removePanel. rewrite Hget. simpl.
    destruct (wf_tracked s panelId panel Hwf Hget) as [_ Hlt].
    split; [apply JsMap_get_delete_eq|]. split; [apply JsMap_keys_delete|].
    split; [apply Dom_get_update_eq, Hlt|].
    intros k Hk.
    assert (Hgk : JsMap.get k (JsMap.delete panelId (PanelSystem.panels s))
                  = JsMap.get k (PanelSystem.panels s))
      by (apply JsMap_get_delete_ne; congruence).
    split; [exact Hgk|]. unfold PanelSystem.elementOf; simpl. rewrite Hgk.
    destruct (JsMap.get k (PanelSystem.panels s)) as [q|] eqn:Hq; [|reflexivity].
    rewrite Dom_get_update_ne; [reflexivity|].
    intros Heq. apply Hk.
    exact (wf_handles_inj s k panelId q panel Hwf Hq Hget (eq_sym Heq)).
Qed.

Lemma removePanel_untracks_one_witness :
  PanelSystem.removePanel "missing" storeWithTwoContainers = storeWithTwoContainers
  /\ JsMap.keys (PanelSystem.panels
                   (PanelSystem.removePanel "editor" storeWithTwoContainers))
     = List.filter (fun k => negb (String.eqb "editor" k))
         (JsMap.keys (PanelSystem.panels storeWithTwoContainers)).
Proof.
  pose proof (removePanel_untracks_one "missing" storeWithTwoContainers
                (wf_createPanel _ _ _ (wf_createPanel _ _ _ (wf_new page)))) as H1.
  pose proof (removePanel_untracks_one "editor" storeWithTwoContainers
                (wf_createPanel _ _ _ (wf_createPanel _ _ _ (wf_new page)))) as H2.
  cbv zeta in H1, H2. split.
  - exact (proj1 H1 eq_refl).
  - exact (proj1 (proj2 (proj2 H2
             {| PanelSystem.element := 0; PanelSystem.config := editorPanel |}
             eq_refl))).
Defined.

(** ** The stacking order *)

Lemma fold_max_ge_init {A : Type} (f : A -> Z) (l : list A) : forall init,
  init <= fold_left (fun highest a => Math_max highest (f a)) l init.
Proof.
  induction l as [|a l IH]; intros init; simpl; [lia|].
  specialize (IH (Math_max init (f a))). unfold Math_max in *. lia.
Qed.

Lemma fold_max_ge_elem {A : Type} (f : A -> Z) (l : list A) : forall init a,
  a ∈ l -> f a <= fold_left (fun highest a => Math_max highest (f a)) l init.
Proof.
  induction l as [|b l IH]; intros init a Hin; simpl.
  - apply elem_of_nil in Hin. contradiction.
  - apply elem_of_cons in Hin as [->|Hin]; [|apply IH, Hin].
    pose proof (fold_max_ge_init f l (Math_max init (f b))).
    unfold Math_max in *. lia.
Qed.

Lemma fold_max_attained {A : Type} (f : A -> Z) (l : list A) : forall init,
  fold_left (fun highest a => Math_max highest (f a)) l init = init
  \/ exists a, a ∈ l
       /\ fold_left (fun highest a => Math_max highest (f a)) l init = f a.
Proof.
  induction l as [|b l IH]; intros init; simpl; [left; reflexivity|].
  destruct (IH (Math_max init (f b))) as [H|(a & Hin & H)].
  - rewrite H. unfold Math_max.
    destruct (Z.max_spec init (f b)) as [[_ ->]|[_ ->]].
    + right. exists b. split; [apply list_elem_of_here|reflexivity].
    + left. reflexivity.
  - right. exists a. split; [apply list_elem_of_further, Hin|exact H].
Qed.

Lemma fold_max_ext {A : Type} (f g : A -> Z) (l : list A) : forall init,
  (forall a, a ∈ l -> f a = g a) ->
  fold_left (fun highest a => Math_max highest (f a)) l init
  = fold_left (fun highest a => Math_max highest (g a)) l init.
Proof.
  induction l as [|b l IH]; intros init H; simpl; [reflexivity|].
  rewrite (H b) by apply list_elem_of_here.
  apply IH. intros a Ha. apply H, list_elem_of_further, Ha.
Qed.

Lemma getHighestZIndex_spec (s : PanelSystem.t) :
  0 <= PanelSystem.getHighestZIndex s
  /\ (forall k panel,
        JsMap.get k (PanelSystem.panels s) = Some panel ->
        zIndexOf (Dom.get (PanelSystem.element panel) (PanelSystem.document s))
        <= PanelSystem.getHighestZIndex s)
  /\ (PanelSystem.getHighestZIndex s = 0
      \/ exists k panel,
           (k, panel) ∈ PanelSystem.panels s
           /\ PanelSystem.getHighestZIndex s
              = zIndexOf (Dom.get (PanelSystem.element panel)
                            (PanelSystem.document s))).
Proof.
  unfold PanelSystem.getHighestZIndex.
  set (f := fun kv : string * PanelSystem.Entry =>
              default 0 (Element.zIndex
                           (Dom.get (PanelSystem.element (snd kv))
                              (PanelSystem.document s)))).
  split; [apply (fold_max_ge_init f)|]. split.
  - intros k panel Hget. apply JsMap_get_elem_of in Hget.
    exact (fold_max_ge_elem f _ 0 (k, panel) Hget).
  - destruct (fold_max_attained f (PanelSystem.panels s) 0) as [H|([k panel] & Hin & H)].
    + left. exact H.
    + right. exists k, panel. split; [exact Hin|exact H].
Qed.


(** X2.  [getHighestZIndex] is the greatest of 0 and the z-indices of the
    tracked panels: it is never negative, no tracked panel lies above it,
    and it is 0 or the z-index of a tracked panel. *)
Theorem getHighestZIndex_is_maximum (s : PanelSystem.t) :
  0 <= PanelSystem.getHighestZIndex s
  /\ (forall k panel,
        JsMap.get k (PanelSystem.panels s) = Some panel ->
        zIndexOf (Dom.get (PanelSystem.element panel) (PanelSystem.document s))
        <= PanelSystem.getHighestZIndex s)
  /\ (PanelSystem.getHighestZIndex s = 0
      \/ exists k panel,
           (k, panel) ∈ PanelSystem.panels s
           /\ PanelSystem.getHighestZIndex s
              = zIndexOf (Dom.get (PanelSystem.element panel)
                            (PanelSystem.document s))).
Proof. exact (getHighestZIndex_spec s). Qed.

Lemma getHighestZIndex_is_maximum_witness :
  zIndexOf (Dom.get 0 (PanelSystem.document draggedList))
  <= PanelSystem.getHighestZIndex draggedList.
Proof.
  exact (proj1 (proj2 (getHighestZIndex_is_maximum draggedList))
           "character-list"
           {| PanelSystem.element := 0; PanelSystem.config := Layouts.characterList |}
           eq_refl).
Defined.

(** X3.  A press on the header of a tracked panel brings it to the front
    as far as z-indices go.  The panel gets the z-index one above the
    highest so far, but not more than the greatest z-index 2147483647,
    and the other elements keep theirs; this is the highest z-index of
    the store afterwards and no tracked panel lies above it.  While the
    highest z-index is below the greatest, the panel ends strictly above
    every other tracked panel and the highest z-index grows by exactly
    one, also when the panel was in front already; once it is the
    greatest, the highest z-index stays.  Stated for stores whose
    highest z-index is not above the greatest, as it is in every store
    the calls build from the empty one. *)
Theorem startDrag_brings_to_front (e : MouseEvent) (panelId : string)
    (tracked : PanelSystem.Entry) (s : PanelSystem.t) :
  PanelSystem.wf s ->
  JsMap.get panelId (PanelSystem.panels s) = Some tracked ->
  PanelSystem.getHighestZIndex s <= Element.zIndexMax ->
  let panel := PanelSystem.element tracked in
  let s' := PanelSystem.startDrag e panel s in
  let top := Math_min (PanelSystem.getHighestZIndex s + 1) Element.zIndexMax in
  Element.zIndex (Dom.get panel (PanelSystem.document s')) = Some top
  /\ (forall h, h <> panel ->
        Element.zIndex (Dom.get h (PanelSystem.document s'))
        = Element.zIndex (Dom.get h (PanelSystem.document s)))
  /\ PanelSystem.getHighestZIndex s' = top
  /\ (forall k other,
        JsMap.get k (PanelSystem.panels s') = Some other -> k <> panelId ->
        zIndexOf (Dom.get (PanelSystem.element other) (PanelSystem.document s'))
        <= top
        /\ (PanelSystem.getHighestZIndex s < Element.zIndexMax ->
            zIndexOf (Dom.get (PanelSystem.element other) (PanelSystem.document s'))
            < top))
  /\ (PanelSystem.getHighestZIndex s < Element.zIndexMax ->
      PanelSystem.getHighestZIndex s' = PanelSystem.getHighestZIndex s + 1)
  /\ (PanelSystem.getHighestZIndex s = Element.zIndexMax ->
      PanelSystem.getHighestZIndex s' = PanelSystem.getHighestZIndex s).
Proof.
  intros Hwf Hget Hmax panel s' top.
  destruct (wf_tracked s panelId tracked Hwf Hget) as [_ Hlt].
  set (d1 := Dom.update (Element.set_dragging true) panel (PanelSystem.document s)).
  assert (Hz1 : forall h, Element.zIndex (Dom.get h d1)
                          = Element.zIndex (Dom.get h (PanelSystem.document s))).
  { intros h. destruct (decide (panel = h)) as [<-|Hne].
    - unfold d1. rewrite Dom_get_update_eq by exact Hlt. reflexivity.
    - unfold d1. rewrite Dom_get_update_ne by exact Hne. reflexivity. }
  assert (Hhigh1 : PanelSystem.getHighestZIndex
                     (PanelSystem.mk (PanelSystem.panels s) (Some panel)
                        (clientX e - Dom.rect_left panel d1,
                         clientY e - Dom.rect_top panel d1) d1)
                   = PanelSystem.getHighestZIndex s).
  { unfold PanelSystem.getHighestZIndex; simpl PanelSystem.panels;
      simpl PanelSystem.document.
    apply fold_max_ext. intros kv _. rewrite Hz1. reflexivity. }
  assert (Hdoc : PanelSystem.document s'
                 = Dom.update
                     (Element.set_zIndex (PanelSystem.getHighestZIndex s + 1))
                     panel d1).
  { unfold s', PanelSystem.startDrag. fold d1.
    cbn [PanelSystem.document PanelSystem.with_document].
    rewrite Hhigh1. reflexivity. }
  assert (Hpanels : PanelSystem.panels s' = PanelSystem.panels s) by reflexivity.
  assert (Hpanel : Element.zIndex (Dom.get panel (PanelSystem.document s')) = Some top).
  { rewrite Hdoc. rewrite Dom_get_update_eq; [reflexivity|].
    unfold d1. rewrite Dom_length_update. exact Hlt. }
  assert (Hother : forall h, h <> panel ->
            Element.zIndex (Dom.get h (PanelSystem.document s'))
            = Element.zIndex (Dom.get h (PanelSystem.document s))).
  { intros h Hne. rewrite Hdoc. rewrite Dom_get_update_ne by congruence. apply Hz1. }
  pose proof (proj1 (getHighestZIndex_spec s)) as Hge.
  assert (Htop : top = PanelSystem.getHighestZIndex s + 1
                 /\ PanelSystem.getHighestZIndex s < Element.zIndexMax
                 \/ top = PanelSystem.getHighestZIndex s
                    /\ PanelSystem.getHighestZIndex s = Element.zIndexMax).
  { unfold top, Math_min. lia. }
  assert (Hbelow : forall k other,
            JsMap.get k (PanelSystem.panels s') = Some other -> k <> panelId ->
            zIndexOf (Dom.get (PanelSystem.element other) (PanelSystem.document s'))
            <= PanelSystem.getHighestZIndex s).
  { intros k other Hk Hne. rewrite Hpanels in Hk.
    assert (Hh : PanelSystem.element other <> panel).
    { intros Heq. apply Hne.
      exact (wf_handles_inj s k panelId other tracked Hwf Hk Hget Heq). }
    unfold zIndexOf. rewrite (Hother _ Hh).
    exact (proj1 (proj2 (getHighestZIndex_spec s)) k other Hk). }
  assert (Hhigh : PanelSystem.getHighestZIndex s' = top).
  { pose proof (getHighestZIndex_spec s') as (Hge0 & Hle' & _).
    apply Z.le_antisymm.
    - destruct (proj2 (proj2 (getHighestZIndex_spec s')))
        as [H0|(k & other & Hin & Heq)].
      + rewrite H0. lia.
      + rewrite Heq.
        assert (Hk : JsMap.get k (PanelSystem.panels s') = Some other).
        { apply JsMap_elem_of_get; [rewrite Hpanels; apply Hwf|exact Hin]. }
        destruct (decide (k = panelId)) as [->|Hne].
        * rewrite Hpanels, Hget in Hk. injection Hk as <-.
          unfold zIndexOf. fold panel. rewrite Hpanel. simpl. lia.
        * pose proof (Hbelow k other Hk Hne). lia.
    - specialize (Hle' panelId tracked). rewrite Hpanels in Hle'.
      specialize (Hle' Hget). unfold zIndexOf in Hle'. fold panel in Hle'.
      rewrite Hpanel in Hle'. exact Hle'. }
  split; [exact Hpanel|]. split; [exact Hother|]. split; [exact Hhigh|].
  split; [|split; intros H; rewrite Hhigh; lia].
  intros k other Hk Hne. pose proof (Hbelow k other Hk Hne). split; lia.
Qed.

Lemma startDrag_brings_to_front_witness :
  let s' := PanelSystem.startDrag moveTo_700_400 1 storeWithTwoContainers in
  Element.zIndex (Dom.get 1 (PanelSystem.document s')) = Some 1
  /\ PanelSystem.getHighestZIndex s'
     = PanelSystem.getHighestZIndex storeWithTwoContainers + 1.
Proof.
  pose proof (startDrag_brings_to_front moveTo_700_400 "plot-board"
                {| PanelSystem.element := 1; PanelSystem.config := plotBoard |}
                storeWithTwoContainers
                (wf_createPanel _ _ _ (wf_createPanel _ _ _ (wf_new page)))
                eq_refl ltac:(vm_compute; discriminate)) as H.
  cbv zeta in H. destruct H as (H1 & _ & _ & _ & H4 & _).
  split; [exact H1|]. apply H4. reflexivity.
Defined.

(** At the greatest z-index a press no longer raises the panel above
    the others: the editor, in front at 2147483647, and the plot board,
    pressed, end at the same z-index. *)
Lemma startDrag_at_greatest_zIndex :
  let front :=
    PanelSystem.with_document
      (Dom.update (Element.set_zIndex Element.zIndexMax) 0
         (PanelSystem.document storeWithTwoContainers))
      storeWithTwoContainers in
  let s' := PanelSystem.startDrag moveTo_700_400 1 front in
  Element.zIndex (Dom.get 0 (PanelSystem.document s')) = Some 2147483647
  /\ Element.zIndex (Dom.get 1 (PanelSystem.document s')) = Some 2147483647
  /\ PanelSystem.getHighestZIndex s' = PanelSystem.getHighestZIndex front.
Proof. cbv zeta. repeat split; vm_compute; reflexivity. Qed.

(** ** The end of a drag and the accumulated listeners *)

Lemma Dom_get_update_cases f h h' d :
  Dom.get h (Dom.update f h' d) = Dom.get h d
  \/ Dom.get h (Dom.update f h' d) = f (Dom.get h d).
Proof.
  destruct (decide (h' = h)) as [->|Hne].
  - unfold Dom.get, Dom.update; simpl. rewrite list_lookup_alter_eq.
    destruct (Dom.elements d !! h); [right|left]; reflexivity.
  - left. apply Dom_get_update_ne, Hne.
Qed.

(** ** The z-indices of the stores the calls build *)

Lemma zIndex_bounded_update (f : Element.t -> Element.t) h h' d :
  (forall el, zIndexOf el <= Element.zIndexMax ->
              zIndexOf (f el) <= Element.zIndexMax) ->
  zIndexOf (Dom.get h d) <= Element.zIndexMax ->
  zIndexOf (Dom.get h (Dom.update f h' d)) <= Element.zIndexMax.
Proof.
  intros Hf Hd. destruct (Dom_get_update_cases f h h' d) as [-> | ->]; auto.
Qed.

Lemma zIndex_bounded_restore ps state h : forall d,
  zIndexOf (Dom.get h d) <= Element.zIndexMax ->
  zIndexOf (Dom.get h (fold_left (PanelSystem.restoreOne ps) state d))
  <= Element.zIndexMax.
Proof.
  induction state as [|x state IH]; intros d Hd; simpl; [exact Hd|].
  apply IH. unfold PanelSystem.restoreOne.
  destruct (JsMap.get (PanelConfig.id x) ps); [|exact Hd].
  apply zIndex_bounded_update; [|exact Hd].
  intros el Hel. rewrite applyState_fields. exact Hel.
Qed.

Lemma JsMap_set_elem_of {V : Type} (k : string) (v : V) (m : JsMap.t V) kv :
  kv ∈ JsMap.set k v m -> kv = (k, v) \/ kv ∈ m.
Proof.
  induction m as [|[k' v'] r IH]; simpl.
  - intros H. apply list_elem_of_singleton in H. left. exact H.
  - destruct (String.eqb k k').
    + intros H. apply elem_of_cons in H as [H|H]; [left; exact H|].
      right. apply list_elem_of_further, H.
    + intros H. apply elem_of_cons in H as [H|H].
      * right. rewrite H. apply list_elem_of_here.
      * destruct (IH H) as [H'|H']; [left; exact H'|].
        right. apply list_elem_of_further, H'.
Qed.

(** No call puts the z-index of a tracked panel above the greatest one. *)
Lemma call_zIndex_bounded s c :
  PanelSystem.wf s ->
  (forall kv, kv ∈ PanelSystem.panels s ->
     zIndexOf (Dom.get (PanelSystem.element (snd kv)) (PanelSystem.document s))
     <= Element.zIndexMax) ->
  forall kv, kv ∈ PanelSystem.panels (PanelSystem.call s c) ->
    zIndexOf (Dom.get (PanelSystem.element (snd kv))
                (PanelSystem.document (PanelSystem.call s c)))
    <= Element.zIndexMax.
Proof.
  intros Hwf Hb.
  assert (Hsame : forall s',
            (forall kv, kv ∈ PanelSystem.panels s' -> kv ∈ PanelSystem.panels s) ->
            (forall h, zIndexOf (Dom.get h (PanelSystem.document s))
                       <= Element.zIndexMax ->
                       zIndexOf (Dom.get h (PanelSystem.document s'))
                       <= Element.zIndexMax) ->
            forall kv, kv ∈ PanelSystem.panels s' ->
              zIndexOf (Dom.get (PanelSystem.element (snd kv))
                          (PanelSystem.document s'))
              <= Element.zIndexMax)
    by (intros s' Hsub Hdoc kv Hkv; apply Hdoc, Hb, Hsub, Hkv).
  destruct c; cbn [PanelSystem.call].
  - intros kv Hkv.
    unfold PanelSystem.createPanel in *; cbn [PanelSystem.panels
      PanelSystem.document] in *.
    apply JsMap_set_elem_of in Hkv as [-> | Hkv].
    + cbn [snd PanelSystem.element]. rewrite Dom_get_append_new.
      unfold zIndexOf, PanelSystem.panelElement, Element.set_height,
        Element.set_width; cbn.
      destruct (0 <=? PanelConfig.width panelConfig),
               (0 <=? PanelConfig.height panelConfig),
               (PanelConfig.hidden panelConfig); cbn; discriminate.
    + destruct kv as [k p].
      destruct (wf_handle_lt s k p Hwf Hkv) as [_ Hlt].
      cbn [snd]. rewrite Dom_get_append_old by exact Hlt.
      exact (Hb (k, p) Hkv).
  - unfold PanelSystem.removePanel.
    destruct (JsMap.get panelId (PanelSystem.panels s)) as [panel|]; [|exact Hb].
    apply Hsame; cbn [PanelSystem.panels PanelSystem.document].
    + intros kv Hkv. unfold JsMap.delete in Hkv.
      apply list_elem_of_In, filter_In in Hkv as [Hkv _].
      apply list_elem_of_In, Hkv.
    + intros h Hh. apply zIndex_bounded_update; [|exact Hh].
      intros el Hel. exact Hel.
  - intros kv Hkv. apply elem_of_nil in Hkv. contradiction.
  - apply (Hsame (PanelSystem.startDrag e panel s)); [auto|]. intros h Hh.
    unfold PanelSystem.startDrag;
      cbn [PanelSystem.document PanelSystem.with_document].
    apply zIndex_bounded_update.
    + intros el _. unfold zIndexOf, Element.set_zIndex, Math_min; cbn. lia.
    + apply zIndex_bounded_update; [|exact Hh]. intros el Hel. exact Hel.
  - unfold PanelSystem.onMouseMove, PanelSystem.drag.
    destruct (PanelSystem.draggingPanel s) as [panel|]; [|exact Hb].
    destruct (Element.parentElement _); [|exact Hb]. cbn [default].
    match goal with |- forall kv, kv ∈ PanelSystem.panels ?s' -> _ =>
      apply (Hsame s') end; [auto|]. intros h Hh.
    cbn [PanelSystem.document PanelSystem.with_document].
    apply zIndex_bounded_update; [|exact Hh]. intros el Hel. exact Hel.
  - unfold PanelSystem.stopDrag.
    destruct (PanelSystem.draggingPanel s) as [panel|]; [|exact Hb]. cbn [fst].
    match goal with |- forall kv, kv ∈ PanelSystem.panels ?s' -> _ =>
      apply (Hsame s') end; [auto|]. intros h Hh. cbn [PanelSystem.document].
    apply zIndex_bounded_update; [|exact Hh]. intros el Hel. exact Hel.
  - apply (Hsame (PanelSystem.restorePanelState state container s)); [auto|].
    intros h Hh.
    unfold PanelSystem.restorePanelState;
      cbn [PanelSystem.document PanelSystem.with_document].
    apply zIndex_bounded_restore, Hh.
  - unfold PanelSystem.showPanel, PanelSystem.setDisplay.
    destruct (JsMap.get _ _); [|exact Hb].
    match goal with |- forall kv, kv ∈ PanelSystem.panels ?s' -> _ =>
      apply (Hsame s') end; [auto|]. intros h Hh.
    cbn [PanelSystem.document PanelSystem.with_document].
    apply zIndex_bounded_update; [|exact Hh]. intros el Hel. exact Hel.
  - unfold PanelSystem.hidePanel, PanelSystem.setDisplay.
    destruct (JsMap.get _ _); [|exact Hb].
    match goal with |- forall kv, kv ∈ PanelSystem.panels ?s' -> _ =>
      apply (Hsame s') end; [auto|]. intros h Hh.
    cbn [PanelSystem.document PanelSystem.with_document].
    apply zIndex_bounded_update; [|exact Hh]. intros el Hel. exact Hel.
  - unfold PanelSystem.togglePanel, PanelSystem.setDisplay.
    destruct (JsMap.get _ _); [|exact Hb].
    match goal with |- forall kv, kv ∈ PanelSystem.panels ?s' -> _ =>
      apply (Hsame s') end; [auto|]. intros h Hh.
    cbn [PanelSystem.document PanelSystem.with_document].
    apply zIndex_bounded_update; [|exact Hh]. intros el Hel. exact Hel.
Qed.

(** In every store the calls build from the empty one, on any page, the
    highest z-index is not above the greatest. *)
Lemma run_zIndex_bounded calls d :
  PanelSystem.getHighestZIndex (PanelSystem.run calls (PanelSystem.new d))
  <= Element.zIndexMax.
Proof.
  assert (Hrun : forall s,
            PanelSystem.wf s ->
            (forall kv, kv ∈ PanelSystem.panels s ->
               zIndexOf (Dom.get (PanelSystem.element (snd kv))
                           (PanelSystem.document s)) <= Element.zIndexMax) ->
            forall kv, kv ∈ PanelSystem.panels (PanelSystem.run calls s) ->
              zIndexOf (Dom.get (PanelSystem.element (snd kv))
                          (PanelSystem.document (PanelSystem.run calls s)))
              <= Element.zIndexMax).
  { induction calls as [|c calls IH]; intros s Hwf Hb; simpl; [exact Hb|].
    apply IH; [apply wf_call, Hwf|apply call_zIndex_bounded; assumption]. }
  specialize (Hrun (PanelSystem.new d) (wf_new d)).
  destruct (proj2 (proj2 (getHighestZIndex_spec
                            (PanelSystem.run calls (PanelSystem.new d)))))
    as [-> | (k & panel & Hin & ->)]; [discriminate|].
  apply (Hrun ltac:(intros kv Hkv; apply elem_of_nil in Hkv; contradiction)
           (k, panel) Hin).
Qed.

Lemma trajectory_idle es : forall s,
  PanelSystem.draggingPanel s = None -> PanelSystem.trajectory es s = s.
Proof.
  induction es as [|e es IH]; intros s Hidle; [reflexivity|].
  unfold PanelSystem.trajectory in *. simpl.
  assert (Hstep : PanelSystem.onMouseMove e s = s)
    by (unfold PanelSystem.onMouseMove, PanelSystem.drag; rewrite Hidle; reflexivity).
  rewrite Hstep. apply IH, Hidle.
Qed.

Lemma mouseup_idle listeners : forall s,
  PanelSystem.draggingPanel s = None -> mouseup listeners s = (s, O).
Proof.
  induction listeners as [|n IH]; intros s Hidle; [reflexivity|].
  simpl. unfold PanelSystem.stopDrag. rewrite Hidle, (IH s Hidle). reflexivity.
Qed.

(** X4.  A release of the button while a panel is dragged ends the drag:
    however many [mouseup] listeners have accumulated, [onStateChange] is
    called exactly once, the panels keep their place, size and tracking,
    and afterwards no pointer movement and no further release has any
    effect. *)
Theorem mouseup_ends_drag_once (listeners : nat) (s : PanelSystem.t) (panel : nat) :
  PanelSystem.draggingPanel s = Some panel ->
  let s' := fst (mouseup (S listeners) s) in
  snd (mouseup (S listeners) s) = 1%nat
  /\ PanelSystem.draggingPanel s' = None
  /\ PanelSystem.panels s' = PanelSystem.panels s
  /\ (forall h,
        PanelSystem.geometry (Dom.get h (PanelSystem.document s'))
        = PanelSystem.geometry (Dom.get h (PanelSystem.document s)))
  /\ (forall es, PanelSystem.trajectory es s' = s')
  /\ (forall n, mouseup n s' = (s', O)).
Proof.
  intros Hdrag. cbv zeta.
  assert (Hup : mouseup (S listeners) s
                = (PanelSystem.mk (PanelSystem.panels s) None (PanelSystem.dragOffset s)
                     (Dom.update (Element.set_dragging false) panel
                        (PanelSystem.document s)), 1%nat)).
  { simpl. unfold PanelSystem.stopDrag. rewrite Hdrag.
    rewrite mouseup_idle by reflexivity. reflexivity. }
  rewrite Hup. simpl fst. simpl snd.
  split; [reflexivity|]. split; [reflexivity|]. split; [reflexivity|]. split.
  - intros h. simpl PanelSystem.document.
    destruct (Dom_get_update_cases (Element.set_dragging false) h panel
                (PanelSystem.document s)) as [-> | ->]; reflexivity.
  - split; [intros es; apply trajectory_idle; reflexivity|].
    intros n. apply mouseup_idle. reflexivity.
Qed.

Lemma mouseup_ends_drag_once_witness :
  snd (mouseup 3 draggedList) = 1%nat
  /\ PanelSystem.draggingPanel (fst (mouseup 3 draggedList)) = None.
Proof.
  pose proof (mouseup_ends_drag_once 2 draggedList 0%nat eq_refl) as H.
  cbv zeta in H. destruct H as (H1 & H2 & _). exact (conj H1 H2).
Defined.

Lemma drag_twice e s :
  PanelSystem.onMouseMove e (PanelSystem.onMouseMove e s) = PanelSystem.onMouseMove e s.
Proof.
  unfold PanelSystem.onMouseMove at 2 3. unfold PanelSystem.drag.
  destruct (PanelSystem.draggingPanel s) as [panel|] eqn:Hdrag.
  2: { simpl. unfold PanelSystem.onMouseMove, PanelSystem.drag. rewrite Hdrag.
       reflexivity. }
  destruct (Element.parentElement (Dom.get panel (PanelSystem.document s)))
    as [container|] eqn:Hp.
  2: { simpl. unfold PanelSystem.onMouseMove, PanelSystem.drag.
       rewrite Hdrag, Hp. reflexivity. }
  assert (Hlt : (panel < length (Dom.elements (PanelSystem.document s)))%nat).
  { destruct (decide (panel < length (Dom.elements (PanelSystem.document s)))%nat)
      as [H|H]; [exact H|].
    unfold Dom.get in Hp. rewrite lookup_ge_None_2 in Hp by lia. discriminate. }
  simpl default.
  unfold PanelSystem.onMouseMove, PanelSystem.drag.
  cbn [PanelSystem.draggingPanel PanelSystem.document PanelSystem.with_document
       PanelSystem.dragOffset PanelSystem.panels].
  rewrite Hdrag. rewrite Dom_get_update_eq by exact Hlt.
  cbn [Element.parentElement Element.set_top Element.set_left]. rewrite Hp.
  simpl default. unfold PanelSystem.with_document.
  cbn [PanelSystem.draggingPanel PanelSystem.document PanelSystem.dragOffset
       PanelSystem.panels].
  f_equal. unfold Dom.update. cbn [Dom.elements Dom.containers].
  f_equal. rewrite list_alter_alter_eq. apply list_alter_ext; [|reflexivity].
  intros el _. reflexivity.
Qed.

(** X5.  Moving the pointer is idempotent per event: with any positive
    number of accumulated [mousemove] listeners the store ends up exactly
    as after a single call of [drag] for that event. *)
Theorem mousemove_listeners_agree (listeners : nat) (e : MouseEvent)
    (s : PanelSystem.t) :
  mousemove (S listeners) e s = PanelSystem.onMouseMove e s.
Proof.
  revert s. induction listeners as [|n IH]; intros s; [reflexivity|].
  change (mousemove (S (S n)) e s)
    with (mousemove (S n) e (PanelSystem.onMouseMove e s)).
  rewrite IH. apply drag_twice.
Qed.

(** ** Following the pointer *)

(** The store right after a press on an allocated panel. *)
Lemma startDrag_element e s panel :
  (panel < length (Dom.elements (PanelSystem.document s)))%nat ->
  let s' := PanelSystem.startDrag e panel s in
  exists top,
    Dom.get panel (PanelSystem.document s')
    = Element.set_zIndex top
        (Element.set_dragging true (Dom.get panel (PanelSystem.document s)))
    /\ (forall h, h <> panel ->
          Dom.get h (PanelSystem.document s') = Dom.get h (PanelSystem.document s))
    /\ PanelSystem.dragOffset s'
       = (clientX e
          - Dom.rect_left panel
              (Dom.update (Element.set_dragging true) panel (PanelSystem.document s)),
          clientY e
          - Dom.rect_top panel
              (Dom.update (Element.set_dragging true) panel (PanelSystem.document s))).
Proof.
  intros Hlt. cbv zeta. unfold PanelSystem.startDrag.
  cbn [PanelSystem.document PanelSystem.with_document PanelSystem.dragOffset].
  eexists. split; [|split; [|reflexivity]].
  - rewrite Dom_get_update_eq by (rewrite Dom_length_update; exact Hlt).
    rewrite Dom_get_update_eq by exact Hlt. reflexivity.
  - intros h Hne. rewrite !Dom_get_update_ne by congruence. reflexivity.
Qed.

(** X6.  A rendered tracked panel that is picked up and moved follows the
    pointer: after a press at [down] and a move to [e] its position is
    the position it had plus the displacement of the pointer, clamped on
    each axis by [dragClamp]; so inside the admissible range the grabbed
    point stays under the pointer. *)
Theorem drag_follows_pointer (down e : MouseEvent) (panelId : string)
    (tracked : PanelSystem.Entry) (container : nat) (s : PanelSystem.t) :
  PanelSystem.wf s ->
  JsMap.get panelId (PanelSystem.panels s) = Some tracked ->
  let panel := PanelSystem.element tracked in
  let el := Dom.get panel (PanelSystem.document s) in
  Element.parentElement el = Some container ->
  Element.rendered el = true ->
  let box := Dom.containers (PanelSystem.document s) container in
  let el' := Dom.get panel
               (PanelSystem.document
                  (PanelSystem.onMouseMove e (PanelSystem.startDrag down panel s))) in
  let x := Element.left el + (clientX e - clientX down) in
  let y := Element.top el + (clientY e - clientY down) in
  Element.left el' = PanelSystem.dragClamp x (Box.width box) (Element.width el)
  /\ Element.top el' = PanelSystem.dragClamp y (Box.height box) (Element.height el)
  /\ (0 <= x <= Box.width box - Element.width el -> Element.left el' = x)
  /\ (0 <= y <= Box.height box - Element.height el -> Element.top el' = y).
Proof.
  intros Hwf Hget panel el Hp Hr box el' x y.
  destruct (wf_tracked s panelId tracked Hwf Hget) as [_ Hlt]. fold panel in Hlt.
  destruct (startDrag_activeDrag down s panel container Hlt Hp) as [Ha Hc].
  destruct (startDrag_element down s panel Hlt) as (top & Hel1 & _ & Hoff).
  cbv zeta in Hel1, Hoff.
  destruct Ha as (Hd & Hlt1 & Hp1).
  destruct (drag_step e _ panel container Hd Hlt1 Hp1)
    as (s2 & Hs2 & _ & _ & _ & _ & _ & _ & Hel2).
  cbv zeta in Hel2. rewrite Hc, Hel1, Hoff in Hel2.
  assert (Hrl : Dom.rect_left panel
                  (Dom.update (Element.set_dragging true) panel (PanelSystem.document s))
                = Box.left box + Element.left el).
  { unfold Dom.rect_left. rewrite Dom_get_update_eq by exact Hlt.
    cbn [Element.parentElement Element.set_dragging]. fold el. rewrite Hp.
    change (Element.rendered (Element.set_dragging true el))
      with (Element.rendered el).
    rewrite Hr. reflexivity. }
  assert (Hrt : Dom.rect_top panel
                  (Dom.update (Element.set_dragging true) panel (PanelSystem.document s))
                = Box.top box + Element.top el).
  { unfold Dom.rect_top. rewrite Dom_get_update_eq by exact Hlt.
    cbn [Element.parentElement Element.set_dragging]. fold el. rewrite Hp.
    change (Element.rendered (Element.set_dragging true el))
      with (Element.rendered el).
    rewrite Hr. reflexivity. }
  rewrite Hrl, Hrt in Hel2. fold el box in Hel2.
  assert (Hel' : el'
    = Element.set_top
        (PanelSystem.dragClamp y (Box.height box) (Element.height el))
        (Element.set_left
           (PanelSystem.dragClamp x (Box.width box) (Element.width el))
           (Element.set_zIndex top (Element.set_dragging true el)))).
  { unfold el', PanelSystem.onMouseMove. rewrite Hs2. simpl default. rewrite Hel2.
    cbn [fst snd].
    change (Element.offsetWidth (Element.set_zIndex top (Element.set_dragging true el)))
      with (Element.offsetWidth el).
    change (Element.offsetHeight (Element.set_zIndex top (Element.set_dragging true el)))
      with (Element.offsetHeight el).
    unfold Element.offsetWidth, Element.offsetHeight. rewrite Hr.
    replace (clientX e - Box.left box - (clientX down - (Box.left box + Element.left el)))
      with x by (unfold x; lia).
    replace (clientY e - Box.top box - (clientY down - (Box.top box + Element.top el)))
      with y by (unfold y; lia).
    reflexivity. }
  rewrite Hel'. cbn [Element.left Element.top Element.set_top Element.set_left].
  split; [reflexivity|]. split; [reflexivity|].
  unfold PanelSystem.dragClamp, Math_max, Math_min. split; intros; lia.
Qed.

Lemma drag_follows_pointer_witness :
  let el' := Dom.get 0
               (PanelSystem.document
                  (PanelSystem.onMouseMove {| clientX := 400; clientY := 100 |}
                     (PanelSystem.startDrag {| clientX := 300; clientY := 60 |} 0
                        storeWithEditor))) in
  Element.left el' = 0 + (400 - 300) /\ Element.top el' = 0.
Proof.
  pose proof (drag_follows_pointer {| clientX := 300; clientY := 60 |}
                {| clientX := 400; clientY := 100 |} "editor"
                {| PanelSystem.element := 0; PanelSystem.config := editorPanel |}
                0%nat storeWithEditor
                (wf_createPanel _ _ _ (wf_new page)) eq_refl eq_refl eq_refl) as H.
  cbv zeta in H. destruct H as (_ & Ht & Hx & _).
  split; [apply Hx; vm_compute; split; discriminate | exact Ht].
Defined.

(** X7.  A pointer trajectory of an active drag changes the [left] and
    [top] of the dragged element and nothing else: the tracked panels,
    the drag state, the size of the heap and every other element stay as
    they are, and the dragged element keeps its size, visibility,
    z-index and parent. *)
Theorem trajectory_moves_only_dragged_panel (es : list MouseEvent) :
  forall (s : PanelSystem.t) (panel container : nat),
  activeDrag s panel container ->
  let s' := PanelSystem.trajectory es s in
  PanelSystem.panels s' = PanelSystem.panels s
  /\ PanelSystem.draggingPanel s' = PanelSystem.draggingPanel s
  /\ PanelSystem.dragOffset s' = PanelSystem.dragOffset s
  /\ length (Dom.elements (PanelSystem.document s'))
     = length (Dom.elements (PanelSystem.document s))
  /\ (forall h, h <> panel ->
        Dom.get h (PanelSystem.document s') = Dom.get h (PanelSystem.document s))
  /\ let el := Dom.get panel (PanelSystem.document s) in
     let el' := Dom.get panel (PanelSystem.document s') in
     el' = Element.set_top (Element.top el') (Element.set_left (Element.left el') el).
Proof.
  induction es as [|e es IH]; intros s panel container Ha.
  - cbv zeta. simpl. repeat split; try reflexivity.
    destruct (Dom.get panel (PanelSystem.document s)); reflexivity.
  - pose proof Ha as (Hd & Hlt & Hp).
    destruct (drag_step e s panel container Hd Hlt Hp)
      as (s1 & Hs1 & Hd1 & Ho1 & Hp1 & Hc1 & Hl1 & Hother1 & Hel1).
    destruct (activeDrag_drag e s panel container Ha) as (s1' & Hs1' & Ha1 & _).
    rewrite Hs1 in Hs1'. injection Hs1' as <-.
    specialize (IH s1 panel container Ha1). cbv zeta in IH.
    destruct IH as (IHp & IHd & IHo & IHl & IHother & IHel).
    assert (Hstep : PanelSystem.trajectory (e :: es) s = PanelSystem.trajectory es s1).
    { unfold PanelSystem.trajectory; simpl.
      unfold PanelSystem.onMouseMove at 2. rewrite Hs1. reflexivity. }
    cbv zeta. rewrite Hstep.
    split; [congruence|]. split; [congruence|]. split; [congruence|].
    split; [congruence|]. split.
    + intros h Hne. rewrite IHother by exact Hne. apply Hother1, Hne.
    + rewrite IHel at 1. cbv zeta in Hel1. rewrite Hel1. reflexivity.
Qed.

Lemma trajectory_moves_only_dragged_panel_witness :
  PanelSystem.panels (PanelSystem.trajectory [moveTo_700_400] draggedList)
  = PanelSystem.panels draggedList.
Proof.
  assert (Ha : activeDrag draggedList 0 0).
  { unfold activeDrag. split; [reflexivity|]. split; [vm_compute; lia|reflexivity]. }
  exact (proj1 (trajectory_moves_only_dragged_panel [moveTo_700_400]
                  draggedList 0%nat 0%nat Ha)).
Defined.

(** ** A drag whose panel goes away *)

Lemma onMouseMove_detached e s panel :
  PanelSystem.draggingPanel s = Some panel ->
  Element.parentElement (Dom.get panel (PanelSystem.document s)) = None ->
  PanelSystem.drag e s = None /\ PanelSystem.onMouseMove e s = s.
Proof.
  intros Hd Hp. unfold PanelSystem.onMouseMove, PanelSystem.drag.
  rewrite Hd, Hp. split; reflexivity.
Qed.

Lemma trajectory_detached es s panel :
  PanelSystem.draggingPanel s = Some panel ->
  Element.parentElement (Dom.get panel (PanelSystem.document s)) = None ->
  PanelSystem.trajectory es s = s.
Proof.
  intros Hd Hp. induction es as [|e es IH]; [reflexivity|].
  unfold PanelSystem.trajectory in *. simpl.
  rewrite (proj2 (onMouseMove_detached e s panel Hd Hp)). exact IH.
Qed.

(** X8.  Neither [removePanel] nor [clearAllPanels] ends a drag.  When
    the panel being dragged is removed or the store is cleared,
    [draggingPanel] keeps referring to the detached element: every later
    call of [drag] raises (the element has no parent) and leaves the
    store as it is, and the next release still calls [onStateChange]. *)
Theorem drag_survives_removal (panelId : string) (tracked : PanelSystem.Entry)
    (container other : nat) (s : PanelSystem.t) :
  PanelSystem.wf s ->
  JsMap.get panelId (PanelSystem.panels s) = Some tracked ->
  activeDrag s (PanelSystem.element tracked) container ->
  forall s',
    s' = PanelSystem.removePanel panelId s
    \/ s' = PanelSystem.clearAllPanels other s ->
    PanelSystem.draggingPanel s' = Some (PanelSystem.element tracked)
    /\ (forall e, PanelSystem.drag e s' = None)
    /\ (forall es, PanelSystem.trajectory es s' = s')
    /\ snd (PanelSystem.stopDrag s') = true.
Proof.
  intros Hwf Hget (Hd & Hlt & Hp) s' Hs'.
  assert (H : PanelSystem.draggingPanel s' = Some (PanelSystem.element tracked)
              /\ Element.parentElement
                   (Dom.get (PanelSystem.element tracked) (PanelSystem.document s'))
                 = None).
  { destruct Hs' as [-> | ->].
    - unfold PanelSystem.removePanel. rewrite Hget. simpl.
      split; [exact Hd|]. rewrite Dom_get_update_eq by exact Hlt. reflexivity.
    - split; [exact Hd|]. simpl. apply clear_fold_detached. left.
      apply JsMap_get_elem_of in Hget.
      apply (list_elem_of_fmap_2 (fun kv => PanelSystem.element (snd kv))) in Hget.
      exact Hget. }
  destruct H as [Hd' Hp']. split; [exact Hd'|]. split; [|split].
  - intros e. exact (proj1 (onMouseMove_detached e s' _ Hd' Hp')).
  - intros es. exact (trajectory_detached es s' _ Hd' Hp').
  - unfold PanelSystem.stopDrag. rewrite Hd'. reflexivity.
Qed.

Lemma drag_survives_removal_witness :
  PanelSystem.drag moveTo_700_400 (PanelSystem.removePanel "character-list" draggedList)
  = None
  /\ PanelSystem.drag moveTo_700_400 (PanelSystem.clearAllPanels 3 draggedList) = None.
Proof.
  assert (Hwf : PanelSystem.wf draggedList).
  { apply (wf_call _ (PanelSystem.StartDrag {| clientX := 300; clientY := 60 |} 0)).
    apply wf_createPanel, wf_new. }
  assert (Ha : activeDrag draggedList 0 0).
  { unfold activeDrag. split; [reflexivity|]. split; [vm_compute; lia|reflexivity]. }
  pose proof (drag_survives_removal "character-list"
                {| PanelSystem.element := 0; PanelSystem.config := Layouts.characterList |}
                0%nat 3%nat draggedList Hwf eq_refl Ha) as H.
  split.
  - exact (proj1 (proj2 (H _ (or_introl eq_refl))) moveTo_700_400).
  - exact (proj1 (proj2 (H _ (or_intror eq_refl))) moveTo_700_400).
Defined.

(** ** Showing and hiding *)

(** X9.  [togglePanel] on a tracked panel flips whether it is hidden and
    touches nothing but [display]; toggling twice leaves the panel hidden
    exactly if it was hidden before (a panel whose [display] was never
    set ends up with [display: block]); [showPanel] and [hidePanel] make
    it shown and hidden; on an id that is not tracked all three change
    nothing. *)
Theorem togglePanel_flips_hidden (panelId : string) (s : PanelSystem.t) :
  PanelSystem.wf s ->
  (JsMap.get panelId (PanelSystem.panels s) = None ->
   PanelSystem.togglePanel panelId s = s
   /\ PanelSystem.showPanel panelId s = s
   /\ PanelSystem.hidePanel panelId s = s)
  /\ (forall tracked,
        JsMap.get panelId (PanelSystem.panels s) = Some tracked ->
        let at_ (t : PanelSystem.t) :=
          Dom.get (PanelSystem.element tracked) (PanelSystem.document t) in
        let el := at_ s in
        let toggled := PanelSystem.togglePanel panelId s in
        at_ toggled
        = Element.set_display (if isHidden el then DisplayBlock else DisplayNone) el
        /\ isHidden (at_ toggled) = negb (isHidden el)
        /\ isHidden (at_ (PanelSystem.togglePanel panelId toggled)) = isHidden el
        /\ PanelSystem.geometry (at_ (PanelSystem.togglePanel panelId toggled))
           = PanelSystem.geometry el
        /\ isHidden (at_ (PanelSystem.showPanel panelId s)) = false
        /\ isHidden (at_ (PanelSystem.hidePanel panelId s)) = true
        /\ PanelSystem.panels toggled = PanelSystem.panels s).
Proof.
  intros Hwf. split.
  - intros Hnone.
    unfold PanelSystem.togglePanel, PanelSystem.showPanel, PanelSystem.hidePanel,
      PanelSystem.setDisplay. rewrite Hnone. auto.
  - intros tracked Hget at_ el toggled.
    destruct (wf_tracked s panelId tracked Hwf Hget) as [_ Hlt].
    assert (Hset : forall v t,
              JsMap.get panelId (PanelSystem.panels t) = Some tracked ->
              (PanelSystem.element tracked
               < length (Dom.elements (PanelSystem.document t)))%nat ->
              at_ (PanelSystem.setDisplay v panelId t)
              = Element.set_display v (at_ t)).
    { intros v t Ht Hl. unfold at_, PanelSystem.setDisplay. rewrite Ht. simpl.
      apply Dom_get_update_eq, Hl. }
    assert (Htog : at_ toggled
              = Element.set_display
                  (if isHidden el then DisplayBlock else DisplayNone) el).
    { unfold toggled, PanelSystem.togglePanel. rewrite Hget.
      rewrite (Hset _ s Hget Hlt). reflexivity. }
    assert (Hpanels : PanelSystem.panels toggled = PanelSystem.panels s).
    { unfold toggled, PanelSystem.togglePanel, PanelSystem.setDisplay.
      rewrite Hget. reflexivity. }
    assert (Hlt' : (PanelSystem.element tracked
                    < length (Dom.elements (PanelSystem.document toggled)))%nat).
    { unfold toggled, PanelSystem.togglePanel, PanelSystem.setDisplay.
      rewrite Hget. simpl. rewrite length_alter. exact Hlt. }
    assert (Htog2 : at_ (PanelSystem.togglePanel panelId toggled)
              = Element.set_display
                  (if isHidden (at_ toggled) then DisplayBlock else DisplayNone)
                  (at_ toggled)).
    { unfold PanelSystem.togglePanel at 1. rewrite Hpanels, Hget.
      rewrite (Hset _ toggled) by (rewrite ?Hpanels; assumption). reflexivity. }
    split; [exact Htog|]. split.
    { rewrite Htog. unfold isHidden. simpl.
      destruct (Element.display el); reflexivity. }
    split.
    { rewrite Htog2, Htog. unfold isHidden. simpl.
      destruct (Element.display el); reflexivity. }
    split.
    { rewrite Htog2, Htog. reflexivity. }
    split.
    { unfold PanelSystem.showPanel. rewrite (Hset _ s Hget Hlt). reflexivity. }
    split.
    { unfold PanelSystem.hidePanel. rewrite (Hset _ s Hget Hlt). reflexivity. }
    exact Hpanels.
Qed.

Lemma togglePanel_flips_hidden_witness :
  PanelSystem.togglePanel "missing" storeWithHiddenEditor = storeWithHiddenEditor
  /\ isHidden (Dom.get 0 (PanelSystem.document
                            (PanelSystem.togglePanel "character-editor"
                               storeWithHiddenEditor)))
     = negb (isHidden (Dom.get 0 (PanelSystem.document storeWithHiddenEditor))).
Proof.
  pose proof (togglePanel_flips_hidden "missing" storeWithHiddenEditor
                (wf_createPanel _ _ _ (wf_new page))) as H1.
  pose proof (togglePanel_flips_hidden "character-editor" storeWithHiddenEditor
                (wf_createPanel _ _ _ (wf_new page))) as H2.
  split.
  - exact (proj1 (proj1 H1 eq_refl)).
  - exact (proj1 (proj2 (proj2 H2
             {| PanelSystem.element := 0; PanelSystem.config := Layouts.characterEditor |}
             eq_refl))).
Defined.

(** ** Restoring twice *)

Lemma Dom_ext d1 d2 :
  length (Dom.elements d1) = length (Dom.elements d2) ->
  Dom.containers d1 = Dom.containers d2 ->
  Dom.intrinsic d1 = Dom.intrinsic d2 ->
  (forall h, Dom.get h d1 = Dom.get h d2) -> d1 = d2.
Proof.
  destruct d1 as [els1 cs1 in1], d2 as [els2 cs2 in2]; simpl.
  intros Hlen -> -> Hget.
  f_equal. apply list_eq. intros i. specialize (Hget i).
  unfold Dom.get in Hget; simpl in Hget.
  destruct (decide (i < length els1)%nat) as [Hlt|Hge].
  - destruct (lookup_lt_is_Some_2 els1 i Hlt) as [x Hx].
    destruct (lookup_lt_is_Some_2 els2 i ltac:(lia)) as [y Hy].
    rewrite Hx, Hy in *. simpl in Hget. congruence.
  - rewrite !lookup_ge_None_2 by lia. reflexivity.
Qed.

Lemma restore_fold_containers ps state : forall d,
  Dom.containers (fold_left (PanelSystem.restoreOne ps) state d) = Dom.containers d.
Proof.
  induction state as [|x state IH]; intros d; simpl; [reflexivity|].
  rewrite IH. unfold PanelSystem.restoreOne.
  destruct (JsMap.get (PanelConfig.id x) ps); reflexivity.
Qed.

Lemma restore_fold_intrinsic ps state : forall d,
  Dom.intrinsic (fold_left (PanelSystem.restoreOne ps) state d) = Dom.intrinsic d.
Proof.
  induction state as [|x state IH]; intros d; simpl; [reflexivity|].
  rewrite IH. unfold PanelSystem.restoreOne.
  destruct (JsMap.get (PanelConfig.id x) ps); reflexivity.
Qed.

Lemma handle_tracked s h :
  PanelSystem.wf s -> h ∈ PanelSystem.handles s ->
  exists k panel,
    JsMap.get k (PanelSystem.panels s) = Some panel /\ PanelSystem.element panel = h.
Proof.
  intros Hwf Hin. unfold PanelSystem.handles in Hin.
  apply list_elem_of_fmap in Hin as ([k panel] & -> & Hin).
  exists k, panel. split; [|reflexivity].
  apply JsMap_elem_of_get; [apply Hwf|exact Hin].
Qed.

(** X10.  [restorePanelState] is idempotent: restoring the same state a
    second time changes nothing any more. *)
Theorem restorePanelState_idempotent (state : list PanelConfig.t)
    (container : nat) (s : PanelSystem.t) :
  PanelSystem.wf s ->
  PanelSystem.restorePanelState state container
    (PanelSystem.restorePanelState state container s)
  = PanelSystem.restorePanelState state container s.
Proof.
  intros Hwf.
  set (s1 := PanelSystem.restorePanelState state container s).
  assert (Hwf1 : PanelSystem.wf s1)
    by exact (wf_call s (PanelSystem.RestorePanelState state container) Hwf).
  assert (Hdoc : fold_left (PanelSystem.restoreOne (PanelSystem.panels s1)) state
                   (PanelSystem.document s1)
                 = PanelSystem.document s1).
  { apply Dom_ext.
    - apply restore_fold_length.
    - apply restore_fold_containers.
    - apply restore_fold_intrinsic.
    - intros h. destruct (decide (h ∈ PanelSystem.handles s1)) as [Hin|Hout].
      + destruct (handle_tracked s1 h Hwf1 Hin) as (k & panel & Hget & <-).
        rewrite (restore_fold_get s1 k panel Hwf1 Hget state).
        assert (Hget0 : JsMap.get k (PanelSystem.panels s) = Some panel)
          by exact Hget.
        assert (Hd1 : Dom.get (PanelSystem.element panel) (PanelSystem.document s1)
                      = restored k state
                          (Dom.get (PanelSystem.element panel)
                             (PanelSystem.document s))).
        { unfold s1, PanelSystem.restorePanelState.
          cbn [PanelSystem.document PanelSystem.with_document].
          exact (restore_fold_get s k panel Hwf Hget0 state). }
        rewrite Hd1. apply restored_twice.
      + apply restore_fold_other. exact Hout. }
  unfold PanelSystem.restorePanelState at 1. rewrite Hdoc.
  unfold s1, PanelSystem.restorePanelState, PanelSystem.with_document. reflexivity.
Qed.

Lemma restorePanelState_idempotent_witness :
  PanelSystem.restorePanelState [plotBoard; editorPanelMoved] 0
    (PanelSystem.restorePanelState [plotBoard; editorPanelMoved] 0 storeWithEditor)
  = PanelSystem.restorePanelState [plotBoard; editorPanelMoved] 0 storeWithEditor.
Proof.
  exact (restorePanelState_idempotent [plotBoard; editorPanelMoved] 0 storeWithEditor
           (wf_createPanel _ _ _ (wf_new page))).
Defined.

(** ** Instantiating a list of configurations *)

Lemma panelState_fresh panelConfig container d :
  validSize panelConfig ->
  PanelSystem.panelState
    (Dom.append (PanelSystem.panelElement panelConfig container d) d)
    {| PanelSystem.element := Dom.fresh d; PanelSystem.config := panelConfig |}
  = snapshotOfFresh panelConfig.
Proof.
  intros Hv. unfold PanelSystem.panelState.
  cbn [PanelSystem.element PanelSystem.config].
  rewrite Dom_get_append_new, (panelElement_valid _ _ _ Hv).
  unfold snapshotOfFresh, Element.offsetWidth, Element.offsetHeight,
    Element.rendered; simpl.
  destruct (PanelConfig.hidden panelConfig); reflexivity.
Qed.

Lemma getPanelState_createPanel_fresh panelConfig container s :
  PanelSystem.wf s ->
  PanelConfig.id panelConfig ∉ JsMap.keys (PanelSystem.panels s) ->
  validSize panelConfig ->
  PanelSystem.getPanelState (PanelSystem.createPanel panelConfig container s)
  = PanelSystem.getPanelState s ++ [snapshotOfFresh panelConfig].
Proof.
  intros Hwf Hfresh Hv. unfold PanelSystem.getPanelState, PanelSystem.createPanel.
  cbn [PanelSystem.panels PanelSystem.document].
  rewrite JsMap_set_absent by exact Hfresh. rewrite map_app. simpl.
  rewrite (panelState_fresh _ _ _ Hv). f_equal.
  apply map_ext_Forall. destruct Hwf as (_ & _ & Hall).
  eapply Forall_impl; [exact Hall|]. intros kv [_ Hlt].
  unfold PanelSystem.panelState. rewrite Dom_get_append_old by exact Hlt.
  reflexivity.
Qed.

(** Creating panels from a list of configurations whose ids are distinct
    and not yet tracked. *)
Lemma createPanel_many (container : nat) (configs : list PanelConfig.t) :
  forall s,
  PanelSystem.wf s ->
  NoDup (map PanelConfig.id configs) ->
  (forall panelConfig, panelConfig ∈ configs ->
     PanelConfig.id panelConfig ∉ JsMap.keys (PanelSystem.panels s)) ->
  let s' := fold_left (fun ps panelConfig =>
                         PanelSystem.createPanel panelConfig container ps)
              configs s in
  PanelSystem.wf s'
  /\ JsMap.keys (PanelSystem.panels s')
     = JsMap.keys (PanelSystem.panels s) ++ map PanelConfig.id configs
  /\ (Forall validSize configs ->
      PanelSystem.getPanelState s'
      = PanelSystem.getPanelState s ++ map snapshotOfFresh configs)
  /\ (forall k, k ∈ JsMap.keys (PanelSystem.panels s) ->
        PanelSystem.elementOf k s' = PanelSystem.elementOf k s)
  /\ (forall panelConfig, panelConfig ∈ configs ->
        PanelSystem.elementOf (PanelConfig.id panelConfig) s'
        = Some (PanelSystem.panelElement panelConfig container
                  (PanelSystem.document s))).
Proof.
  induction configs as [|c configs IH]; intros s Hwf Hnd Hfresh.
  - cbv zeta. simpl. rewrite !app_nil_r. split; [exact Hwf|].
    split; [reflexivity|]. split; [reflexivity|]. split; [reflexivity|].
    intros ? Hin. apply elem_of_nil in Hin. contradiction.
  - simpl in Hnd. apply NoDup_cons in Hnd as [Hc Hnd].
    assert (Hcfresh : PanelConfig.id c ∉ JsMap.keys (PanelSystem.panels s))
      by (apply Hfresh, list_elem_of_here).
    set (s1 := PanelSystem.createPanel c container s).
    assert (Hkeys1 : JsMap.keys (PanelSystem.panels s1)
                     = JsMap.keys (PanelSystem.panels s) ++ [PanelConfig.id c])
      by (apply JsMap_keys_set_absent, Hcfresh).
    assert (Hwf1 : PanelSystem.wf s1) by (apply wf_createPanel, Hwf).
    specialize (IH s1 Hwf1 Hnd).
    assert (Hfresh1 : forall panelConfig, panelConfig ∈ configs ->
              PanelConfig.id panelConfig ∉ JsMap.keys (PanelSystem.panels s1)).
    { intros pc Hin. rewrite Hkeys1. apply not_elem_of_app. split.
      - apply Hfresh, list_elem_of_further, Hin.
      - intros Heq. apply list_elem_of_singleton in Heq. apply Hc. rewrite <- Heq.
        apply (list_elem_of_fmap_2 PanelConfig.id), Hin. }
    specialize (IH Hfresh1). cbv zeta in IH.
    destruct IH as (IHwf & IHkeys & IHstate & IHold & IHnew).
    cbv zeta. simpl fold_left. fold s1.
    split; [exact IHwf|]. split.
    { rewrite IHkeys, Hkeys1, <- app_assoc. reflexivity. }
    split.
    { intros Hv. apply Forall_cons in Hv as [Hvc Hv].
      rewrite (IHstate Hv). unfold s1.
      rewrite getPanelState_createPanel_fresh by assumption.
      rewrite <- app_assoc. reflexivity. }
    split.
    { intros k Hk. rewrite IHold by (rewrite Hkeys1; apply elem_of_app; left; exact Hk).
      apply createPanel_elementOf_other; [exact Hwf|].
      intros ->. contradiction. }
    intros pc Hin. apply elem_of_cons in Hin as [->|Hin]; [|apply IHnew, Hin].
    rewrite IHold by (rewrite Hkeys1; apply elem_of_app; right; apply list_elem_of_here).
    apply createPanel_elementOf_new.
Qed.

(** * Further properties of the application coordinator *)

(** ** The three ways of entering a section *)

Lemma snapshotOfFresh_visible panelConfig :
  PanelConfig.hidden panelConfig = false -> snapshotOfFresh panelConfig = panelConfig.
Proof.
  intros H. destruct panelConfig as [i t x y w h hid]. simpl in H. subst hid.
  reflexivity.
Qed.

Lemma map_snapshotOfFresh_visible configs :
  (forall panelConfig, panelConfig ∈ configs -> PanelConfig.hidden panelConfig = false) ->
  map snapshotOfFresh configs = configs.
Proof.
  induction configs as [|c configs IH]; intros H; simpl; [reflexivity|].
  rewrite snapshotOfFresh_visible by (apply H, list_elem_of_here).
  rewrite IH; [reflexivity|]. intros pc Hin. apply H, list_elem_of_further, Hin.
Qed.

(** What the tail of [loadSection] leaves in the store when it starts
    from a cleared one and the ids are distinct. *)
Lemma instantiate_cleared (sectionName : string) (configs : list PanelConfig.t)
    (container : nat) (a : App.t) :
  PanelSystem.wf (App.panelSystem a) ->
  PanelSystem.panels (App.panelSystem a) = [] ->
  NoDup (map PanelConfig.id configs) ->
  let store := App.panelSystem (App.finish sectionName configs container a) in
  PanelSystem.wf store
  /\ JsMap.keys (PanelSystem.panels store) = map PanelConfig.id configs
  /\ (Forall validSize configs ->
      PanelSystem.getPanelState store = map snapshotOfFresh configs)
  /\ (forall panelConfig, panelConfig ∈ configs ->
        PanelSystem.elementOf (PanelConfig.id panelConfig) store
        = Some (PanelSystem.panelElement panelConfig container
                  (PanelSystem.document (App.panelSystem a)))).
Proof.
  intros Hwf Hnil Hnd.
  destruct (createPanel_many container configs (App.panelSystem a) Hwf Hnd)
    as (H1 & H2 & H3 & _ & H5).
  { intros pc _. unfold JsMap.keys. rewrite Hnil. apply not_elem_of_nil. }
  cbv zeta. rewrite finish_panelSystem.
  unfold PanelSystem.getPanelState, JsMap.keys in H2, H3.
  rewrite Hnil in H2, H3. simpl in H2, H3. auto.
Qed.

(** Entering a section that has a non-empty saved layout. *)
Lemma loadSection_saved (layouts : Layouts.Registry) (section : string)
    (container : nat) (dialog : option (list nat)) (a : App.t)
    (saved : list PanelConfig.t) :
  App.sections a !! section = Some container ->
  App.savedLayouts a !! section = Some saved ->
  saved <> [] ->
  exists setup,
    App.loadSection layouts section dialog a
    = App.finish section saved container
        (App.with_setup (App.savedLayouts a) setup (App.sectionPanelSelections a)
           (App.with_panelSystem
              (PanelSystem.clearAllPanels container (App.panelSystem a)) a))
    /\ setup !! section = Some true
    /\ (forall other, other <> section -> setup !! other = App.setupSections a !! other).
Proof.
  intros Hsec Hsaved Hne. unfold App.loadSection. rewrite Hsec. cbn beta iota zeta.
  cbn [App.savedLayouts App.with_panelSystem]. rewrite Hsaved.
  destruct saved as [|c saved]; [congruence|].
  destruct (App.isSetup section _) eqn:Hset.
  - exists (App.setupSections a). split; [|split].
    + destruct a; reflexivity.
    + unfold App.isSetup in Hset.
      cbn [App.setupSections App.with_panelSystem] in Hset.
      destruct (App.setupSections a !! section) as [[|]|]; simpl in Hset;
        congruence.
    + reflexivity.
  - exists (<[section := true]> (App.setupSections a)). split; [reflexivity|].
    split; [apply lookup_insert_eq|].
    intros other Hother. apply lookup_insert_ne. congruence.
Qed.

(** X11.  Entering a section with a saved layout of distinct ids whose
    sizes are lengths creates exactly the saved panels, each from its
    saved entry, and sets the timer of the save.  Outside the character
    views, and with no other timer pending, nothing is saved before the
    50 ms are over; then the one save stores the fresh snapshot of the
    panels: every entry as it was saved, except that an entry carrying
    [hidden] comes back without it and with the size 0 x 0.  A saved
    layout without hidden entries, as every snapshot is, is therefore
    left unchanged by entering the section and waiting for the save. *)
Theorem reload_then_save_keeps_layout (layouts : Layouts.Registry)
    (section : string) (container : nat) (dialog : option (list nat))
    (a : App.t) (saved : list PanelConfig.t) :
  App.sections a !! section = Some container ->
  App.savedLayouts a !! section = Some saved ->
  saved <> [] ->
  NoDup (map PanelConfig.id saved) ->
  Forall validSize saved ->
  App.currentSection a = Some section ->
  section <> "" ->
  section <> "characters" \/ App.characterManager a = None ->
  App.timers a = [] ->
  let d := PanelSystem.document (App.panelSystem a) in
  let entered := App.loadSection layouts section dialog a in
  let a' := App.elapse 50 entered in
  JsMap.keys (PanelSystem.panels (App.panelSystem entered)) = map PanelConfig.id saved
  /\ (forall panelConfig, panelConfig ∈ saved ->
        PanelSystem.elementOf (PanelConfig.id panelConfig) (App.panelSystem entered)
        = Some (PanelSystem.panelElement panelConfig container d))
  /\ App.timers entered = [ {| App.delay := 50; App.task := App.SaveProjectState |} ]
  /\ (forall ms, ms < 50 ->
        App.savedLayouts (App.elapse ms entered) = App.savedLayouts a
        /\ App.saved (App.elapse ms entered) = App.saved a)
  /\ App.timers a' = []
  /\ length (App.saved a') = S (length (App.saved a))
  /\ App.panelSystem a' = App.panelSystem entered
  /\ App.savedLayouts a' = <[section := map snapshotOfFresh saved]> (App.savedLayouts a)
  /\ ((forall panelConfig, panelConfig ∈ saved ->
         PanelConfig.hidden panelConfig = false) ->
      App.savedLayouts a' = App.savedLayouts a).
Proof.
  intros Hsec Hsaved Hne Hnd Hvalid Hcur Hname Hviews Htimers d entered a'.
  destruct (loadSection_saved layouts section container dialog a saved Hsec Hsaved Hne)
    as (setup & Hentered & _ & _).
  set (cleared := App.with_setup (App.savedLayouts a) setup
                    (App.sectionPanelSelections a)
                    (App.with_panelSystem
                       (PanelSystem.clearAllPanels container (App.panelSystem a)) a))
    in Hentered.
  destruct (instantiate_cleared section saved container cleared
              (wf_clearAllPanels _ _) eq_refl Hnd)
    as (_ & Hkeys & Hstate & Hels).
  specialize (Hstate Hvalid).
  fold entered in Hentered. rewrite <- Hentered in Hkeys, Hstate, Hels.
  assert (Hd : forall panelConfig,
            PanelSystem.panelElement panelConfig container
              (PanelSystem.document (App.panelSystem cleared))
            = PanelSystem.panelElement panelConfig container d).
  { intros pc. apply panelElement_ext. apply intrinsic_clearAllPanels. }
  assert (Hpending : App.timers entered
                     = [ {| App.delay := 50; App.task := App.SaveProjectState |} ]).
  { destruct (finish_timers section saved container cleared)
      as (adjust & Ht & _ & Hnone).
    rewrite Hentered, Ht, (Hnone Hviews). unfold cleared; cbn [App.timers
      App.with_setup App.with_panelSystem]. rewrite Htimers.
    destruct saved; [congruence|reflexivity]. }
  assert (Hc : App.currentSection entered = Some section)
    by (rewrite Hentered, finish_currentSection; exact Hcur).
  assert (Hl : App.savedLayouts entered = App.savedLayouts a)
    by (rewrite Hentered, finish_savedLayouts; reflexivity).
  assert (Hs : App.saved entered = App.saved a)
    by (rewrite Hentered, finish_saved; reflexivity).
  assert (Ha' : a' = App.saveProjectState (App.with_timers [] entered)).
  { unfold a', App.elapse. rewrite Hpending. reflexivity. }
  assert (Hsave : App.savedLayouts a'
                  = <[section := map snapshotOfFresh saved]> (App.savedLayouts a)
                  /\ App.timers a' = []
                  /\ length (App.saved a') = S (length (App.saved a))
                  /\ App.panelSystem a' = App.panelSystem entered).
  { rewrite Ha'. unfold App.saveProjectState.
    cbn [App.currentSection App.with_timers App.panelSystem App.savedLayouts
         App.saved App.timers].
    rewrite Hc. destruct (String.eqb_spec section ""); [congruence|].
    rewrite Hstate, Hl, Hs.
    cbn [App.savedLayouts App.timers App.saved App.panelSystem].
    rewrite length_app. simpl.
    destruct saved as [|c saved]; [congruence|]. simpl map.
    repeat split; try reflexivity. lia. }
  destruct Hsave as (Hlay & Ht' & Hlen & Hps).
  split; [exact Hkeys|].
  split; [intros pc Hin; rewrite <- Hd; apply Hels, Hin|].
  split; [exact Hpending|]. split.
  { intros ms Hms. unfold App.elapse. rewrite Hpending.
    cbn [List.filter App.delay].
    destruct (Z.leb_spec 50 ms); [lia|]. cbn [App.byDelay fold_left].
    split; [exact Hl|exact Hs]. }
  split; [exact Ht'|]. split; [exact Hlen|]. split; [exact Hps|].
  split; [exact Hlay|].
  intros Hvis. rewrite Hlay, (map_snapshotOfFresh_visible saved Hvis).
  apply insert_id, Hsaved.
Qed.

Lemma reload_then_save_keeps_layout_witness :
  App.savedLayouts (App.elapse 50 (App.loadSection registryABCD "x" None appXSaved))
  = App.savedLayouts appXSaved.
Proof.
  assert (Hnd : NoDup (map PanelConfig.id [panelA; panelC])).
  { apply NoDup_cons. split; [|apply NoDup_singleton].
    intros H. apply list_elem_of_singleton in H. discriminate. }
  assert (Hvalid : Forall validSize [panelA; panelC])
    by (repeat constructor; discriminate).
  assert (Hsec : App.sections appXSaved !! "x" = Some 0%nat)
    by (vm_compute; reflexivity).
  assert (Hsaved : App.savedLayouts appXSaved !! "x" = Some [panelA; panelC])
    by (vm_compute; reflexivity).
  assert (Hcur : App.currentSection appXSaved = Some "x")
    by (vm_compute; reflexivity).
  assert (Htimers : App.timers appXSaved = []) by (vm_compute; reflexivity).
  assert (Hne : [panelA; panelC] <> []) by discriminate.
  assert (Hname : "x" <> "") by discriminate.
  assert (Hviews : "x" <> "characters" \/ App.characterManager appXSaved = None)
    by (left; discriminate).
  pose proof (reload_then_save_keeps_layout registryABCD "x" 0 None appXSaved
                [panelA; panelC] Hsec Hsaved Hne Hnd Hvalid Hcur Hname Hviews
                Htimers) as H.
  cbv zeta in H. destruct H as (_ & _ & _ & _ & _ & _ & _ & _ & H4).
  apply H4. intros pc Hin.
  apply elem_of_cons in Hin as [->|Hin]; [reflexivity|].
  apply list_elem_of_singleton in Hin. subst pc. reflexivity.
Defined.

(** In the character section the timer of the layout adjustment fires
    before the one of the save: on a page whose containers are 1000 wide
    the list of the template, 1200 wide, is saved 1000 wide. *)
Lemma characters_save_follows_adjustment :
  let entered :=
    App.loadSection Layouts.layouts "characters" (Some [])
      (App.with_currentSection (Some "characters") (freshApp page)) in
  App.timers entered
  = [ {| App.delay := 50; App.task := App.SaveProjectState |};
      {| App.delay := 0; App.task := App.AdjustLayout |} ]
  /\ PanelConfig.width
       <$> (App.savedLayouts entered !! "characters" ≫= head) = Some 1200
  /\ PanelConfig.width
       <$> (App.savedLayouts (App.elapse 50 entered) !! "characters" ≫= head)
     = Some 1000.
Proof. cbv zeta. repeat split; vm_compute; reflexivity. Qed.

(** * Further properties of the setup dialog *)

Lemma includes_In l s : includes l s = true <-> s ∈ l.
Proof.
  unfold includes. rewrite existsb_exists. split.
  - intros (x & Hin & Heq). apply String.eqb_eq in Heq. subst x.
    apply list_elem_of_In, Hin.
  - intros Hin. exists s. split; [apply list_elem_of_In, Hin|apply String.eqb_refl].
Qed.

Lemma includes_app l1 l2 s : includes (l1 ++ l2) s = includes l1 s || includes l2 s.
Proof. unfold includes. apply existsb_app. Qed.

Lemma includes_filter_ne l s t :
  includes (List.filter (fun id => negb (String.eqb id t)) l) s
  = includes l s && negb (String.eqb s t).
Proof.
  induction l as [|x l IH]; simpl; [reflexivity|].
  destruct (String.eqb_spec x t) as [->|Hx]; simpl.
  - rewrite IH. destruct (String.eqb_spec s t) as [->|Hs]; simpl.
    + rewrite andb_false_r. reflexivity.
    + rewrite andb_true_r. reflexivity.
  - rewrite IH. destruct (String.eqb_spec s x) as [->|Hsx]; simpl; [|reflexivity].
    destruct (String.eqb_spec x t); [congruence|reflexivity].
Qed.

Lemma opened_selectedPanels availablePanels :
  SetupDialog.selectedPanels (SetupDialog.opened availablePanels)
  = map PanelConfig.id availablePanels.
Proof.
  unfold SetupDialog.opened; simpl.
  assert (H : forall (l : list PanelConfig.t) (acc : list string),
            fold_left (fun sel panel => sel ++ [PanelConfig.id panel]) l acc
            = acc ++ map PanelConfig.id l).
  { induction l as [|p l IH]; intros acc; simpl; [rewrite app_nil_r; reflexivity|].
    rewrite IH, <- app_assoc. reflexivity. }
  apply (H availablePanels []).
Qed.

Lemma filter_all {A : Type} (f : A -> bool) (l : list A) :
  (forall x, x ∈ l -> f x = true) -> List.filter f l = l.
Proof.
  induction l as [|x l IH]; intros H; simpl; [reflexivity|].
  rewrite (H x) by apply list_elem_of_here.
  rewrite IH; [reflexivity|]. intros y Hy. apply H, list_elem_of_further, Hy.
Qed.

Lemma filter_ext_elem {A : Type} (f g : A -> bool) (l : list A) :
  (forall x, x ∈ l -> f x = g x) -> List.filter f l = List.filter g l.
Proof.
  intros H. apply filter_ext_in. intros x Hx. apply H, list_elem_of_In, Hx.
Qed.

(** X12.  The dialog offers every panel checked: confirmed without a
    click it returns the whole template.  One click on a box returns the
    template without every panel that carries the id of the clicked one,
    so that panels sharing an id are dropped together. *)
Theorem SetupDialog_defaults_and_one_click (availablePanels : list PanelConfig.t) :
  SetupDialog.show availablePanels [] = availablePanels
  /\ forall i clicked,
       availablePanels !! i = Some clicked ->
       SetupDialog.show availablePanels [i]
       = List.filter
           (fun panel =>
              negb (String.eqb (PanelConfig.id panel) (PanelConfig.id clicked)))
           availablePanels.
Proof.
  split.
  - unfold SetupDialog.show, SetupDialog.continue. simpl fold_left.
    rewrite opened_selectedPanels. apply filter_all.
    intros p Hp. apply includes_In, (list_elem_of_fmap_2 PanelConfig.id), Hp.
  - intros i clicked Hi. unfold SetupDialog.show, SetupDialog.continue.
    simpl fold_left. unfold SetupDialog.change.
    assert (Hc : SetupDialog.checked (SetupDialog.opened availablePanels) !! i
                 = Some true).
    { unfold SetupDialog.opened; simpl. rewrite list_lookup_fmap.
      change (SetupDialog.availablePanels
                (SetupDialog.opened availablePanels)) with availablePanels.
      rewrite Hi. reflexivity. }
    change (SetupDialog.availablePanels (SetupDialog.opened availablePanels))
      with availablePanels.
    rewrite Hi, Hc. cbn [negb SetupDialog.selectedPanels SetupDialog.availablePanels].
    rewrite opened_selectedPanels. apply filter_ext_elem. intros p Hp.
    rewrite includes_filter_ne.
    replace (includes (map PanelConfig.id availablePanels) (PanelConfig.id p))
      with true; [reflexivity|].
    symmetry. apply includes_In, (list_elem_of_fmap_2 PanelConfig.id), Hp.
Qed.

Lemma SetupDialog_defaults_and_one_click_witness :
  SetupDialog.show [panelA; panelB; panelA] [0%nat]
  = List.filter
      (fun panel => negb (String.eqb (PanelConfig.id panel) (PanelConfig.id panelA)))
      [panelA; panelB; panelA].
Proof.
  exact (proj2 (SetupDialog_defaults_and_one_click [panelA; panelB; panelA])
           0%nat panelA eq_refl).
Defined.

Lemma filter_by_index {A : Type} (f : A -> bool) (l : list A) : forall (g : nat -> bool),
  (forall i x, l !! i = Some x -> f x = g i) ->
  List.filter f l
  = omap (fun x => x) (imap (fun i x => if g i then Some x else None) l).
Proof.
  induction l as [|x l IH]; intros g H; [reflexivity|].
  rewrite imap_cons. simpl. rewrite (H 0%nat x eq_refl).
  rewrite (IH (fun i => g (S i))) by (intros i y Hy; apply (H (S i) y Hy)).
  destruct (g 0%nat); reflexivity.
Qed.

Lemma count_occ_snoc (clicks : list nat) (j i : nat) :
  count_occ Nat.eq_dec (clicks ++ [j]) i
  = (count_occ Nat.eq_dec clicks i + (if decide (j = i) then 1 else 0))%nat.
Proof.
  rewrite count_occ_app. simpl.
  destruct (Nat.eq_dec j i), (decide (j = i)); congruence.
Qed.

Lemma NoDup_ids_lookup (l : list PanelConfig.t) i j p q :
  NoDup (map PanelConfig.id l) ->
  l !! i = Some p -> l !! j = Some q -> PanelConfig.id p = PanelConfig.id q -> i = j.
Proof.
  intros Hnd Hi Hj Heq.
  apply (NoDup_lookup _ i j (PanelConfig.id p) Hnd); rewrite list_lookup_fmap.
  - rewrite Hi. reflexivity.
  - rewrite Hj. simpl. congruence.
Qed.

(** The dialog after any clicks on a template with distinct ids: a box
    is checked, and the id of its panel selected, exactly if the box has
    been clicked an even number of times. *)
Lemma dialog_state (availablePanels : list PanelConfig.t) :
  NoDup (map PanelConfig.id availablePanels) ->
  forall clicks,
    let d := fold_left SetupDialog.change clicks (SetupDialog.opened availablePanels) in
    SetupDialog.availablePanels d = availablePanels
    /\ (forall i panel, availablePanels !! i = Some panel ->
          SetupDialog.checked d !! i
          = Some (Nat.even (count_occ Nat.eq_dec clicks i)))
    /\ (forall i panel, availablePanels !! i = Some panel ->
          includes (SetupDialog.selectedPanels d) (PanelConfig.id panel)
          = Nat.even (count_occ Nat.eq_dec clicks i)).
Proof.
  intros Hnd clicks. induction clicks as [|j clicks IH] using rev_ind.
  - cbv zeta. simpl fold_left. split; [reflexivity|]. split.
    + intros i panel Hi. unfold SetupDialog.opened; simpl.
      rewrite list_lookup_fmap, Hi. reflexivity.
    + intros i panel Hi. rewrite opened_selectedPanels. simpl.
      apply includes_In, (list_elem_of_fmap_2 PanelConfig.id).
      apply list_elem_of_lookup. eauto.
  - cbv zeta in *. rewrite fold_left_app. simpl fold_left.
    set (d := fold_left SetupDialog.change clicks (SetupDialog.opened availablePanels))
      in *.
    destruct IH as (Hav & Hchk & Hsel).
    unfold SetupDialog.change. rewrite Hav.
    destruct (availablePanels !! j) as [pj|] eqn:Hj.
    2: { split; [exact Hav|]. split; intros i panel Hi; rewrite count_occ_snoc;
         (destruct (decide (j = i)) as [->|_]; [congruence|]);
         rewrite Nat.add_0_r; eauto. }
    rewrite (Hchk j pj Hj).
    cbn [SetupDialog.availablePanels SetupDialog.checked SetupDialog.selectedPanels].
    split; [reflexivity|]. split.
    + intros i panel Hi. rewrite count_occ_snoc.
      destruct (decide (j = i)) as [->|Hne].
      * rewrite list_lookup_insert_eq
          by (apply lookup_lt_is_Some; rewrite (Hchk i panel Hi); eauto).
        rewrite Nat.add_1_r, Nat.even_succ, <- Nat.negb_even. reflexivity.
      * rewrite list_lookup_insert_ne by exact Hne.
        rewrite Nat.add_0_r. apply (Hchk i panel Hi).
    + intros i panel Hi. rewrite count_occ_snoc.
      pose proof (Hsel j pj Hj) as Hselj.
      destruct (decide (j = i)) as [->|Hne].
      * assert (panel = pj) as -> by congruence.
        rewrite Nat.add_1_r, Nat.even_succ, <- Nat.negb_even.
        destruct (Nat.even (count_occ Nat.eq_dec clicks i)); cbn [negb].
        -- rewrite includes_filter_ne, String.eqb_refl. apply andb_false_r.
        -- rewrite Hselj. rewrite includes_app. simpl.
           rewrite String.eqb_refl. rewrite orb_true_r. reflexivity.
      * rewrite Nat.add_0_r.
        assert (Hid : PanelConfig.id panel <> PanelConfig.id pj).
        { intros Heq. apply Hne.
          exact (NoDup_ids_lookup _ j i pj panel Hnd Hj Hi (eq_sym Heq)). }
        destruct (Nat.even (count_occ Nat.eq_dec clicks j)); cbn [negb].
        -- rewrite includes_filter_ne.
           destruct (String.eqb_spec (PanelConfig.id panel) (PanelConfig.id pj));
             [congruence|].
           rewrite andb_true_r. apply (Hsel i panel Hi).
        -- rewrite Hselj. rewrite includes_app. simpl.
           destruct (String.eqb_spec (PanelConfig.id panel) (PanelConfig.id pj));
             [congruence|].
           rewrite !orb_false_r. apply (Hsel i panel Hi).
Qed.

(** X13.  For a template with distinct ids the dialog returns, whatever
    the user clicks and in whatever order, exactly the panels whose box
    has been clicked an even number of times, in template order; clicks
    that hit no box are ignored. *)
Theorem SetupDialog_returns_checked_panels (availablePanels : list PanelConfig.t)
    (clicks : list nat) :
  NoDup (map PanelConfig.id availablePanels) ->
  SetupDialog.show availablePanels clicks = keptByClicks clicks availablePanels.
Proof.
  intros Hnd.
  destruct (dialog_state availablePanels Hnd clicks) as (Hav & _ & Hsel).
  unfold SetupDialog.show, SetupDialog.continue, keptByClicks. rewrite Hav.
  apply (filter_by_index _ availablePanels
           (fun i => Nat.even (count_occ Nat.eq_dec clicks i))).
  exact Hsel.
Qed.

Lemma SetupDialog_returns_checked_panels_witness :
  SetupDialog.show [panelA; panelB; panelC] [1%nat; 7%nat; 2%nat; 1%nat; 0%nat]
  = keptByClicks [1%nat; 7%nat; 2%nat; 1%nat; 0%nat] [panelA; panelB; panelC].
Proof.
  apply (SetupDialog_returns_checked_panels [panelA; panelB; panelC]).
  repeat (apply NoDup_cons; split;
          [let H := fresh in intros H; repeat (apply elem_of_cons in H as [H|H];
             [discriminate|]); apply elem_of_nil in H; exact H|]).
  apply NoDup_nil. exact I.
Defined.

(** * Entering a section, in general *)

(** X14.  First visit of a section, for any template with distinct ids
    and any clicks in the dialog: the panels the dialog returns become
    the saved layout, their ids the recorded selection, the section is
    marked as set up, and exactly these panels are created, each from
    its template configuration. *)
Theorem loadSection_first_visit_records_selection (layouts : Layouts.Registry)
    (section : string) (container : nat) (clicks : list nat) (a : App.t)
    (layout : Layouts.Layout) :
  App.sections a !! section = Some container ->
  App.isSetup section a = false ->
  App.savedLayouts a !! section = None \/ App.savedLayouts a !! section = Some [] ->
  layouts !! section = Some layout ->
  NoDup (map PanelConfig.id (Layouts.panels layout)) ->
  let selected := SetupDialog.show (Layouts.panels layout) clicks in
  let a' := App.loadSection layouts section (Some clicks) a in
  App.savedLayouts a' = <[section := selected]> (App.savedLayouts a)
  /\ App.setupSections a' = <[section := true]> (App.setupSections a)
  /\ App.sectionPanelSelections a'
     = <[section := map PanelConfig.id selected]> (App.sectionPanelSelections a)
  /\ JsMap.keys (PanelSystem.panels (App.panelSystem a')) = map PanelConfig.id selected
  /\ (forall panelConfig, panelConfig ∈ selected ->
        PanelSystem.elementOf (PanelConfig.id panelConfig) (App.panelSystem a')
        = Some (PanelSystem.panelElement panelConfig container
                  (PanelSystem.document (App.panelSystem a)))).
Proof.
  intros Hsec Hsetup Hsaved Hlayout Hnd selected a'.
  assert (Ha' : a'
            = App.finish section selected container
                (App.with_setup
                   (<[section := selected]> (App.savedLayouts a))
                   (<[section := true]> (App.setupSections a))
                   (<[section := map PanelConfig.id selected]>
                      (App.sectionPanelSelections a))
                   (App.with_panelSystem
                      (PanelSystem.clearAllPanels container (App.panelSystem a)) a))).
  { unfold a', App.loadSection. rewrite Hsec. cbn beta iota zeta.
    unfold App.isSetup in *.
    cbn [App.savedLayouts App.setupSections App.sectionPanelSelections
         App.with_panelSystem].
    rewrite Hsetup, Hlayout. cbn [negb]. fold selected.
    destruct Hsaved as [-> | ->]; reflexivity. }
  assert (Hnds : NoDup (map PanelConfig.id selected)).
  { unfold selected, SetupDialog.show, SetupDialog.continue.
    destruct (dialog_state _ Hnd clicks) as (-> & _ & _).
    apply NoDup_map_filter, Hnd. }
  destruct (instantiate_cleared section selected container
              (App.with_setup
                 (<[section := selected]> (App.savedLayouts a))
                 (<[section := true]> (App.setupSections a))
                 (<[section := map PanelConfig.id selected]>
                    (App.sectionPanelSelections a))
                 (App.with_panelSystem
                    (PanelSystem.clearAllPanels container (App.panelSystem a)) a))
              (wf_clearAllPanels _ _) eq_refl Hnds)
    as (_ & Hkeys & _ & Hels).
  rewrite <- Ha' in Hkeys, Hels.
  split; [rewrite Ha', finish_savedLayouts; reflexivity|].
  split; [rewrite Ha', finish_setupSections; reflexivity|].
  split; [rewrite Ha', finish_sectionPanelSelections; reflexivity|].
  split; [exact Hkeys|].
  intros panelConfig Hin. rewrite (Hels panelConfig Hin). f_equal.
  apply panelElement_ext, intrinsic_clearAllPanels.
Qed.

Lemma loadSection_first_visit_records_selection_witness :
  let a' := App.loadSection Layouts.layouts "writing" (Some [2%nat])
              (freshApp page) in
  App.sectionPanelSelections a' !! "writing" = Some ["editor"; "character-panel"]
  /\ JsMap.keys (PanelSystem.panels (App.panelSystem a'))
     = ["editor"; "character-panel"].
Proof.
  assert (Hnd : NoDup (map PanelConfig.id (Layouts.panels Layouts.writing))).
  { repeat (apply NoDup_cons; split;
            [let H := fresh in intros H; repeat (apply elem_of_cons in H as [H|H];
               [discriminate|]); apply elem_of_nil in H; exact H|]).
    apply NoDup_nil. exact I. }
  pose proof (loadSection_first_visit_records_selection Layouts.layouts "writing"
                0 [2%nat] (freshApp page) Layouts.writing
                eq_refl eq_refl (or_introl eq_refl) eq_refl Hnd) as H.
  cbv zeta in H. destruct H as (_ & _ & Hsel & Hkeys & _).
  split.
  - rewrite Hsel. apply lookup_insert_eq.
  - exact Hkeys.
Defined.

(** The panels of a cleared store created by the tail of [loadSection],
    outside the character views and with no other timer pending: the
    timer of the save is the only one, nothing is saved before it
    fires, and when it fires the snapshot of the new panels becomes the
    saved layout of the current section. *)
Lemma finish_then_save (section : string) (configs : list PanelConfig.t)
    (container : nat) (b : App.t) :
  PanelSystem.wf (App.panelSystem b) ->
  PanelSystem.panels (App.panelSystem b) = [] ->
  NoDup (map PanelConfig.id configs) ->
  Forall validSize configs ->
  configs <> [] ->
  App.currentSection b = Some section ->
  section <> "" ->
  section <> "characters" \/ App.characterManager b = None ->
  App.timers b = [] ->
  let entered := App.finish section configs container b in
  let a' := App.elapse 50 entered in
  App.timers entered = [ {| App.delay := 50; App.task := App.SaveProjectState |} ]
  /\ (forall ms, ms < 50 ->
        App.savedLayouts (App.elapse ms entered) = App.savedLayouts b
        /\ App.saved (App.elapse ms entered) = App.saved b)
  /\ App.timers a' = []
  /\ length (App.saved a') = S (length (App.saved b))
  /\ App.panelSystem a' = App.panelSystem entered
  /\ App.savedLayouts a' = <[section := map snapshotOfFresh configs]> (App.savedLayouts b)
  /\ App.setupSections a' = App.setupSections b
  /\ App.sectionPanelSelections a' = App.sectionPanelSelections b.
Proof.
  intros Hwf Hnil Hnd Hvalid Hne Hcur Hname Hviews Htimers entered a'.
  destruct (instantiate_cleared section configs container b Hwf Hnil Hnd)
    as (_ & _ & Hstate & _).
  specialize (Hstate Hvalid). fold entered in Hstate.
  assert (Hpending : App.timers entered
                     = [ {| App.delay := 50; App.task := App.SaveProjectState |} ]).
  { destruct (finish_timers section configs container b)
      as (adjust & Ht & _ & Hnone).
    unfold entered. rewrite Ht, (Hnone Hviews), Htimers.
    destruct configs; [congruence|reflexivity]. }
  assert (Hc : App.currentSection entered = Some section)
    by (unfold entered; rewrite finish_currentSection; exact Hcur).
  assert (Hl : App.savedLayouts entered = App.savedLayouts b)
    by (unfold entered; rewrite finish_savedLayouts; reflexivity).
  assert (Hs : App.saved entered = App.saved b)
    by (unfold entered; rewrite finish_saved; reflexivity).
  assert (Hse : App.setupSections entered = App.setupSections b)
    by (unfold entered; rewrite finish_setupSections; reflexivity).
  assert (Hsel : App.sectionPanelSelections entered = App.sectionPanelSelections b)
    by (unfold entered; rewrite finish_sectionPanelSelections; reflexivity).
  assert (Ha' : a' = App.saveProjectState (App.with_timers [] entered)).
  { unfold a', App.elapse. rewrite Hpending. reflexivity. }
  split; [exact Hpending|]. split.
  { intros ms Hms. unfold App.elapse. rewrite Hpending.
    cbn [List.filter App.delay].
    destruct (Z.leb_spec 50 ms); [lia|]. cbn [App.byDelay fold_left].
    split; [exact Hl|exact Hs]. }
  rewrite Ha'. unfold App.saveProjectState.
  cbn [App.currentSection App.with_timers App.panelSystem App.savedLayouts
       App.saved App.timers App.setupSections App.sectionPanelSelections].
  rewrite Hc. destruct (String.eqb_spec section ""); [congruence|].
  rewrite Hstate, Hl, Hs, Hse, Hsel.
  cbn [App.savedLayouts App.timers App.saved App.panelSystem
       App.setupSections App.sectionPanelSelections].
  rewrite length_app. simpl.
  destruct configs as [|c configs]; [congruence|]. simpl map.
  repeat split; try reflexivity. lia.
Qed.

(** X15.  Reconciliation, for any template with distinct ids and any
    recorded selection: a section that is marked as set up and has no
    saved layout gets exactly the template panels whose id is in the
    recorded selection, in template order and each from its template
    configuration; ids of the selection that the template no longer has
    are ignored, and the dialog is not consulted.  When [loadSection]
    returns none of the three records has changed and nothing has been
    sent; but if panels were created the timer of the save is set, and
    when it fires, 50 ms later, the snapshot of the new panels becomes
    the saved layout of the section (stated outside the character
    views, for the current section, sizes that are lengths and no other
    timer pending).  When no panel was created no save is set. *)
Theorem loadSection_fallback_filters_template (layouts : Layouts.Registry)
    (section : string) (container : nat) (dialog : option (list nat)) (a : App.t)
    (layout : Layouts.Layout) :
  App.sections a !! section = Some container ->
  App.isSetup section a = true ->
  App.savedLayouts a !! section = None \/ App.savedLayouts a !! section = Some [] ->
  layouts !! section = Some layout ->
  NoDup (map PanelConfig.id (Layouts.panels layout)) ->
  let d := PanelSystem.document (App.panelSystem a) in
  let selectedIds := default [] (App.sectionPanelSelections a !! section) in
  let kept := List.filter (fun panel => includes selectedIds (PanelConfig.id panel))
                (Layouts.panels layout) in
  let a' := App.loadSection layouts section dialog a in
  JsMap.keys (PanelSystem.panels (App.panelSystem a')) = map PanelConfig.id kept
  /\ (forall panelConfig, panelConfig ∈ kept ->
        PanelSystem.elementOf (PanelConfig.id panelConfig) (App.panelSystem a')
        = Some (PanelSystem.panelElement panelConfig container d))
  /\ (forall k, PanelSystem.elementOf k (App.panelSystem a') <> None ->
        k ∈ selectedIds /\ k ∈ map PanelConfig.id (Layouts.panels layout))
  /\ App.savedLayouts a' = App.savedLayouts a
  /\ App.setupSections a' = App.setupSections a
  /\ App.sectionPanelSelections a' = App.sectionPanelSelections a
  /\ App.saved a' = App.saved a
  /\ (kept <> [] ->
      {| App.delay := 50; App.task := App.SaveProjectState |} ∈ App.timers a')
  /\ (kept = [] ->
      {| App.delay := 50; App.task := App.SaveProjectState |} ∈ App.timers a' ->
      {| App.delay := 50; App.task := App.SaveProjectState |} ∈ App.timers a)
  /\ (kept <> [] ->
      Forall validSize kept ->
      App.currentSection a = Some section ->
      section <> "" ->
      section <> "characters" \/ App.characterManager a = None ->
      App.timers a = [] ->
      (forall ms, ms < 50 ->
         App.savedLayouts (App.elapse ms a') = App.savedLayouts a
         /\ App.saved (App.elapse ms a') = App.saved a)
      /\ App.savedLayouts (App.elapse 50 a')
         = <[section := map snapshotOfFresh kept]> (App.savedLayouts a)
      /\ length (App.saved (App.elapse 50 a')) = S (length (App.saved a))
      /\ App.setupSections (App.elapse 50 a') = App.setupSections a
      /\ App.sectionPanelSelections (App.elapse 50 a')
         = App.sectionPanelSelections a).
Proof.
  intros Hsec Hsetup Hsaved Hlayout Hnd d selectedIds kept a'.
  set (cleared := App.with_panelSystem
                    (PanelSystem.clearAllPanels container (App.panelSystem a)) a).
  assert (Ha' : a' = App.finish section kept container cleared).
  { unfold a', App.loadSection. rewrite Hsec. cbn beta iota zeta.
    unfold App.isSetup in *.
    cbn [App.savedLayouts App.setupSections App.sectionPanelSelections
         App.with_panelSystem].
    rewrite Hsetup, Hlayout. cbn [negb]. fold selectedIds. fold kept.
    destruct Hsaved as [-> | ->]; reflexivity. }
  assert (Hndk : NoDup (map PanelConfig.id kept)) by (apply NoDup_map_filter, Hnd).
  destruct (instantiate_cleared section kept container cleared
              (wf_clearAllPanels _ _) eq_refl Hndk)
    as (_ & Hkeys & _ & Hels).
  rewrite <- Ha' in Hkeys, Hels.
  split; [exact Hkeys|]. split.
  { intros panelConfig Hin. rewrite (Hels panelConfig Hin). f_equal.
    apply panelElement_ext, intrinsic_clearAllPanels. }
  split.
  { intros k Hk. unfold PanelSystem.elementOf in Hk.
    destruct (JsMap.get k (PanelSystem.panels (App.panelSystem a'))) eqn:Hget;
      [|congruence].
    assert (Hin : k ∈ map PanelConfig.id kept).
    { rewrite <- Hkeys.
      destruct (decide (k ∈ JsMap.keys (PanelSystem.panels (App.panelSystem a'))))
        as [H|H]; [exact H|].
      apply JsMap_get_None in H. congruence. }
    apply list_elem_of_fmap in Hin as (pc & -> & Hpc).
    apply list_elem_of_In, filter_In in Hpc as [Hpc Hinc].
    split; [apply includes_In, Hinc|].
    apply (list_elem_of_fmap_2 PanelConfig.id), list_elem_of_In, Hpc. }
  split; [rewrite Ha', finish_savedLayouts; reflexivity|].
  split; [rewrite Ha', finish_setupSections; reflexivity|].
  split; [rewrite Ha', finish_sectionPanelSelections; reflexivity|].
  split; [rewrite Ha', finish_saved; reflexivity|].
  destruct (finish_timers section kept container cleared)
    as (adjust & Ht & Hadjust & _).
  rewrite <- Ha' in Ht. change (App.timers cleared) with (App.timers a) in Ht.
  split; [|split].
  - intros Hne. rewrite Ht. destruct kept as [|c r]; [congruence|].
    rewrite !elem_of_app. right. left. apply list_elem_of_here.
  - intros Hnil. rewrite Ht, Hnil. cbn [app]. rewrite elem_of_app.
    intros [H|H]; [exact H|].
    destruct Hadjust as [-> | ->].
    + apply elem_of_nil in H. contradiction.
    + apply list_elem_of_singleton in H. discriminate.
  - intros Hne Hvalid Hcur Hname Hviews Htimers.
    destruct (finish_then_save section kept container cleared
                (wf_clearAllPanels _ _) eq_refl Hndk Hvalid Hne Hcur Hname Hviews
                Htimers)
      as (_ & Hbefore & _ & Hlen & _ & Hlay & Hse & Hsel).
    rewrite <- Ha' in Hbefore, Hlen, Hlay, Hse, Hsel.
    split; [exact Hbefore|]. split; [exact Hlay|]. split; [exact Hlen|].
    split; [exact Hse|exact Hsel].
Qed.

Lemma loadSection_fallback_filters_template_witness :
  let a' := App.loadSection registryABCD "x" None
              (App.with_currentSection (Some "x") appWithXSetUp) in
  JsMap.keys (PanelSystem.panels (App.panelSystem a')) = ["a"; "c"]
  /\ App.savedLayouts a' !! "x" = None
  /\ App.savedLayouts (App.elapse 50 a') !! "x" = Some [panelA; panelC].
Proof.
  assert (Hnd : NoDup (map PanelConfig.id [panelA; panelB; panelC; panelD])).
  { repeat (apply NoDup_cons; split;
            [let H := fresh in intros H; repeat (apply elem_of_cons in H as [H|H];
               [discriminate|]); apply elem_of_nil in H; exact H|]).
    apply NoDup_nil. exact I. }
  assert (Hsec : App.sections (App.with_currentSection (Some "x") appWithXSetUp)
                   !! "x" = Some 0%nat) by reflexivity.
  assert (Hset : App.isSetup "x" (App.with_currentSection (Some "x") appWithXSetUp)
                 = true) by reflexivity.
  assert (Hsaved : App.savedLayouts
                     (App.with_currentSection (Some "x") appWithXSetUp) !! "x" = None)
    by reflexivity.
  assert (Hlayout : registryABCD !! "x"
                    = Some {| Layouts.name := "X";
                              Layouts.panels := [panelA; panelB; panelC; panelD] |})
    by reflexivity.
  pose proof (loadSection_fallback_filters_template registryABCD "x" 0 None
                (App.with_currentSection (Some "x") appWithXSetUp)
                {| Layouts.name := "X";
                   Layouts.panels := [panelA; panelB; panelC; panelD] |}
                Hsec Hset (or_introl Hsaved) Hlayout Hnd) as H.
  cbv zeta in H.
  destruct H as (Hkeys & _ & _ & Hlay & _ & _ & _ & _ & _ & Hlater).
  split; [exact Hkeys|]. split; [rewrite Hlay; reflexivity|].
  assert (Hne : [panelA; panelC] <> []) by discriminate.
  assert (Hvalid : Forall validSize [panelA; panelC])
    by (repeat constructor; discriminate).
  assert (Hname : "x" <> "") by discriminate.
  assert (Hviews : "x" <> "characters"
                   \/ App.characterManager
                        (App.with_currentSection (Some "x") appWithXSetUp) = None)
    by (left; discriminate).
  destruct (Hlater Hne Hvalid eq_refl Hname Hviews eq_refl) as (_ & Hsnap & _).
  rewrite Hsnap. apply lookup_insert_eq.
Defined.

(** ** Setup happens once *)

Lemma loadSection_setupSections layouts section dialog a :
  App.setupSections (App.loadSection layouts section dialog a) = App.setupSections a
  \/ App.setupSections (App.loadSection layouts section dialog a)
     = <[section := true]> (App.setupSections a).
Proof.
  unfold App.loadSection.
  destruct (App.sections a !! section) as [container|]; [|left; reflexivity].
  cbn beta iota zeta. cbn [App.savedLayouts App.with_panelSystem].
  destruct (App.savedLayouts a !! section) as [[|c saved]|];
    repeat match goal with
           | |- context [if ?b then _ else _] => destruct b
           | |- context [match ?x with Some _ => _ | None => _ end] => destruct x
           end; rewrite ?finish_setupSections; auto.
Qed.

Lemma loadSection_ignores_dialog_when_setup layouts section dialog dialog' a :
  App.isSetup section a = true ->
  App.loadSection layouts section dialog' a = App.loadSection layouts section dialog a
  /\ App.setupSections (App.loadSection layouts section dialog a) = App.setupSections a
  /\ App.sectionPanelSelections (App.loadSection layouts section dialog a)
     = App.sectionPanelSelections a
  /\ App.savedLayouts (App.loadSection layouts section dialog a) = App.savedLayouts a.
Proof.
  intros Hsetup. unfold App.loadSection.
  destruct (App.sections a !! section) as [container|]; [|auto].
  cbn beta iota zeta. unfold App.isSetup in *.
  cbn [App.savedLayouts App.setupSections App.with_panelSystem].
  rewrite Hsetup. cbn [negb].
  destruct (App.savedLayouts a !! section) as [[|c saved]|];
    try (destruct (layouts !! section));
    rewrite ?finish_setupSections, ?finish_sectionPanelSelections,
      ?finish_savedLayouts; auto.
Qed.

(** X16.  Setup happens once.  Neither entering a section nor saving
    ever takes the setup mark from any section; and for a section that
    carries the mark the dialog is never consulted: the result of
    entering it does not depend on what the user would click, and its
    recorded selection, the setup marks and the saved layouts stay as
    they are. *)
Theorem setup_is_recorded_once (layouts : Layouts.Registry) (section : string)
    (dialog : option (list nat)) (a : App.t) :
  (forall other,
     App.isSetup other a = true ->
     App.isSetup other (App.loadSection layouts section dialog a) = true
     /\ App.isSetup other (App.saveProjectState a) = true)
  /\ (App.isSetup section a = true ->
      forall dialog',
        App.loadSection layouts section dialog' a
        = App.loadSection layouts section dialog a
        /\ App.setupSections (App.loadSection layouts section dialog a)
           = App.setupSections a
        /\ App.sectionPanelSelections (App.loadSection layouts section dialog a)
           = App.sectionPanelSelections a
        /\ App.savedLayouts (App.loadSection layouts section dialog a)
           = App.savedLayouts a).
Proof.
  split.
  - intros other Hother. split.
    + unfold App.isSetup in *.
      destruct (loadSection_setupSections layouts section dialog a) as [-> | ->];
        [exact Hother|].
      destruct (decide (section = other)) as [->|Hne].
      * rewrite lookup_insert_eq. reflexivity.
      * rewrite lookup_insert_ne by exact Hne. exact Hother.
    + unfold App.isSetup, App.saveProjectState in *.
      destruct (App.currentSection a) as [cur|]; [|exact Hother].
      destruct (String.eqb cur ""); exact Hother.
  - intros Hsetup dialog'.
    apply loadSection_ignores_dialog_when_setup, Hsetup.
Qed.

Lemma setup_is_recorded_once_witness :
  App.isSetup "x" (App.loadSection registryABC "x" (Some [0%nat]) appWithXSetUp) = true
  /\ App.loadSection registryABC "x" (Some [0%nat]) appWithXSetUp
     = App.loadSection registryABC "x" None appWithXSetUp.
Proof.
  pose proof (setup_is_recorded_once registryABC "x" None appWithXSetUp) as [H1 H2].
  split.
  - exact (proj1 (proj1 (setup_is_recorded_once registryABC "x" (Some [0%nat])
                          appWithXSetUp) "x" eq_refl)).
  - exact (proj1 (H2 eq_refl (Some [0%nat]))).
Defined.

(** X17.  An empty selection is final.  When the panels the dialog
    returns on the first visit are none, the section is marked as set up
    with an empty selection and an empty saved layout and no panel is
    created; from then on entering the section, with any registry and
    whatever the user would do, creates no panel and changes none of the
    three records, and saving leaves the saved layouts as they are. *)
Theorem empty_selection_is_final (layouts : Layouts.Registry) (section : string)
    (container : nat) (clicks : list nat) (a : App.t) (layout : Layouts.Layout) :
  App.sections a !! section = Some container ->
  App.isSetup section a = false ->
  App.savedLayouts a !! section = None \/ App.savedLayouts a !! section = Some [] ->
  layouts !! section = Some layout ->
  SetupDialog.show (Layouts.panels layout) clicks = [] ->
  let a1 := App.loadSection layouts section (Some clicks) a in
  PanelSystem.panels (App.panelSystem a1) = []
  /\ App.isSetup section a1 = true
  /\ App.sectionPanelSelections a1 !! section = Some []
  /\ App.savedLayouts a1 !! section = Some []
  /\ App.savedLayouts (App.saveProjectState a1) = App.savedLayouts a1
  /\ (forall (later : Layouts.Registry) (dialog : option (list nat)),
        let a2 := App.loadSection later section dialog a1 in
        PanelSystem.panels (App.panelSystem a2) = []
        /\ App.savedLayouts a2 = App.savedLayouts a1
        /\ App.setupSections a2 = App.setupSections a1
        /\ App.sectionPanelSelections a2 = App.sectionPanelSelections a1).
Proof.
  intros Hsec Hsetup Hsaved Hlayout Hshow a1.
  assert (Ha1 : a1
            = App.finish section [] container
                (App.with_setup
                   (<[section := []]> (App.savedLayouts a))
                   (<[section := true]> (App.setupSections a))
                   (<[section := []]> (App.sectionPanelSelections a))
                   (App.with_panelSystem
                      (PanelSystem.clearAllPanels container (App.panelSystem a)) a))).
  { unfold a1, App.loadSection. rewrite Hsec. cbn beta iota zeta.
    unfold App.isSetup in *.
    cbn [App.savedLayouts App.setupSections App.sectionPanelSelections
         App.with_panelSystem].
    rewrite Hsetup, Hlayout. cbn [negb]. rewrite Hshow.
    destruct Hsaved as [-> | ->]; reflexivity. }
  assert (Hp1 : PanelSystem.panels (App.panelSystem a1) = [])
    by (rewrite Ha1, finish_panelSystem; reflexivity).
  assert (Hs1 : App.isSetup section a1 = true).
  { rewrite Ha1. unfold App.isSetup. rewrite finish_setupSections.
    cbn [App.setupSections App.with_panelSystem App.with_setup].
    rewrite lookup_insert_eq. reflexivity. }
  assert (Hl1 : App.savedLayouts a1 !! section = Some [])
    by (rewrite Ha1, finish_savedLayouts; apply lookup_insert_eq).
  assert (Hsec1 : App.sections a1 !! section = Some container)
    by (rewrite Ha1, finish_sections; exact Hsec).
  split; [exact Hp1|]. split; [exact Hs1|].
  split; [rewrite Ha1, finish_sectionPanelSelections; apply lookup_insert_eq|].
  split; [exact Hl1|]. split.
  - unfold App.saveProjectState.
    destruct (App.currentSection a1) as [cur|]; [|reflexivity].
    destruct (String.eqb cur ""); [reflexivity|].
    unfold PanelSystem.getPanelState. rewrite Hp1. reflexivity.
  - intros later dialog a2.
    destruct (loadSection_ignores_dialog_when_setup later section dialog dialog a1 Hs1)
      as (_ & H2 & H3 & H4).
    split; [|auto].
    unfold a2, App.loadSection. rewrite Hsec1. cbn beta iota zeta.
    unfold App.isSetup in *.
    cbn [App.savedLayouts App.setupSections App.sectionPanelSelections
         App.with_panelSystem].
    rewrite Hl1, Hs1. cbn [negb].
    assert (Hsel : App.sectionPanelSelections a1 !! section = Some [])
      by (rewrite Ha1, finish_sectionPanelSelections; apply lookup_insert_eq).
    rewrite Hsel. simpl default.
    destruct (later !! section) as [l|];
      [|rewrite finish_panelSystem; reflexivity].
    replace (List.filter (fun panel => includes [] (PanelConfig.id panel))
               (Layouts.panels l)) with (@nil PanelConfig.t);
      [rewrite finish_panelSystem; reflexivity|].
    induction (Layouts.panels l); simpl; auto.
Qed.

Lemma empty_selection_is_final_witness :
  let a1 := App.loadSection registryABC "x" (Some [0%nat; 1%nat; 2%nat]) appWithX in
  PanelSystem.panels (App.panelSystem a1) = []
  /\ PanelSystem.panels (App.panelSystem (App.loadSection registryABCD "x" None a1))
     = [].
Proof.
  pose proof (empty_selection_is_final registryABC "x" 0 [0%nat; 1%nat; 2%nat]
                appWithX
                {| Layouts.name := "X"; Layouts.panels := [panelA; panelB; panelC] |}
                eq_refl eq_refl (or_introl eq_refl) eq_refl eq_refl) as H.
  cbv zeta in H. destruct H as (H1 & _ & _ & _ & _ & H6).
  exact (conj H1 (proj1 (H6 registryABCD None))).
Defined.

(** * Saving, in general *)

(** X18.  A save with a current section leaves the panel store, the
    current section, the setup marks and the recorded selections as they
    are, changes no saved layout but the one of the current section,
    which gets the snapshot when the snapshot is not empty, leaves every
    project but the current one untouched, and sends exactly one
    message, which carries the records as they are after the save. *)
Theorem saveProjectState_touches_current_section_only (a : App.t)
    (section : string) :
  App.currentSection a = Some section ->
  section <> "" ->
  let a' := App.saveProjectState a in
  App.panelSystem a' = App.panelSystem a
  /\ App.currentSection a' = App.currentSection a
  /\ App.setupSections a' = App.setupSections a
  /\ App.sectionPanelSelections a' = App.sectionPanelSelections a
  /\ (forall other, other <> section ->
        App.savedLayouts a' !! other = App.savedLayouts a !! other)
  /\ (PanelSystem.getPanelState (App.panelSystem a) <> [] ->
      App.savedLayouts a' !! section
      = Some (PanelSystem.getPanelState (App.panelSystem a)))
  /\ length (projects (App.projectManager a')) = length (projects (App.projectManager a))
  /\ (forall j, currentProject (App.projectManager a) <> Some j ->
        projects (App.projectManager a') !! j = projects (App.projectManager a) !! j)
  /\ App.saved a' = App.saved a ++ [stateMessage a'].
Proof.
  intros Hcur Hname. cbv zeta. unfold stateMessage, App.saveProjectState.
  rewrite Hcur. destruct (String.eqb_spec section ""); [congruence|].
  cbn [App.panelSystem App.currentSection App.setupSections
       App.sectionPanelSelections App.savedLayouts App.projectManager App.saved].
  split; [reflexivity|]. split; [reflexivity|]. split; [reflexivity|].
  split; [reflexivity|]. split.
  { intros other Hother.
    destruct (PanelSystem.getPanelState (App.panelSystem a)); [reflexivity|].
    apply lookup_insert_ne. congruence. }
  split.
  { intros Hne. destruct (PanelSystem.getPanelState (App.panelSystem a));
      [congruence|]. apply lookup_insert_eq. }
  split.
  { unfold App.storeCharacters.
    destruct (currentProject (App.projectManager a)); [|reflexivity].
    destruct (App.characterManager a); [|reflexivity].
    simpl. apply length_alter. }
  split; [|reflexivity].
  intros j Hj. unfold App.storeCharacters.
  destruct (currentProject (App.projectManager a)) as [i|]; [|reflexivity].
  destruct (App.characterManager a); [|reflexivity].
  simpl. apply list_lookup_alter_ne. congruence.
Qed.

Lemma saveProjectState_touches_current_section_only_witness :
  App.savedLayouts (App.saveProjectState appInCharacters) !! "writing"
  = App.savedLayouts appInCharacters !! "writing"
  /\ App.panelSystem (App.saveProjectState appInCharacters)
     = App.panelSystem appInCharacters.
Proof.
  pose proof (saveProjectState_touches_current_section_only appInCharacters
                "characters" eq_refl ltac:(discriminate)) as H.
  cbv zeta in H. destruct H as (H1 & _ & _ & _ & H5 & _).
  exact (conj (H5 "writing" ltac:(discriminate)) H1).
Defined.

(** * The adaptive split, in general *)

Lemma split_minimum_widths containerWidth currentView listWidth editorWidth :
  Split.widths containerWidth currentView = Some (listWidth, editorWidth) ->
  Split.minEditorPx <= editorWidth
  /\ 280 <= listWidth
  /\ (280 <= containerWidth -> listWidth <= containerWidth)
  /\ (forall cap, Split.editorCap containerWidth currentView = Some cap ->
        Split.minEditorPx <= cap -> editorWidth <= cap).
Proof.
  unfold Split.widths.
  destruct (Split.baseListWidth containerWidth currentView) as [l0|]; [|discriminate].
  destruct (Split.editorCap containerWidth currentView) as [cap|]; [|discriminate].
  intros [= <- <-].
  unfold Split.finalListWidth, Split.clampedEditorWidth, Split.baseEditorWidth,
    clamp, Math_max, Math_min, Split.minEditorPx, Split.gapPx.
  repeat split; try lia. intros cap' [= <-]. lia.
Qed.

(** X19.  [adjustCharacterPanelLayout] with the editor hidden, or
    without an editor element on the page, gives the list the whole
    container and touches no other element.  With the editor visible it
    puts the list at the left edge and the editor 10 px to the right of
    the list, both at the top and as high as the container, the list at
    least 280 and the editor at least 320 wide whatever the container
    width is, and touches no other element. *)
Theorem adjustCharacterPanelLayout_places_panels (currentView : ViewMode)
    (a : App.t) (container listPanel : nat) :
  App.sections a !! "characters" = Some container ->
  App.getElementById "character-list" (PanelSystem.document (App.panelSystem a))
  = Some listPanel ->
  let d := PanelSystem.document (App.panelSystem a) in
  let box := Dom.containers d container in
  let after editorVisible :=
    PanelSystem.document
      (App.panelSystem (App.adjustCharacterPanelLayout currentView editorVisible a)) in
  (forall editorVisible,
     editorVisible = false \/ App.getElementById "character-editor" d = None ->
     Dom.get listPanel (after editorVisible)
     = App.place 0 0 (Box.width box) (Box.height box) (Dom.get listPanel d)
     /\ forall h, h <> listPanel -> Dom.get h (after editorVisible) = Dom.get h d)
  /\ (forall editorPanel listWidth editorWidth,
        App.getElementById "character-editor" d = Some editorPanel ->
        Split.widths (Box.width box) currentView = Some (listWidth, editorWidth) ->
        Dom.get listPanel (after true)
        = App.place 0 0 listWidth (Box.height box) (Dom.get listPanel d)
        /\ Dom.get editorPanel (after true)
           = App.place (listWidth + 10) 0 editorWidth (Box.height box)
               (Dom.get editorPanel d)
        /\ 280 <= listWidth /\ 320 <= editorWidth
        /\ forall h, h <> listPanel -> h <> editorPanel ->
             Dom.get h (after true) = Dom.get h d).
Proof.
  intros Hsec Hlist d box after.
  destruct (getElementById_Some _ _ _ Hlist) as [Hl Hlid].
  split.
  - intros editorVisible Hhidden.
    assert (Hed : (if editorVisible
                   then App.getElementById "character-editor"
                          (PanelSystem.document (App.panelSystem a))
                   else None) = None).
    { destruct Hhidden as [-> | Hnone]; [reflexivity|].
      unfold d in Hnone. rewrite Hnone. destruct editorVisible; reflexivity. }
    unfold after, App.adjustCharacterPanelLayout. rewrite Hlist, Hsec, Hed.
    cbn [App.panelSystem App.with_panelSystem PanelSystem.document
         PanelSystem.with_document].
    split.
    + apply Dom_get_update_eq, Hl.
    + intros h Hne. apply Dom_get_update_ne. congruence.
  - intros editorPanel listWidth editorWidth Hed Hw.
    destruct (getElementById_Some _ _ _ Hed) as [He Heid].
    assert (Hne : listPanel <> editorPanel)
      by (intros ->; unfold d in Heid; rewrite Hlid in Heid; discriminate).
    destruct (split_minimum_widths _ _ _ _ Hw) as (Hmin_e & Hmin_l & _).
    unfold d in Hed. unfold box, d in Hw.
    unfold after, App.adjustCharacterPanelLayout. rewrite Hlist, Hsec, Hed, Hw.
    cbn [App.panelSystem App.with_panelSystem PanelSystem.document
         PanelSystem.with_document].
    split; [|split; [|split; [exact Hmin_l|split; [exact Hmin_e|]]]].
    + rewrite Dom_get_update_ne by congruence.
      apply Dom_get_update_eq, Hl.
    + rewrite Dom_get_update_eq by (rewrite Dom_length_update; exact He).
      rewrite Dom_get_update_ne by exact Hne. reflexivity.
    + intros h H1 H2. rewrite !Dom_get_update_ne by congruence. reflexivity.
Qed.

Lemma adjustCharacterPanelLayout_places_panels_witness :
  Dom.get 0
    (PanelSystem.document
       (App.panelSystem (App.adjustCharacterPanelLayout ViewCard false appInCharacters)))
  = App.place 0 0 1200 600
      (Dom.get 0 (PanelSystem.document (App.panelSystem appInCharacters))).
Proof.
  pose proof (adjustCharacterPanelLayout_places_panels ViewCard appInCharacters
                2%nat 0%nat eq_refl eq_refl) as H.
  cbv zeta in H. destruct H as [H _].
  exact (proj1 (H false (or_introl eq_refl))).
Defined.

(** X20.  For every container width from 0 to 8192 and every view, the
    split is defined; from 934 px on (800 px in the importance view)
    list, gap and editor fill the container exactly, and in every
    narrower container they need more width than the container has. *)
Theorem split_tiles_wide_containers (currentView : ViewMode) (containerWidth : Z) :
  0 <= containerWidth <= 8192 ->
  exists listWidth editorWidth,
    Split.widths containerWidth currentView = Some (listWidth, editorWidth)
    /\ (tilingThreshold currentView <= containerWidth ->
        listWidth + Split.gapPx + editorWidth = containerWidth)
    /\ (containerWidth < tilingThreshold currentView ->
        containerWidth < listWidth + Split.gapPx + editorWidth).
Proof.
  intros Hrange.
  assert (Hall : forallb (fun W => splitFits ViewList W && splitFits ViewCard W
                                   && splitFits ViewImportance W)
                   (seqZ 0 8193) = true) by (vm_compute; reflexivity).
  rewrite forallb_forall in Hall.
  specialize (Hall containerWidth).
  assert (Hin : In containerWidth (seqZ 0 8193)).
  { apply list_elem_of_In, elem_of_seqZ. lia. }
  specialize (Hall Hin).
  assert (Hfit : splitFits currentView containerWidth = true).
  { destruct currentView;
      repeat (apply andb_prop in Hall as [Hall ?]); assumption. }
  unfold splitFits in Hfit.
  destruct (Split.widths containerWidth currentView) as [[l e]|]; [|discriminate].
  exists l, e. split; [reflexivity|].
  destruct (Z.leb_spec (tilingThreshold currentView) containerWidth).
  - apply Z.eqb_eq in Hfit. split; [auto|lia].
  - apply Z.ltb_lt in Hfit. split; [lia|auto].
Qed.

Lemma split_tiles_wide_containers_witness :
  exists listWidth editorWidth,
    Split.widths 1920 ViewImportance = Some (listWidth, editorWidth)
    /\ (tilingThreshold ViewImportance <= 1920 ->
        listWidth + Split.gapPx + editorWidth = 1920)
    /\ (1920 < tilingThreshold ViewImportance ->
        1920 < listWidth + Split.gapPx + editorWidth).
Proof.
  apply (split_tiles_wide_containers ViewImportance 1920). split; discriminate.
Defined.

(** * Persistence across runs *)

Lemma saveProjectState_message (a : App.t) (section : string) :
  App.currentSection a = Some section -> section <> "" ->
  App.saved (App.saveProjectState a)
  = App.saved a ++ [stateMessage (App.saveProjectState a)].
Proof.
  intros Hcur Hname. unfold stateMessage, App.saveProjectState. rewrite Hcur.
  destruct (String.eqb_spec section ""); [congruence|]. reflexivity.
Qed.

(** X21.  What a save sends is what the next run starts with.  The last
    message of a save carries the saved layouts, the setup marks, the
    recorded selections and the projects as they are after the save;
    once the main process has written it, a new run of the main process
    finds it in the file and replies with it, and the application that
    starts from this reply has the same four records, no current
    section, no panels and no loaded project. *)
Theorem saved_state_survives_restart (a : App.t) (section : string)
    (found : Main.File) (sections : gmap string nat) (d : Dom.t) :
  App.currentSection a = Some section ->
  section <> "" ->
  let a' := App.saveProjectState a in
  let run1 := Main.onSave (stateMessage a') Main.Written
                (Main.whenReady (Main.launched found)) in
  let run2 := Main.whenReady (Main.launched (Main.stateFile run1)) in
  let b := init sections d (received <$> Main.getLayoutState run2) in
  last (App.saved a') = Some (stateMessage a')
  /\ Main.getLayoutState run1 = Some (stateMessage a')
  /\ Main.getLayoutState run2 = Some (stateMessage a')
  /\ App.savedLayouts b = App.savedLayouts a'
  /\ App.setupSections b = App.setupSections a'
  /\ App.sectionPanelSelections b = App.sectionPanelSelections a'
  /\ projects (App.projectManager b) = projects (App.projectManager a')
  /\ App.currentSection b = None
  /\ App.isProjectLoaded b = false
  /\ PanelSystem.panels (App.panelSystem b) = [].
Proof.
  intros Hcur Hname. cbv zeta. split.
  - rewrite (saveProjectState_message a section Hcur Hname). apply last_snoc.
  - repeat split; reflexivity.
Qed.

Lemma saved_state_survives_restart_witness :
  let a' := App.saveProjectState appInCharacters in
  App.savedLayouts
    (init pageSections page
       (received <$>
          Main.getLayoutState
            (Main.whenReady
               (Main.launched
                  (Main.stateFile
                     (Main.onSave (stateMessage a') Main.Written
                        (Main.whenReady (Main.launched Main.Unreadable))))))))
  = App.savedLayouts a'.
Proof.
  pose proof (saved_state_survives_restart appInCharacters "characters"
                Main.Unreadable pageSections page eq_refl ltac:(discriminate)) as H.
  cbv zeta in H. destruct H as (_ & _ & _ & H4 & _). exact H4.
Defined.

(** X22.  The main process answers from memory and writes again when it
    closes.  After a save whose write failed the reply to
    ['get-layout-state'] is the new state all the same, and a close
    whose write succeeds leaves the new state in the file, where the
    next run finds it; a process that has no state, because the file was
    missing or unreadable and nothing has been saved, replies [null],
    which starts the application with empty records, and leaves the file
    untouched when it closes. *)
Theorem failed_write_is_retried_on_close (state : App.SavedState)
    (remains found : Main.File) (m : Main.t) (outcome : Main.WriteOutcome)
    (sections : gmap string nat) (d : Dom.t) :
  let m1 := Main.onSave state (Main.Failed remains) m in
  let closed := Main.onClose Main.Written m1 in
  (Main.getLayoutState m1 = Some state
   /\ Main.stateFile m1 = remains
   /\ Main.getLayoutState
        (Main.whenReady (Main.launched (Main.stateFile closed))) = Some state)
  /\ (found = Main.NoFile \/ found = Main.Unreadable ->
      let fresh := Main.whenReady (Main.launched found) in
      Main.getLayoutState fresh = None
      /\ Main.onClose outcome fresh = fresh
      /\ init sections d (received <$> Main.getLayoutState fresh) = newApp sections d).
Proof.
  cbv zeta. split; [repeat split; reflexivity|].
  intros [-> | ->]; repeat split; reflexivity.
Qed.

Lemma failed_write_is_retried_on_close_witness :
  let fresh := Main.whenReady (Main.launched Main.Unreadable) in
  Main.getLayoutState fresh = None
  /\ Main.onClose Main.Written fresh = fresh.
Proof.
  pose proof (failed_write_is_retried_on_close (stateMessage appInCharacters)
                Main.NoFile Main.Unreadable (Main.launched Main.NoFile) Main.Written
                pageSections page) as H.
  cbv zeta in H. destruct H as [_ H].
  destruct (H (or_intror eq_refl)) as (H1 & H2 & _). exact (conj H1 H2).
Defined.

(** * The way home *)


(** * Creating a panel under a new id *)



(** A configuration with a negative width and height: the panel is
    placed, and is as large as the layout makes a panel without a size
    of its own (200 x 60 on this page), not -300 x -200. *)
Lemma createPanel_negative_size_keeps_layout_size :
  let config := PanelConfig.mk "note" "Note" 10 20 (-300) (-200) false in
  PanelSystem.geometry
    <$> PanelSystem.elementOf "note"
          (PanelSystem.createPanel config 0 (PanelSystem.new page))
  = Some (10, 20, 200, 60).
Proof. reflexivity. Qed.

(** * Characters *)

Section FirstMatch.
Import CharacterManager.

Lemma updateFirst_spec (characterId : string) (f : Character -> Character)
    (cs : list Character) (c : Character) :
  List.find (fun c => String.eqb (id c) characterId) cs = Some c ->
  exists i,
    cs !! i = Some c
    /\ id c = characterId
    /\ (forall j c', (j < i)%nat -> cs !! j = Some c' -> id c' <> characterId)
    /\ updateFirst characterId f cs = <[i := f c]> cs.
Proof.
  induction cs as [|c0 r IH]; simpl; [discriminate|].
  destruct (String.eqb_spec (id c0) characterId) as [He|Hne].
  - intros [= <-]. exists 0%nat. repeat split; [assumption|lia].
  - intros Hf. destruct (IH Hf) as (i & Hi & Hid & Hbefore & Hup).
    exists (S i). repeat split; [exact Hi|exact Hid| |simpl; congruence].
    intros [|j] c' Hj; simpl; [intros [= <-]; exact Hne|].
    intros Hc'. apply (Hbefore j); [lia|exact Hc'].
Qed.

Lemma find_updateFirst (characterId other : string) (f : Character -> Character)
    (cs : list Character) :
  (forall c, id (f c) = id c) ->
  List.find (fun c => String.eqb (id c) other) (updateFirst characterId f cs)
  = (if String.eqb other characterId then f else fun c => c)
      <$> List.find (fun c => String.eqb (id c) other) cs.
Proof.
  intros Hf. induction cs as [|c0 r IH]; simpl; [reflexivity|].
  destruct (String.eqb_spec (id c0) characterId) as [He|Hne]; simpl.
  - rewrite Hf. destruct (String.eqb_spec (id c0) other) as [Ho|Hno]; simpl.
    + subst. rewrite String.eqb_refl. reflexivity.
    + destruct (List.find _ r) as [c1|] eqn:Hr; simpl; [|reflexivity].
      destruct (String.eqb_spec other characterId); [congruence|reflexivity].
  - destruct (String.eqb_spec (id c0) other) as [Ho|Hno]; simpl; [|exact IH].
    destruct (String.eqb_spec other characterId); [congruence|reflexivity].
Qed.

Lemma find_filter_other (characterId other : string) (cs : list Character) :
  other <> characterId ->
  List.find (fun c => String.eqb (id c) other)
    (List.filter (fun c => negb (String.eqb (id c) characterId)) cs)
  = List.find (fun c => String.eqb (id c) other) cs.
Proof.
  intros Hne. induction cs as [|c0 r IH]; simpl; [reflexivity|].
  destruct (String.eqb_spec (id c0) characterId) as [He|Hk]; simpl.
  - destruct (String.eqb_spec (id c0) other); [congruence|exact IH].
  - destruct (String.eqb (id c0) other); [reflexivity|exact IH].
Qed.

Lemma find_filter_same (characterId : string) (cs : list Character) :
  List.find (fun c => String.eqb (id c) characterId)
    (List.filter (fun c => negb (String.eqb (id c) characterId)) cs) = None.
Proof.
  induction cs as [|c0 r IH]; simpl; [reflexivity|].
  destruct (String.eqb (id c0) characterId) eqn:He; simpl; [exact IH|].
  rewrite He. exact IH.
Qed.

Lemma filter_unknown (characterId : string) (cs : list Character) :
  List.find (fun c => String.eqb (id c) characterId) cs = None ->
  List.filter (fun c => negb (String.eqb (id c) characterId)) cs = cs.
Proof.
  induction cs as [|c0 r IH]; simpl; [reflexivity|].
  destruct (String.eqb (id c0) characterId); simpl; [discriminate|].
  intros H. rewrite (IH H). reflexivity.
Qed.

Lemma filter_known_shorter (characterId : string) (cs : list Character) (c : Character) :
  List.find (fun c => String.eqb (id c) characterId) cs = Some c ->
  (length (List.filter (fun c => negb (String.eqb (id c) characterId)) cs)
   < length cs)%nat.
Proof.
  induction cs as [|c0 r IH]; simpl; [discriminate|].
  destruct (String.eqb (id c0) characterId); simpl.
  - intros _. pose proof (List.filter_length_le
      (fun c => negb (String.eqb (id c) characterId)) r). lia.
  - intros H. specialize (IH H). lia.
Qed.

End FirstMatch.

(** X25.  [updateCharacter] changes the first character with the id and
    nothing else.  The character keeps its id, its creation time and its
    place in the list; a name or flag that is missing or empty leaves
    the old one; the fields of [updates.data] replace those of the same
    name and all other fields stay; the modification time is the time of
    the call.  Every other character, also a later one with the same id,
    is as before, and so is what [getCharacter] finds under another id. *)
Theorem updateCharacter_merges_into_first_match (characterId : string)
    (updates : CharacterManager.Updates) (now : string) (m : CharacterManager.t)
    (c : CharacterManager.Character) :
  CharacterManager.getCharacter characterId m = Some c ->
  let m' := CharacterManager.updateCharacter characterId updates now m in
  exists i c',
    CharacterManager.characters m !! i = Some c
    /\ (forall j c0, (j < i)%nat -> CharacterManager.characters m !! j = Some c0 ->
          CharacterManager.id c0 <> characterId)
    /\ CharacterManager.characters m' = <[i := c']> (CharacterManager.characters m)
    /\ CharacterManager.getCharacter characterId m' = Some c'
    /\ CharacterManager.id c' = characterId
    /\ CharacterManager.createdAt c' = CharacterManager.createdAt c
    /\ CharacterManager.lastModified c' = now
    /\ CharacterManager.name c'
       = match CharacterManager.updates_name updates with
         | Some n => if String.eqb n "" then CharacterManager.name c else n
         | None => CharacterManager.name c
         end
    /\ CharacterManager.flagId c'
       = match CharacterManager.updates_flagId updates with
         | Some f => if String.eqb f "" then CharacterManager.flagId c else f
         | None => CharacterManager.flagId c
         end
    /\ (forall field,
          CharacterManager.data c' !! field
          = match CharacterManager.updates_data updates with
            | Some fields =>
                match fields !! field with
                | Some v => Some v
                | None => CharacterManager.data c !! field
                end
            | None => CharacterManager.data c !! field
            end)
    /\ (forall other, other <> characterId ->
          CharacterManager.getCharacter other m'
          = CharacterManager.getCharacter other m)
    /\ CharacterManager.getCharacterCount m' = CharacterManager.getCharacterCount m
    /\ CharacterManager.customFlags m' = CharacterManager.customFlags m.
Proof.
  intros Hget. cbv zeta.
  unfold CharacterManager.updateCharacter. rewrite Hget.
  unfold CharacterManager.getCharacter in *; simpl.
  destruct (updateFirst_spec characterId
              (CharacterManager.applyUpdates updates now) _ _ Hget)
    as (i & Hi & Hid & Hbefore & Hup).
  exists i, (CharacterManager.applyUpdates updates now c).
  split; [exact Hi|]. split; [exact Hbefore|]. split; [exact Hup|].
  split.
  { rewrite (find_updateFirst characterId characterId) by reflexivity.
    rewrite Hget, String.eqb_refl. reflexivity. }
  split; [exact Hid|]. split; [reflexivity|]. split; [reflexivity|].
  split.
  { simpl. destruct (CharacterManager.updates_name updates) as [n|]; simpl;
      [destruct (String.eqb n "")|]; reflexivity. }
  split.
  { simpl. destruct (CharacterManager.updates_flagId updates) as [f|]; simpl;
      [destruct (String.eqb f "")|]; reflexivity. }
  split.
  { intros field. simpl.
    destruct (CharacterManager.updates_data updates) as [fields|]; [|reflexivity].
    rewrite lookup_union.
    destruct (fields !! field) as [v|]; simpl;
      [destruct (CharacterManager.data c !! field); reflexivity|].
    destruct (CharacterManager.data c !! field); reflexivity. }
  split.
  { intros other Hother.
    rewrite (find_updateFirst characterId other) by reflexivity.
    destruct (String.eqb_spec other characterId); [congruence|].
    exact (option_fmap_id _). }
  split; [|reflexivity].
  unfold CharacterManager.getCharacterCount; simpl.
  rewrite Hup. apply length_insert.
Qed.

Lemma updateCharacter_merges_into_first_match_witness :
  exists c',
    CharacterManager.getCharacter "char_1"
      (CharacterManager.updateCharacter "char_1" renameOnly
         "2024-02-01T00:00:00.000Z" cast) = Some c'
    /\ CharacterManager.name c' = "Mira Vale"
    /\ CharacterManager.flagId c' = "primary"
    /\ CharacterManager.data c' !! "picture" = Some (Some "mira.png")
    /\ CharacterManager.data c' !! "age" = Some (Some "31").
Proof.
  destruct (updateCharacter_merges_into_first_match "char_1" renameOnly
              "2024-02-01T00:00:00.000Z" cast heroine eq_refl)
    as (i & c' & _ & _ & _ & Hget & _ & _ & _ & Hname & Hflag & Hdata & _).
  exists c'. split; [exact Hget|]. split; [exact Hname|]. split; [exact Hflag|].
  split; rewrite Hdata; reflexivity.
Defined.

(** X26.  [updateCharacter] with an id no character has changes nothing,
    whatever the updates. *)
Theorem updateCharacter_unknown_id_is_noop (characterId : string)
    (updates : CharacterManager.Updates) (now : string) (m : CharacterManager.t) :
  Forall (fun c => CharacterManager.id c <> characterId)
    (CharacterManager.characters m) ->
  CharacterManager.updateCharacter characterId updates now m = m.
Proof.
  intros Hall. unfold CharacterManager.updateCharacter, CharacterManager.getCharacter.
  destruct (List.find _ _) as [c|] eqn:Hf; [|reflexivity].
  apply List.find_some in Hf as [Hin He].
  rewrite Forall_forall in Hall. apply list_elem_of_In in Hin.
  apply String.eqb_eq in He. destruct (Hall c Hin He).
Qed.

Lemma updateCharacter_unknown_id_is_noop_witness :
  CharacterManager.updateCharacter "char_9" renameOnly "2024-02-01T00:00:00.000Z" cast
  = cast.
Proof.
  apply (updateCharacter_unknown_id_is_noop "char_9" renameOnly
           "2024-02-01T00:00:00.000Z" cast).
  repeat constructor; discriminate.
Defined.

(** X27.  [deleteCharacter] removes every character with the id and
    keeps the others in their order: afterwards the id is not found and
    an update under it changes nothing, any other id is found as before,
    the characters of a flag are those of before without the removed
    ones, the custom flags are kept, a second deletion changes nothing,
    and the number of characters goes down exactly if the id was found. *)
Theorem deleteCharacter_removes_the_id (characterId : string)
    (m : CharacterManager.t) :
  let m' := CharacterManager.deleteCharacter characterId m in
  CharacterManager.getCharacter characterId m' = None
  /\ (forall updates now,
        CharacterManager.updateCharacter characterId updates now m' = m')
  /\ (forall other, other <> characterId ->
        CharacterManager.getCharacter other m'
        = CharacterManager.getCharacter other m)
  /\ (forall flag,
        CharacterManager.getCharactersByFlag flag m'
        = List.filter
            (fun c => negb (String.eqb (CharacterManager.id c) characterId))
            (CharacterManager.getCharactersByFlag flag m))
  /\ CharacterManager.customFlags m' = CharacterManager.customFlags m
  /\ CharacterManager.deleteCharacter characterId m' = m'
  /\ (CharacterManager.getCharacter characterId m = None -> m' = m)
  /\ (CharacterManager.getCharacter characterId m <> None ->
      (CharacterManager.getCharacterCount m'
       < CharacterManager.getCharacterCount m)%nat).
Proof.
  cbv zeta. destruct m as [cs flags].
  unfold CharacterManager.updateCharacter, CharacterManager.deleteCharacter,
    CharacterManager.getCharacter, CharacterManager.getCharactersByFlag,
    CharacterManager.getCharacterCount; simpl.
  split; [apply find_filter_same|].
  split; [intros; rewrite find_filter_same; reflexivity|].
  split; [intros other Hother; apply find_filter_other, Hother|].
  split.
  { intros flag. induction cs as [|c0 r IH]; simpl; [reflexivity|].
    destruct (String.eqb (CharacterManager.id c0) characterId) eqn:He,
             (String.eqb (CharacterManager.flagId c0) flag) eqn:Hf; simpl;
      rewrite ?He, ?Hf; simpl; rewrite ?IH; reflexivity. }
  split; [reflexivity|].
  split.
  { f_equal. apply filter_unknown, find_filter_same. }
  split.
  { intros Hnone. f_equal. apply filter_unknown, Hnone. }
  intros Hsome. destruct (List.find _ cs) as [c|] eqn:Hf; [|congruence].
  exact (filter_known_shorter characterId cs c Hf).
Qed.

Lemma deleteCharacter_removes_the_id_witness :
  (CharacterManager.getCharacterCount (CharacterManager.deleteCharacter "char_2" cast)
   < CharacterManager.getCharacterCount cast)%nat
  /\ CharacterManager.getCharacter "char_1"
       (CharacterManager.deleteCharacter "char_2" cast) = Some heroine.
Proof.
  destruct (deleteCharacter_removes_the_id "char_2" cast)
    as (_ & _ & Hother & _ & _ & _ & _ & Hless).
  split; [apply Hless; discriminate|].
  rewrite (Hother "char_1") by discriminate. reflexivity.
Defined.

(** * Projects *)

Lemma findProject_find (projectId : string) (ps : list Project) (k : nat) :
  match findProject projectId ps k with
  | Some n =>
      exists i, n = (k + i)%nat
                /\ is_Some (ps !! i)
                /\ ps !! i = List.find (fun p => String.eqb (project_id p) projectId) ps
  | None => List.find (fun p => String.eqb (project_id p) projectId) ps = None
  end.
Proof.
  revert k. induction ps as [|p r IH]; intros k; simpl; [reflexivity|].
  destruct (String.eqb (project_id p) projectId) eqn:He.
  - exists 0%nat. split; [lia|]. split; [eexists|]; reflexivity.
  - specialize (IH (S k)). destruct (findProject projectId r (S k)) as [n|].
    + destruct IH as (i & -> & Hi & Hf). exists (S i).
      split; [lia|]. split; assumption.
    + exact IH.
Qed.

Lemma loadProject_find (projectId : string) (pm : ProjectManager) :
  snd (loadProject projectId pm)
  = List.find (fun p => String.eqb (project_id p) projectId) (projects pm).
Proof.
  unfold loadProject. pose proof (findProject_find projectId (projects pm) 0) as H.
  destruct (findProject projectId (projects pm) 0) as [n|]; simpl.
  - destruct H as (i & -> & _ & Hf). exact Hf.
  - symmetry. exact H.
Qed.

Lemma find_kept_same (projectId : string) (ps : list Project) :
  List.find (fun p => String.eqb (project_id p) projectId)
    (List.filter (keepsProject projectId) ps) = None.
Proof.
  unfold keepsProject. induction ps as [|p r IH]; simpl; [reflexivity|].
  destruct (String.eqb (project_id p) projectId) eqn:He; simpl; [exact IH|].
  rewrite He. exact IH.
Qed.

Lemma find_kept_other (projectId other : string) (ps : list Project) :
  other <> projectId ->
  List.find (fun p => String.eqb (project_id p) other)
    (List.filter (keepsProject projectId) ps)
  = List.find (fun p => String.eqb (project_id p) other) ps.
Proof.
  intros Hne. unfold keepsProject. induction ps as [|p r IH]; simpl; [reflexivity|].
  destruct (String.eqb_spec (project_id p) projectId) as [He|Hk]; simpl.
  - destruct (String.eqb_spec (project_id p) other); [congruence|exact IH].
  - destruct (String.eqb (project_id p) other); [reflexivity|exact IH].
Qed.

Lemma lookup_kept (keep : Project -> bool) (ps : list Project) (i : nat) (p : Project) :
  ps !! i = Some p -> keep p = true ->
  List.filter keep ps !! length (List.filter keep (take i ps)) = Some p.
Proof.
  revert i. induction ps as [|q r IH]; intros i; [destruct i; discriminate|].
  destruct i as [|i]; simpl.
  - intros [= ->] ->. reflexivity.
  - intros Hi Hp. destruct (keep q); simpl; apply IH; assumption.
Qed.

(** X28.  [loadProject] returns the first project with the id and makes
    it the current one, without touching the list; with an id no project
    has it returns [null] and leaves the manager, and so the current
    project, as it was. *)
Theorem loadProject_selects_first_match (projectId : string) (pm : ProjectManager) :
  let pm' := fst (loadProject projectId pm) in
  projects pm' = projects pm
  /\ match snd (loadProject projectId pm) with
     | Some p =>
         project_id p = projectId
         /\ getCurrentProject pm' = Some p
         /\ exists i, projects pm !! i = Some p
                      /\ forall j q, (j < i)%nat -> projects pm !! j = Some q ->
                                     project_id q <> projectId
     | None =>
         pm' = pm
         /\ Forall (fun p => project_id p <> projectId) (projects pm)
     end.
Proof.
  cbv zeta. unfold loadProject.
  destruct (findProject projectId (projects pm) 0) as [n|] eqn:Hfind; simpl.
  - split; [reflexivity|].
    assert (Hgen : forall ps k n, findProject projectId ps k = Some n ->
              exists i p, n = (k + i)%nat /\ ps !! i = Some p
                /\ project_id p = projectId
                /\ forall j q, (j < i)%nat -> ps !! j = Some q ->
                               project_id q <> projectId).
    { clear. induction ps as [|p r IH]; intros k n; simpl; [discriminate|].
      destruct (String.eqb_spec (project_id p) projectId) as [He|Hne].
      - intros [= <-]. exists 0%nat, p. repeat split; [lia|assumption|lia].
      - intros H. destruct (IH _ _ H) as (i & q & -> & Hi & Hq & Hbefore).
        exists (S i), q. repeat split; [lia|exact Hi|exact Hq|].
        intros [|j] q' Hj; simpl; [intros [= <-]; exact Hne|].
        intros Hq'. apply (Hbefore j); [lia|exact Hq']. }
    destruct (Hgen _ _ _ Hfind) as (i & p & -> & Hi & Hp & Hbefore).
    simpl. rewrite Hi. split; [exact Hp|].
    split; [unfold getCurrentProject; simpl; exact Hi|].
    exists i. split; assumption.
  - split; [reflexivity|]. split; [reflexivity|].
    pose proof (findProject_find projectId (projects pm) 0) as H.
    rewrite Hfind in H. rewrite Forall_forall. intros p Hin He.
    apply list_elem_of_In in Hin.
    apply (List.find_none _ _ H) in Hin. simpl in Hin.
    rewrite He, String.eqb_refl in Hin. discriminate.
Qed.

Lemma loadProject_selects_first_match_witness :
  snd (loadProject "project_1" shelf) = Some novel
  /\ getCurrentProject (fst (loadProject "project_1" shelf)) = Some novel.
Proof.
  pose proof (loadProject_selects_first_match "project_1" shelf) as H.
  cbv zeta in H. destruct H as [_ H].
  change (snd (loadProject "project_1" shelf)) with (Some novel) in H |- *.
  destruct H as (_ & H & _). split; [reflexivity|exact H].
Defined.

(** X29.  [deleteProject] removes every project with the id: loading
    the id afterwards returns [null] and changes nothing, every other id
    loads the project it loaded before, the projects that stay keep
    their order, and the current project is cleared exactly if it has
    the id; otherwise it is the same project as before. *)
Theorem deleteProject_forgets_the_project (projectId : string) (pm : ProjectManager) :
  let pm' := deleteProject projectId pm in
  loadProject projectId pm' = (pm', None)
  /\ (forall other, other <> projectId ->
        snd (loadProject other pm') = snd (loadProject other pm))
  /\ projects pm' = List.filter (fun p => negb (String.eqb (project_id p) projectId))
                      (projects pm)
  /\ getCurrentProject pm'
     = match getCurrentProject pm with
       | Some p => if String.eqb (project_id p) projectId then None else Some p
       | None => None
       end
  /\ (Forall (fun p => project_id p <> projectId) (projects pm) ->
      projects pm' = projects pm /\ getCurrentProject pm' = getCurrentProject pm).
Proof.
  cbv zeta. split.
  { pose proof (findProject_find projectId (projects (deleteProject projectId pm)) 0) as H.
    unfold loadProject.
    destruct (findProject projectId (projects (deleteProject projectId pm)) 0) as [n|];
      [|reflexivity].
    destruct H as (i & _ & [p Hp] & Hf). simpl in Hf, Hp.
    rewrite find_kept_same in Hf. congruence. }
  split.
  { intros other Hother. rewrite !loadProject_find. simpl.
    apply find_kept_other, Hother. }
  split; [reflexivity|].
  assert (Hcur : getCurrentProject (deleteProject projectId pm)
                 = match getCurrentProject pm with
                   | Some p => if String.eqb (project_id p) projectId then None else Some p
                   | None => None
                   end).
  { unfold getCurrentProject, deleteProject; simpl.
    destruct (currentProject pm) as [i|]; [|reflexivity].
    destruct (projects pm !! i) as [p|] eqn:Hi; [|reflexivity].
    destruct (String.eqb (project_id p) projectId) eqn:He; [reflexivity|].
    apply lookup_kept; [exact Hi|]. unfold keepsProject. rewrite He. reflexivity. }
  split; [exact Hcur|].
  intros Hall.
  assert (Hsame : List.filter (keepsProject projectId) (projects pm) = projects pm).
  { clear Hcur. induction Hall as [|p r Hp _ IH]; simpl; [reflexivity|].
    unfold keepsProject at 1. destruct (String.eqb_spec (project_id p) projectId);
      [congruence|]. simpl. rewrite IH. reflexivity. }
  split; [exact Hsame|].
  rewrite Hcur. unfold getCurrentProject.
  destruct (currentProject pm) as [i|]; [|reflexivity].
  destruct (projects pm !! i) as [p|] eqn:Hi; [|reflexivity].
  rewrite Forall_forall in Hall.
  destruct (String.eqb_spec (project_id p) projectId) as [He|]; [|reflexivity].
  destruct (Hall p (list_elem_of_lookup_2 _ _ _ Hi) He).
Qed.

Lemma deleteProject_forgets_the_project_witness :
  snd (loadProject "project_2" (deleteProject "project_1" shelf)) = Some notebook
  /\ getCurrentProject (deleteProject "project_1" shelf) = Some notebook
  /\ projects (deleteProject "project_9" shelf) = projects shelf.
Proof.
  destruct (deleteProject_forgets_the_project "project_1" shelf)
    as (_ & Hother & _ & Hcur & _).
  destruct (deleteProject_forgets_the_project "project_9" shelf)
    as (_ & _ & _ & _ & Hnone).
  split; [rewrite (Hother "project_2") by discriminate; reflexivity|].
  split; [rewrite Hcur; reflexivity|].
  apply Hnone. repeat constructor; discriminate.
Defined.
